(** * PWD Tools: ledger store, computation routines, import and exporters

    A shallow embedding of [utils/database.py], [utils/excel_handler.py]
    and [utils/pdf_generator.py], the properties the specification
    states about them, and further properties of the code.

    Conventions.
    - Python numbers are exact rationals ([Q]); a result is compared with
      [==].  Floating-point rounding error is outside the model.
    - A Python [dict] with a fixed vocabulary of keys is a record whose
      fields are of type [field A]: the key is missing, or it is present
      with a value that may be [None].
    - A call that can raise returns an [outcome].
    - Names that the code pastes into SQL text (the table of
      [search_records], [update_record] and [delete_record], the columns
      of a search or an update) are plain identifiers: letters, digits
      and underscores.  Text with other characters in it (a qualified or
      quoted name, a fragment of SQL) is outside the model; the
      properties that depend on how a name resolves say so with
      [identifier]. *)

From Stdlib Require Import ZArith QArith Qround Lia.
From Stdlib Require Import Ascii String DecimalString OrderedTypeEx.
From stdpp Require Import base option list sorting gmap strings.

Local Open Scope Z_scope.
Local Open Scope string_scope.

(** ** Python values and exceptions *)

Inductive exn : Type :=
| KeyError (key_repr : string)
| TypeError
| ImportError (msg : string)
| NotImplementedError (msg : string)
| IntegrityError (msg : string)
| OperationalError (msg : string)
| DatabaseError (msg : string)    (* raised by [pd.read_sql_query] *)
| AttributeError (msg : string)
| Exception (msg : string).

Inductive outcome (A : Type) : Type :=
| Return (a : A)
| Raise (e : exn).
Arguments Return {A} a.
Arguments Raise {A} e.

Definition obind {A B} (m : outcome A) (k : A -> outcome B) : outcome B :=
  match m with
  | Return a => k a
  | Raise e => Raise e
  end.

Declare Scope outcome_scope.
Delimit Scope outcome_scope with outcome.
Notation "'let!' x ':=' m 'in' k" := (obind m (fun x => k))
  (at level 10, x name, m at level 100, k at level 200) : outcome_scope.

(** [repr(s)] of a string without quotes or escapes in it. *)
Definition repr_str (s : string) : string := "'" ++ s ++ "'".

(** [repr(l)] of a list of such strings. *)
Definition repr_list (l : list string) : string :=
  "[" ++ String.concat ", " (map repr_str l) ++ "]".

(** [str(e)] *)
Definition str_exn (e : exn) : string :=
  match e with
  | KeyError key_repr => key_repr
  | TypeError => "unsupported operand type(s)"
  | ImportError msg | NotImplementedError msg | IntegrityError msg
  | OperationalError msg | DatabaseError msg | AttributeError msg
  | Exception msg => msg
  end.

(** An entry of a dict: [Missing] when the key is not in the dict,
    [Present None] when it maps to Python's [None]. *)
Inductive field (A : Type) : Type :=
| Missing
| Present (v : option A).
Arguments Missing {A}.
Arguments Present {A} v.

(** [d.get(k)] *)
Definition get {A} (f : field A) : option A :=
  match f with
  | Missing => None
  | Present v => v
  end.

(** [d.get(k, dflt)] *)
Definition get_or {A} (dflt : A) (f : field A) : option A :=
  match f with
  | Missing => Some dflt
  | Present v => v
  end.

(** [d[k]] *)
Definition item {A} (key : string) (f : field A) : outcome (option A) :=
  match f with
  | Missing => Raise (KeyError (repr_str key))
  | Present v => Return v
  end.

(** [k in d] *)
Definition contains {A} (f : field A) : bool :=
  match f with
  | Missing => false
  | Present _ => true
  end.

(** A deduction as the forms and the exporters pass it around:
    [{'type': .., 'amount': .., 'rate': .., 'statutory': ..}]. *)
Record deduction : Type := {
  d_type : field string;
  d_amount : field Q;
  d_rate : field Q;
  d_statutory : field bool
}.

(** The [bill_data] dict, restricted to the keys the store and the
    summary expressions read. *)
Record bill_data : Type := {
  bill_number : field string;
  bill_date : field string;
  contractor_name : field string;
  project_name : field string;
  bill_amount : field Q;
  status : field string;
  deductions : field (list deduction)
}.

(** ** Computation routines *)

Section Calc.

Local Open Scope Q_scope.

(** Modelled from the spec: the deposit-interest routine
    (tools/financial/emd_refund.py) is not among the sources; only the
    certificate that prints its results is.  [days] is
    [refundDate - depositDate] in whole days. *)
Definition days_held (days : Z) : Z := Z.max 0 days.

(** Modelled from the spec: simple interest over the days held,
    [principal * annualRate/100 * daysHeld/365]. *)
Definition interest (principal rate : Q) (days : Z) : Q :=
  principal * (rate / 100) * (inject_Z (days_held days) / 365).

(** Modelled from the spec: [refund = principal + interest]. *)
Definition refund (principal rate : Q) (days : Z) : Q :=
  principal + interest principal rate days.

(** Rounding to two decimals the way [f"{x:.2f}"] does on an exact
    value: to the nearest hundredth, a tie going to the even one. *)
Definition round2 (x : Q) : Q :=
  let y := x * 100 in
  let n := Qfloor y in
  let n' :=
    match (y - inject_Z n) ?= (1 # 2) with
    | Lt => n
    | Gt => (n + 1)%Z
    | Eq => if Z.even n then n else (n + 1)%Z
    end in
  inject_Z n' / 100.

(** [sum(xs)] of Python: starts from [0]; adding [None] raises. *)
Fixpoint py_sum (xs : list (option Q)) (acc : Q) : outcome Q :=
  match xs with
  | [] => Return acc
  | Some x :: xs' => py_sum xs' (acc + x)
  | None :: xs' => Raise TypeError
  end.

(** [[d.get('amount', 0) for d in bill_data.get('deductions', [])]];
    iterating over [None] raises. *)
Definition deduction_amounts (b : bill_data) : outcome (list (option Q)) :=
  match get_or [] (deductions b) with
  | Some ds => Return (map (fun d => get_or 0 (d_amount d)) ds)
  | None => Raise TypeError
  end.

(** The value printed as "Total Deductions" by [create_bill_excel],
    [_add_bill_summary], [create_bill_pdf] and
    [generate_text_bill_report]:
    [sum([d.get('amount', 0) for d in bill_data.get('deductions', [])])]. *)
Definition total_deductions (b : bill_data) : outcome Q :=
  (let! amounts := deduction_amounts b in py_sum amounts 0)%outcome.

(** The value printed as "Net Amount":
    [bill_data.get('bill_amount', 0) - sum([...])]. *)
Definition net_amount (b : bill_data) : outcome Q :=
  let base := get_or 0 (bill_amount b) in
  (let! total := total_deductions b in
   match base with
   | Some base => Return (base - total)
   | None => Raise TypeError
   end)%outcome.

(** Modelled from the spec: a line of the deduction table
    (tools/calculation/deductions_table.py is not among the sources):
    a type tag, a rate, the statutory flag, and a fixed amount when one
    is given. *)
Record deduction_entry : Type := {
  e_type : string;
  e_fixed : option Q;
  e_rate : Q;
  e_statutory : bool
}.

(** Modelled from the spec: "amount = fixed value if given else
    rate% x base". *)
Definition deduction_amount (base : Q) (e : deduction_entry) : Q :=
  match e_fixed e with
  | Some v => v
  | None => e_rate e / 100 * base
  end.

(** Modelled from the spec: the derived record handed to the store and
    the exporters carries the computed amount under ['amount']. *)
Definition breakdown (base : Q) (es : list deduction_entry) : list deduction :=
  map (fun e => {| d_type := Present (Some (e_type e));
                   d_amount := Present (Some (deduction_amount base e));
                   d_rate := Present (Some (e_rate e));
                   d_statutory := Present (Some (e_statutory e)) |}) es.

(** [sum] over exact amounts. *)
Definition Qsum (xs : list Q) : Q := foldr Qplus 0 xs.

Definition bill_of (base : Q) (ds : list deduction) : bill_data :=
  {| bill_number := Missing; bill_date := Missing;
     contractor_name := Missing; project_name := Missing;
     bill_amount := Present (Some base); status := Missing;
     deductions := Present (Some ds) |}.

(** The deductions of the scenario: 5000 fixed, and 5% of the base. *)
Definition scenario_entries : list deduction_entry :=
  [ {| e_type := "Income Tax"; e_fixed := Some 5000; e_rate := 0;
       e_statutory := true |};
    {| e_type := "Security Deposit"; e_fixed := None; e_rate := 5;
       e_statutory := false |} ].

End Calc.

(** ** Ledger store: the SQLite database of [utils/database.py]

    A database maps a table name, in lower case, to a table; a table
    keeps its rows under their rowid.  In the four record tables
    [id INTEGER PRIMARY KEY AUTOINCREMENT] is the rowid.  A row holds one
    value per declared column, converted on its way in as the affinity
    of the column has it.  Integers and exponents are unbounded: the
    64-bit limits of the engine are outside the model.
    Strings are byte strings; text is compared bytewise, as SQLite's
    BINARY collation does, and a timestamp is the text
    [YYYY-MM-DD HH:MM:SS] that CURRENT_TIMESTAMP yields.  The
    [FOREIGN KEY] of [deductions] is declared but never enforced, since
    no connection turns [PRAGMA foreign_keys] on. *)

Inductive sql_value : Type :=
| SNull
| SInt (z : Z)
| SReal (q : Q)
| SText (s : string).

Definition bind_text (v : option string) : sql_value :=
  match v with Some s => SText s | None => SNull end.

Definition bind_real (v : option Q) : sql_value :=
  match v with Some q => SReal q | None => SNull end.

Definition bind_bool (v : option bool) : sql_value :=
  match v with Some true => SInt 1 | Some false => SInt 0 | None => SNull end.

Record column : Type := {
  c_name : string;
  c_type : string;       (* the declared type, as written *)
  c_not_null : bool;
  c_default_now : bool   (* DEFAULT CURRENT_TIMESTAMP *)
}.

Record table : Type := {
  t_rowid : option string;          (* the column that names the rowid *)
  t_columns : list column;          (* the other columns, as declared *)
  t_rows : gmap Z (list sql_value);
  t_seq : Z                         (* largest rowid ever handed out *)
}.

Abbreviation database := (gmap string table).

Definition plain (name type : string) : column :=
  {| c_name := name; c_type := type; c_not_null := false;
     c_default_now := false |}.
Definition not_null (name type : string) : column :=
  {| c_name := name; c_type := type; c_not_null := true;
     c_default_now := false |}.
Definition timestamp (name : string) : column :=
  {| c_name := name; c_type := "TIMESTAMP"; c_not_null := false;
     c_default_now := true |}.

Definition new_table (rowid : option string) (cols : list column) : table :=
  {| t_rowid := rowid; t_columns := cols; t_rows := ∅; t_seq := 0 |}.

Definition bills_table : table :=
  new_table (Some "id")
    [not_null "bill_number" "TEXT"; plain "bill_date" "DATE";
     plain "contractor_name" "TEXT"; plain "project_name" "TEXT";
     plain "bill_amount" "REAL"; plain "status" "TEXT";
     timestamp "created_at"].

Definition emd_refunds_table : table :=
  new_table (Some "id")
    [not_null "tender_number" "TEXT"; plain "contractor_name" "TEXT";
     plain "emd_amount" "REAL"; plain "deposit_date" "DATE";
     plain "refund_date" "DATE"; plain "interest_rate" "REAL";
     plain "refund_amount" "REAL"; plain "status" "TEXT";
     timestamp "created_at"].

Definition projects_table : table :=
  new_table (Some "id")
    [not_null "project_name" "TEXT"; plain "project_code" "TEXT";
     plain "contractor_name" "TEXT"; plain "agreement_amount" "REAL";
     plain "start_date" "DATE"; plain "completion_date" "DATE";
     plain "status" "TEXT"; timestamp "created_at"].

Definition deductions_table : table :=
  new_table (Some "id")
    [plain "bill_id" "INTEGER"; plain "deduction_type" "TEXT";
     plain "amount" "REAL"; plain "rate" "REAL";
     plain "is_statutory" "BOOLEAN"; timestamp "created_at"].

Definition settings_table : table :=
  new_table None
    [plain "key" "TEXT"; plain "value" "TEXT"; timestamp "updated_at"].

(** ASCII case folding: SQLite resolves identifiers and compares [LIKE]
    operands without regard to the case of the letters A-Z. *)
Definition lower_ascii (c : ascii) : ascii :=
  let n := N_of_ascii c in
  if ((65 <=? n) && (n <=? 90))%N then ascii_of_N (n + 32) else c.

Fixpoint lower (s : string) : string :=
  match s with
  | EmptyString => EmptyString
  | String c s' => String (lower_ascii c) (lower s')
  end.

(** The table an identifier names.  The code pastes the table argument
    into the SQL text; for a plain identifier that is this lookup. *)
Definition find_table (db : database) (name : string) : option table :=
  db !! lower name.

(** *** Connections and transactions

    [with sqlite3.connect(path) as conn:] runs its body in a transaction:
    leaving the block normally commits, leaving it by an exception rolls
    back what was not committed. *)

Record conn : Type := {
  committed : database;
  pending : database
}.

Definition stmt (A : Type) : Type := conn -> outcome A * conn.

Definition sret {A} (a : A) : stmt A := fun c => (Return a, c).

Definition sbind {A B} (m : stmt A) (k : A -> stmt B) : stmt B :=
  fun c =>
    match m c with
    | (Return a, c') => k a c'
    | (Raise e, c') => (Raise e, c')
    end.

Definition lift {A} (o : outcome A) : stmt A := fun c => (o, c).

Declare Scope stmt_scope.
Delimit Scope stmt_scope with stmt.
Notation "'let!' x ':=' m 'in' k" := (sbind m (fun x => k))
  (at level 10, x name, m at level 100, k at level 200) : stmt_scope.
Notation "m ';;' k" := (sbind m (fun _ => k))
  (at level 100, k at level 200, right associativity) : stmt_scope.

Fixpoint for_each {A} (xs : list A) (body : A -> stmt unit) : stmt unit :=
  match xs with
  | [] => sret tt
  | x :: xs' => (body x ;; for_each xs' body)%stmt
  end.

(** [conn.commit()] *)
Definition commit : stmt unit :=
  fun c => (Return tt, {| committed := pending c; pending := pending c |}).

Definition with_connect {A} (body : stmt A) (db : database)
  : outcome A * database :=
  match body {| committed := db; pending := db |} with
  | (Return a, c) => (Return a, pending c)
  | (Raise e, c) => (Raise e, committed c)
  end.

(** *** Statements *)

Definition max_rowid (rows : gmap Z (list sql_value)) : Z :=
  foldr Z.max 0 (map fst (map_to_list rows)).

(** AUTOINCREMENT: one more than the largest rowid that ever existed. *)
Definition next_rowid (t : table) : Z :=
  1 + Z.max (t_seq t) (max_rowid (t_rows t)).

Fixpoint assoc {A} (key : string) (l : list (string * A)) : option A :=
  match l with
  | [] => None
  | (k, v) :: l' => if String.eqb k key then Some v else assoc key l'
  end.

(** *** Column affinity

    SQLite converts a value on its way into a column according to the
    affinity of the column, which it reads off the declared type. *)

(** [needle in hay] on strings *)
Fixpoint infix_of (needle hay : string) : bool :=
  String.prefix needle hay ||
  match hay with
  | EmptyString => false
  | String _ hay' => infix_of needle hay'
  end.

Inductive affinity : Type := TEXT | NUMERIC | INTEGER | REAL | BLOB.

(** The rules of SQLite, in their order: a type with INT in it is
    INTEGER; with CHAR, CLOB or TEXT, TEXT; with BLOB, or no type, BLOB;
    with REAL, FLOA or DOUB, REAL; any other is NUMERIC.  So DATE,
    TIMESTAMP and BOOLEAN are NUMERIC. *)
Definition affinity_of_type (declared : string) : affinity :=
  let type := lower declared in
  if infix_of "int" type then INTEGER
  else if infix_of "char" type || infix_of "clob" type || infix_of "text" type
  then TEXT
  else if infix_of "blob" type || String.eqb type "" then BLOB
  else if infix_of "real" type || infix_of "floa" type || infix_of "doub" type
  then REAL
  else NUMERIC.

Definition column_affinity (col : column) : affinity :=
  affinity_of_type (c_type col).

Definition is_space (c : ascii) : bool :=
  let n := N_of_ascii c in
  ((n =? 32) || ((9 <=? n) && (n <=? 13)))%N.

Definition digit_of (c : ascii) : option Z :=
  let n := N_of_ascii c in
  if ((48 <=? n) && (n <=? 57))%N then Some (Z.of_N (n - 48)) else None.

Fixpoint skip_spaces (s : string) : string :=
  match s with
  | String c s' => if is_space c then skip_spaces s' else s
  | EmptyString => s
  end.

(** The digits [s] begins with: their value, read after [acc]; how
    many they are, counted from [n]; and what follows them. *)
Fixpoint digits_of (s : string) (acc : Z) (n : nat) : Z * nat * string :=
  match s with
  | String c s' =>
      match digit_of c with
      | Some d => digits_of s' (10 * acc + d) (S n)
      | None => (acc, n, s)
      end
  | EmptyString => (acc, n, s)
  end.

Definition sign_of (s : string) : Z * string :=
  match s with
  | String "-" s' => (-1, s')
  | String "+" s' => (1, s')
  | _ => (1, s)
  end.

(** [m * 10 ^ e] *)
Definition scale (m e : Z) : Q :=
  if (0 <=? e)%Z then inject_Z (m * 10 ^ e)
  else Qmake m (Z.to_pos (10 ^ (- e))).

(** The number a text is, when it is a well-formed integer or real
    literal: spaces, a sign, digits with or without a point, an exponent,
    spaces; one digit at least before the exponent, and one in it. *)
Definition numeric_literal (s : string) : option Q :=
  let '(sign, s1) := sign_of (skip_spaces s) in
  let '(whole, n1, s2) := digits_of s1 0 0 in
  let '(mantissa, n2, s3) :=
    match s2 with
    | String "." s2' => digits_of s2' whole 0
    | _ => (whole, 0%nat, s2)
    end in
  if Nat.eqb (n1 + n2) 0 then None
  else
    let exponent :=
      match s3 with
      | String c s3' =>
          if Ascii.eqb c "e" || Ascii.eqb c "E" then
            let '(esign, s4) := sign_of s3' in
            let '(e, n3, s5) := digits_of s4 0 0 in
            if Nat.eqb n3 0 then None else Some (esign * e, s5)
          else Some (0, s3)
      | EmptyString => Some (0, s3)
      end in
    match exponent with
    | Some (e, rest) =>
        match skip_spaces rest with
        | EmptyString => Some (scale (sign * mantissa) (e - Z.of_nat n2))
        | _ => None
        end
    | None => None
    end.

(** The integer a number is, if it is one. *)
Definition integer_valued (q : Q) : option Z :=
  let r := Qred q in
  if Pos.eqb (Qden r) 1 then Some (Qnum r) else None.

Definition number (q : Q) : sql_value :=
  match integer_valued q with
  | Some z => SInt z
  | None => SReal q
  end.

(** NUMERIC and INTEGER affinity: a text that is a well-formed number
    becomes that number, an integer if it can be; a REAL that is an
    integer becomes an INTEGER; any other value stays. *)
Definition numeric_affinity (v : sql_value) : sql_value :=
  match v with
  | SText s => match numeric_literal s with
               | Some q => number q
               | None => v
               end
  | SReal q => number q
  | _ => v
  end.

(** REAL affinity: as NUMERIC, and an integer is read back as a REAL. *)
Definition real_affinity (v : sql_value) : sql_value :=
  match v with
  | SText s => match numeric_literal s with
               | Some q => SReal q
               | None => v
               end
  | SInt z => SReal (inject_Z z)
  | _ => v
  end.

Definition digits (z : Z) : string :=
  DecimalString.NilZero.string_of_int (Z.to_int z).

Section Engine.

(** The text SQLite renders a REAL as, where it converts one to text:
    under TEXT affinity and as an operand of [LIKE]. *)
Variable real_text : Q -> string.

(** TEXT affinity: a number becomes its text. *)
Definition text_affinity (v : sql_value) : sql_value :=
  match v with
  | SInt z => SText (digits z)
  | SReal q => SText (real_text q)
  | _ => v
  end.

Definition apply_affinity (a : affinity) (v : sql_value) : sql_value :=
  match a with
  | TEXT => text_affinity v
  | NUMERIC | INTEGER => numeric_affinity v
  | REAL => real_affinity v
  | BLOB => v
  end.

(** The row an [INSERT INTO t (cols) VALUES (vals)] builds: a value
    given is converted as the affinity of its column has it, and a
    column not named gets its default, for [created_at] the text
    [YYYY-MM-DD HH:MM:SS] of the moment. *)
Definition new_row (t : table) (cols : list string) (vals : list sql_value)
    (now : string) : list sql_value :=
  map (fun col =>
         match assoc (c_name col) (zip cols vals) with
         | Some v => apply_affinity (column_affinity col) v
         | None => if c_default_now col then SText now else SNull
         end) (t_columns t).

Definition is_null (v : sql_value) : bool :=
  match v with SNull => true | _ => false end.

Fixpoint not_null_violation (cols : list column) (row : list sql_value)
  : option string :=
  match cols, row with
  | col :: cols', v :: row' =>
      if c_not_null col && is_null v then Some (c_name col)
      else not_null_violation cols' row'
  | _, _ => None
  end.

(** The first of [cols] that the table does not declare. *)
Definition unknown_column (t : table) (cols : list string) : option string :=
  List.find (fun col => negb (existsb (fun c => String.eqb (c_name c) col)
                                      (t_columns t))) cols.

(** [cursor.execute("INSERT INTO name (cols) VALUES (?, ...)", vals)];
    the result is [cursor.lastrowid].  [now] is what CURRENT_TIMESTAMP
    reads during the call. *)
Definition execute_insert (name : string) (cols : list string)
    (vals : list sql_value) (now : string) : stmt Z :=
  fun c =>
    match find_table (pending c) name with
    | None => (Raise (OperationalError ("no such table: " ++ name)), c)
    | Some t =>
        match unknown_column t cols with
        | Some col =>
            (Raise (OperationalError
                      ("table " ++ name ++ " has no column named " ++ col)), c)
        | None =>
            let row := new_row t cols vals now in
            match not_null_violation (t_columns t) row with
            | Some col =>
                (Raise (IntegrityError
                          ("NOT NULL constraint failed: "
                           ++ name ++ "." ++ col)), c)
            | None =>
                let rowid := next_rowid t in
                let t' := {| t_rowid := t_rowid t; t_columns := t_columns t;
                             t_rows := <[rowid := row]> (t_rows t);
                             t_seq := rowid |} in
                (Return rowid,
                 {| committed := committed c;
                    pending := <[lower name := t']> (pending c) |})
            end
        end
    end.

(** [cursor.execute(f"DELETE FROM {name} WHERE id = ?", (record_id,))];
    the result is [cursor.rowcount]. *)
Definition execute_delete (name : string) (record_id : Z) : stmt Z :=
  fun c =>
    match find_table (pending c) name with
    | None => (Raise (OperationalError ("no such table: " ++ name)), c)
    | Some t =>
        match t_rowid t with
        | None => (Raise (OperationalError "no such column: id"), c)
        | Some _ =>
            let t' := {| t_rowid := t_rowid t; t_columns := t_columns t;
                         t_rows := delete record_id (t_rows t);
                         t_seq := t_seq t |} in
            (Return (match t_rows t !! record_id with
                     | Some _ => 1
                     | None => 0
                     end),
             {| committed := committed c;
                pending := <[lower name := t']> (pending c) |})
        end
    end.

(** [CREATE TABLE IF NOT EXISTS name (...)] *)
Definition create_table_if_not_exists (name : string) (t : table) : stmt unit :=
  fun c =>
    match find_table (pending c) name with
    | Some _ => (Return tt, c)
    | None => (Return tt, {| committed := committed c;
                             pending := <[lower name := t]> (pending c) |})
    end.

(** *** Queries *)

Record DataFrame : Type := {
  df_columns : list string;
  df_rows : list (list sql_value)
}.

(** [pd.DataFrame()] *)
Definition empty_frame : DataFrame := {| df_columns := []; df_rows := [] |}.

Definition column_names (t : table) : list string :=
  match t_rowid t with
  | Some id => id :: map c_name (t_columns t)
  | None => map c_name (t_columns t)
  end.

(** A row as [SELECT *] shows it: the rowid column first. *)
Definition full_row (t : table) (kv : Z * list sql_value) : list sql_value :=
  match t_rowid t with
  | Some _ => SInt kv.1 :: kv.2
  | None => kv.2
  end.

Definition all_rows (t : table) : list (list sql_value) :=
  map (full_row t) (map_to_list (t_rows t)).

Fixpoint index_of (key : string) (names : list string) : option nat :=
  match names with
  | [] => None
  | n :: names' =>
      if String.eqb n key then Some O else S <$> index_of key names'
  end.

Definition column_index (t : table) (col : string) : option nat :=
  index_of (lower col) (column_names t).

Definition cell_at (i : nat) (row : list sql_value) : sql_value :=
  default SNull (row !! i).

Definition numeric (v : sql_value) : Q :=
  match v with
  | SInt z => inject_Z z
  | SReal q => q
  | _ => 0%Q
  end.

(** The order [ORDER BY] sorts by: NULL first, then numbers by value,
    then text bytewise. *)
Definition sql_leb (a b : sql_value) : bool :=
  match a, b with
  | SNull, _ => true
  | _, SNull => false
  | SText s, SText t => String.leb s t
  | SText _, _ => false
  | _, SText _ => true
  | _, _ => Qle_bool (numeric a) (numeric b)
  end.

(** [r1] may come before [r2] under [ORDER BY col DESC]. *)
Definition desc (i : nat) (r1 r2 : list sql_value) : Prop :=
  sql_leb (cell_at i r2) (cell_at i r1) = true.

#[global] Instance desc_dec i r1 r2 : Decision (desc i r1 r2).
Proof. unfold desc. apply _. Defined.

(** [LIMIT n]: a negative [n] puts no bound on the result. *)
Definition sql_limit {A} (n : Z) (rows : list A) : list A :=
  if (n <? 0)%Z then rows else take (Z.to_nat n) rows.

(** [pd.read_sql_query(
       f"SELECT * FROM {name} WHERE .. ORDER BY {order} DESC [LIMIT n]", conn)].
    SQL leaves the order of rows with equal keys open; here they come out
    as the merge sort leaves them. *)
Definition select_desc (name : string) (where_ : list sql_value -> bool)
    (order : string) (limit : option Z) (db : database) : outcome DataFrame :=
  match find_table db name with
  | None => Raise (DatabaseError ("no such table: " ++ name))
  | Some t =>
      match column_index t order with
      | None => Raise (DatabaseError ("no such column: " ++ order))
      | Some i =>
          let matching := filter (fun r => where_ r = true) (all_rows t) in
          let sorted := merge_sort (desc i) matching in
          Return {| df_columns := column_names t;
                    df_rows := match limit with
                               | Some n => sql_limit n sorted
                               | None => sorted
                               end |}
      end
  end.

Definition read_sql_query (q : database -> outcome DataFrame)
  : stmt DataFrame :=
  fun c => (q (pending c), c).

(** *** The [LIKE] operator *)

(** [like p t]: does the text [t] match the pattern [p]?  [%] stands
    for any run of bytes, [_] for any one, and letters match without
    regard to ASCII case. *)
Fixpoint like (p : string) : string -> bool :=
  match p with
  | EmptyString => fun t => match t with EmptyString => true | _ => false end
  | String "%" p' =>
      fix skip (t : string) : bool :=
        like p' t || match t with
                     | EmptyString => false
                     | String _ t' => skip t'
                     end
  | String "_" p' =>
      fun t => match t with
               | EmptyString => false
               | String _ t' => like p' t'
               end
  | String c p' =>
      fun t => match t with
               | EmptyString => false
               | String d t' =>
                   Ascii.eqb (lower_ascii c) (lower_ascii d) && like p' t'
               end
  end.


(** *** [DatabaseManager] *)

(** The [emd_data] dict of [save_emd_refund]. *)
Record emd_data : Type := {
  tender_number : field string;
  emd_contractor_name : field string;
  emd_amount : field Q;
  deposit_date : field string;
  refund_date : field string;
  interest_rate : field Q;
  refund_amount : field Q;
  emd_status : field string
}.

(** The [project_data] dict of [save_project]. *)
Record project_data : Type := {
  p_project_name : field string;
  project_code : field string;
  p_contractor_name : field string;
  agreement_amount : field Q;
  start_date : field string;
  completion_date : field string;
  p_status : field string
}.

Definition init_database : database -> outcome unit * database :=
  with_connect
    (create_table_if_not_exists "bills" bills_table ;;
     create_table_if_not_exists "emd_refunds" emd_refunds_table ;;
     create_table_if_not_exists "projects" projects_table ;;
     create_table_if_not_exists "deductions" deductions_table ;;
     create_table_if_not_exists "settings" settings_table ;;
     commit)%stmt.

Definition bill_columns : list string :=
  ["bill_number"; "bill_date"; "contractor_name"; "project_name";
   "bill_amount"; "status"].

Definition bill_values (bill : bill_data) : list sql_value :=
  [bind_text (get (bill_number bill));
   bind_text (get (bill_date bill));
   bind_text (get (contractor_name bill));
   bind_text (get (project_name bill));
   bind_real (get (bill_amount bill));
   bind_text (get_or "Active" (status bill))].

Definition deduction_columns : list string :=
  ["bill_id"; "deduction_type"; "amount"; "rate"; "is_statutory"].

Definition insert_deduction (bill_id : Z) (now : string) (d : deduction)
  : stmt unit :=
  (let! type := lift (item "type" (d_type d)) in
   let! amount := lift (item "amount" (d_amount d)) in
   let! _ := execute_insert "deductions" deduction_columns
               [SInt bill_id; bind_text type; bind_real amount;
                bind_real (get_or 0%Q (d_rate d));
                bind_bool (get_or false (d_statutory d))] now in
   sret tt)%stmt.

(** The block under [# Save deductions if any]. *)
Definition save_deductions (bill : bill_data) (bill_id : Z) (now : string)
  : stmt unit :=
  if contains (deductions bill) then
    (let! ds := lift (item "deductions" (deductions bill)) in
     match ds with
     | Some ds => for_each ds (insert_deduction bill_id now)
     | None => lift (Raise TypeError)
     end)%stmt
  else sret tt.

(** The body of the [with] block of [save_bill]. *)
Definition save_bill_body (bill : bill_data) (now : string) : stmt Z :=
  (let! bill_id := execute_insert "bills" bill_columns (bill_values bill) now in
   save_deductions bill bill_id now ;;
   commit ;;
   sret bill_id)%stmt.

Definition save_bill (bill : bill_data) (now : string)
  : database -> outcome Z * database :=
  with_connect (save_bill_body bill now).

Definition emd_columns : list string :=
  ["tender_number"; "contractor_name"; "emd_amount"; "deposit_date";
   "refund_date"; "interest_rate"; "refund_amount"; "status"].

Definition emd_values (emd : emd_data) : list sql_value :=
  [bind_text (get (tender_number emd));
   bind_text (get (emd_contractor_name emd));
   bind_real (get (emd_amount emd));
   bind_text (get (deposit_date emd));
   bind_text (get (refund_date emd));
   bind_real (get (interest_rate emd));
   bind_real (get (refund_amount emd));
   bind_text (get_or "Processed" (emd_status emd))].

Definition save_emd_refund (emd : emd_data) (now : string)
  : database -> outcome Z * database :=
  with_connect
    (let! rowid := execute_insert "emd_refunds" emd_columns
                     (emd_values emd) now in
     commit ;;
     sret rowid)%stmt.

Definition project_columns : list string :=
  ["project_name"; "project_code"; "contractor_name"; "agreement_amount";
   "start_date"; "completion_date"; "status"].

Definition project_values (project : project_data) : list sql_value :=
  [bind_text (get (p_project_name project));
   bind_text (get (project_code project));
   bind_text (get (p_contractor_name project));
   bind_real (get (agreement_amount project));
   bind_text (get (start_date project));
   bind_text (get (completion_date project));
   bind_text (get_or "Active" (p_status project))].

Definition save_project (project : project_data) (now : string)
  : database -> outcome Z * database :=
  with_connect
    (let! rowid := execute_insert "projects" project_columns
                     (project_values project) now in
     commit ;;
     sret rowid)%stmt.

(** [if limit:] holds for an integer other than 0. *)
Definition truthy (limit : option Z) : bool :=
  match limit with
  | Some n => negb (n =? 0)%Z
  | None => false
  end.

Definition everything (_ : list sql_value) : bool := true.

Definition list_newest_first (name : string) (limit : option Z)
  : database -> outcome DataFrame * database :=
  with_connect
    (read_sql_query
       (select_desc name everything "created_at"
          (if truthy limit then limit else None))).

Definition get_bills (limit : option Z)
  : database -> outcome DataFrame * database :=
  list_newest_first "bills" limit.

Definition get_emd_refunds (limit : option Z)
  : database -> outcome DataFrame * database :=
  list_newest_first "emd_refunds" limit.

Definition get_projects (limit : option Z)
  : database -> outcome DataFrame * database :=
  list_newest_first "projects" limit.

(** [search_columns.get(table, [])] *)
Definition search_columns (table_name : string) : list string :=
  if String.eqb table_name "bills" then
    ["bill_number"; "contractor_name"; "project_name"]
  else if String.eqb table_name "emd_refunds" then
    ["tender_number"; "contractor_name"]
  else if String.eqb table_name "projects" then
    ["project_name"; "project_code"; "contractor_name"]
  else [].

Definition delete_record (table_name : string) (record_id : Z)
  : database -> outcome bool * database :=
  with_connect
    (let! rowcount := execute_delete table_name record_id in
     commit ;;
     sret (0 <? rowcount)%Z)%stmt.

(** [value LIKE pattern]; NULL matches nothing. *)
Definition like_value (pattern : string) (v : sql_value) : bool :=
  match v with
  | SNull => false
  | SInt z => like pattern (digits z)
  | SReal q => like pattern (real_text q)
  | SText s => like pattern s
  end.

(** The [WHERE c1 LIKE ? OR c2 LIKE ? ...] of [search_records], with
    every parameter [f"%{search_term}%"]. *)
Definition like_any (search_term : string) (indices : list nat)
    (row : list sql_value) : bool :=
  existsb (fun i => like_value ("%" ++ search_term ++ "%") (cell_at i row))
          indices.

Definition search_query (table_name search_term : string)
    (columns : list string) (db : database) : outcome DataFrame :=
  match find_table db table_name with
  | None => Raise (DatabaseError ("no such table: " ++ table_name))
  | Some t =>
      match mapM (column_index t) columns with
      | None => Raise (DatabaseError "no such column")
      | Some indices =>
          select_desc table_name (like_any search_term indices)
            "created_at" None db
      end
  end.

Definition search_records (table_name search_term : string)
    (columns : option (list string))
  : database -> outcome DataFrame * database :=
  let columns :=
    match columns with
    | None | Some [] => search_columns table_name
    | Some cols => cols
    end in
  match columns with
  | [] => fun db => (Return empty_frame, db)
  | _ =>
      with_connect
        (read_sql_query (search_query table_name search_term columns))
  end.

(** *** Updates *)

(** The names by which an [UPDATE] can address the rowid: the column
    declared [INTEGER PRIMARY KEY], and [rowid], [oid] and [_rowid_]
    where no declared column has that name. *)
Definition rowid_names (t : table) : list string :=
  app (match t_rowid t with Some alias => [alias] | None => [] end)
      (filter (fun n => existsb (String.eqb n) (map c_name (t_columns t))
                        = false)
              ["rowid"; "oid"; "_rowid_"]).

(** The tuple with the value of the column [col] replaced by [v],
    converted as the affinity of the column has it. *)
Fixpoint set_cell (cols : list column) (col : string) (v : sql_value)
    (tuple : list sql_value) : list sql_value :=
  match cols, tuple with
  | c :: cols', old :: tuple' =>
      (if String.eqb (c_name c) col then apply_affinity (column_affinity c) v
       else old) :: set_cell cols' col v tuple'
  | _, _ => tuple
  end.

(** The assignments of a [SET] clause, applied from left to right, so
    that the rightmost assignment to a column is the one that stays.
    The values already stored were converted when they were written. *)
Definition apply_updates (cols : list column)
    (updates : list (string * sql_value)) (tuple : list sql_value)
  : list sql_value :=
  fold_left (fun acc cv => set_cell cols (lower cv.1) cv.2 acc) updates tuple.

(** The value last assigned to the column [col], if any. *)
Definition last_assigned (col : string) (updates : list (string * sql_value))
  : option sql_value :=
  fold_left (fun acc cv => if String.eqb (lower cv.1) col then Some cv.2 else acc)
            updates None.

(** The value last assigned to the rowid, under any of its names. *)
Definition rowid_assigned (t : table) (updates : list (string * sql_value))
  : option sql_value :=
  fold_left (fun acc cv =>
               if existsb (String.eqb (lower cv.1)) (rowid_names t)
               then Some cv.2 else acc)
            updates None.

(** The first column named by [updates] that the table does not have. *)
Definition unknown_update (t : table) (updates : list (string * sql_value))
  : option string :=
  fst <$> List.find (fun cv => negb (existsb (String.eqb (lower cv.1))
                                             (app (map c_name (t_columns t))
                                                  (rowid_names t))))
                    updates.

Section Update.

(** The integer SQLite makes of a value assigned to the rowid, if it
    makes one. *)
Variable as_rowid : sql_value -> option Z.

(** [cursor.execute(f"UPDATE {name} SET c1 = ?, .. WHERE id = ?",
                    values + [record_id])]; the result is
    [cursor.rowcount].  [updates] holds the items of the dict, the values
    as they are bound. *)
Definition execute_update (name : string)
    (updates : list (string * sql_value)) (record_id : Z) : stmt Z :=
  fun c =>
    match updates with
    | [] => (Raise (OperationalError "near WHERE: syntax error"), c)
    | _ =>
      match find_table (pending c) name with
      | None => (Raise (OperationalError ("no such table: " ++ name)), c)
      | Some t =>
        match unknown_update t updates, t_rowid t with
        | Some col, _ =>
            (Raise (OperationalError ("no such column: " ++ col)), c)
        | None, None => (Raise (OperationalError "no such column: id"), c)
        | None, Some alias =>
          match t_rows t !! record_id with
          | None => (Return 0, c)
          | Some tuple =>
            let tuple' := apply_updates (t_columns t) updates tuple in
            let store (rowid : Z) : outcome Z * conn :=
              let t' := {| t_rowid := t_rowid t; t_columns := t_columns t;
                           t_rows := <[rowid := tuple']>
                                       (delete record_id (t_rows t));
                           t_seq := t_seq t |} in
              (Return 1,
               {| committed := committed c;
                  pending := <[lower name := t']> (pending c) |}) in
            match not_null_violation (t_columns t) tuple' with
            | Some col =>
                (Raise (IntegrityError
                          ("NOT NULL constraint failed: "
                           ++ name ++ "." ++ col)), c)
            | None =>
              match rowid_assigned t updates with
              | None => store record_id
              | Some v =>
                match as_rowid v with
                | None => (Raise (IntegrityError "datatype mismatch"), c)
                | Some rowid =>
                    if bool_decide (rowid <> record_id /\
                                    is_Some (t_rows t !! rowid))
                    then (Raise (IntegrityError
                                   ("UNIQUE constraint failed: "
                                    ++ name ++ "." ++ alias)), c)
                    else store rowid
                end
              end
            end
          end
        end
      end
    end.

Definition update_record (table_name : string) (record_id : Z)
    (updates : list (string * sql_value))
  : database -> outcome bool * database :=
  with_connect
    (let! rowcount := execute_update table_name updates record_id in
     commit ;;
     sret (0 <? rowcount)%Z)%stmt.

End Update.

(** *** A bill with its deductions *)

(** [column = ?] with an integer parameter. *)
Definition sql_eq_int (v : sql_value) (b : Z) : bool :=
  match v with
  | SInt z => (z =? b)%Z
  | SReal q => Qeq_bool q (inject_Z b)
  | _ => false
  end.

Definition by_rowid (r1 r2 : Z * list sql_value) : Prop := (r1.1 <= r2.1)%Z.

#[global] Instance by_rowid_dec r1 r2 : Decision (by_rowid r1 r2).
Proof. unfold by_rowid. apply _. Defined.

(** The rows of a table as a scan of it meets them: by rowid. *)
Definition rows_by_rowid (t : table) : list (list sql_value) :=
  map (full_row t) (merge_sort by_rowid (map_to_list (t_rows t))).

(** [pd.read_sql_query(f"SELECT * FROM {name} WHERE {col} = ?", conn,
                       params=(b,))].  SQL leaves the order of the rows
    open; here they come in the order of the scan. *)
Definition select_eq (name col : string) (b : Z) (db : database)
  : outcome DataFrame :=
  match find_table db name with
  | None => Raise (DatabaseError ("no such table: " ++ name))
  | Some t =>
      match column_index t col with
      | None => Raise (DatabaseError ("no such column: " ++ col))
      | Some i =>
          Return {| df_columns := column_names t;
                    df_rows := filter (fun r => sql_eq_int (cell_at i r) b = true)
                                 (rows_by_rowid t) |}
      end
  end.

(** The result is [(bill_df, deduction_df)]. *)
Definition get_bill_with_deductions (bill_id : Z)
  : database -> outcome (DataFrame * DataFrame) * database :=
  with_connect
    (let! bill_df := read_sql_query (select_eq "bills" "id" bill_id) in
     let! deduction_df :=
       read_sql_query (select_eq "deductions" "bill_id" bill_id) in
     sret (bill_df, deduction_df))%stmt.

(** *** Statistics *)

Section Statistics.

(** The number SQLite's [SUM] takes a text for. *)
Variable text_number : string -> Q.

Definition summand (v : sql_value) : option Q :=
  match v with
  | SNull => None
  | SInt z => Some (inject_Z z)
  | SReal q => Some q
  | SText s => Some (text_number s)
  end.

(** [SUM(..)]: NULL cells are left out, and the sum of no cell is NULL. *)
Definition sql_sum (cells : list sql_value) : option Q :=
  match omap summand cells with
  | [] => None
  | xs => Some (foldr Qplus 0%Q xs)
  end.

(** [result if result else 0] *)
Definition or_zero (result : option Q) : Q :=
  match result with
  | Some q => if Qeq_bool q 0 then 0%Q else q
  | None => 0%Q
  end.

Definition is_text (s : string) (v : sql_value) : bool :=
  match v with
  | SText s' => String.eqb s' s
  | _ => false
  end.

(** [cursor.execute(f"SELECT COUNT(*) FROM {name}")] *)
Definition count_rows (name : string) : stmt Q :=
  fun c =>
    match find_table (pending c) name with
    | None => (Raise (OperationalError ("no such table: " ++ name)), c)
    | Some t => (Return (inject_Z (Z.of_nat (size (t_rows t)))), c)
    end.

(** [cursor.execute(f"SELECT SUM({col}) FROM {name} [WHERE status = ..]")];
    the result is [cursor.fetchone()[0]]. *)
Definition sum_column (name col : string) (with_status : option string)
  : stmt (option Q) :=
  fun c =>
    match find_table (pending c) name with
    | None => (Raise (OperationalError ("no such table: " ++ name)), c)
    | Some t =>
        match column_index t col, column_index t "status", with_status with
        | None, _, _ => (Raise (OperationalError ("no such column: " ++ col)), c)
        | Some i, _, None => (Return (sql_sum (map (cell_at i) (all_rows t))), c)
        | Some i, None, Some _ =>
            (Raise (OperationalError "no such column: status"), c)
        | Some i, Some j, Some wanted =>
            (Return (sql_sum
                       (map (cell_at i)
                          (filter (fun r => is_text wanted (cell_at j r) = true)
                                  (all_rows t)))), c)
        end
    end.

(** The result is the dict of statistics, its items in the order in
    which they are set. *)
Definition get_statistics : database -> outcome (list (string * Q)) * database :=
  with_connect
    (let! bills := count_rows "bills" in
     let! emd_refunds := count_rows "emd_refunds" in
     let! projects := count_rows "projects" in
     let! deductions := count_rows "deductions" in
     let! bills_amount := sum_column "bills" "bill_amount" (Some "Active") in
     let! emd_amount := sum_column "emd_refunds" "emd_amount" None in
     let! projects_value :=
       sum_column "projects" "agreement_amount" (Some "Active") in
     sret [("total_bills", bills);
           ("total_emd_refunds", emd_refunds);
           ("total_projects", projects);
           ("total_deductions", deductions);
           ("total_active_bills_amount", or_zero bills_amount);
           ("total_emd_amount", or_zero emd_amount);
           ("total_active_projects_value", or_zero projects_value)])%stmt.

End Statistics.

(** [stats[key]], 0 for a key that is not there. *)
Definition stat (key : string) (stats : list (string * Q)) : Q :=
  default 0%Q (assoc key stats).

(** *** Sample data: [init_sample_data] *)

Definition given {A} (a : A) : field A := Present (Some a).

Definition sample_bill : bill_data :=
  {| bill_number := given "B001/2024";
     bill_date := given "2024-01-15";
     contractor_name := given "ABC Construction";
     project_name := given "Road Construction Project";
     bill_amount := given 500000%Q;
     status := given "Active";
     deductions :=
       given [ {| d_type := given "Income Tax"; d_amount := given 5000%Q;
                  d_rate := given 1%Q; d_statutory := given true |};
               {| d_type := given "Security Deposit";
                  d_amount := given 25000%Q;
                  d_rate := given 5%Q; d_statutory := given false |} ] |}.

Definition sample_emd : emd_data :=
  {| tender_number := given "T001/2024";
     emd_contractor_name := given "XYZ Builders";
     emd_amount := given 50000%Q;
     deposit_date := given "2024-01-10";
     refund_date := given "2024-02-10";
     interest_rate := given 6%Q;
     refund_amount := given 50500%Q;
     emd_status := given "Processed" |}.

Definition sample_project : project_data :=
  {| p_project_name := given "Bridge Construction";
     project_code := given "PWD/BRG/001";
     p_contractor_name := given "PQR Infrastructure";
     agreement_amount := given 2000000%Q;
     start_date := given "2024-01-01";
     completion_date := given "2024-12-31";
     p_status := given "Active" |}.

(** Sequencing of calls on the manager. *)
Definition andthen {A B} (m : database -> outcome A * database)
    (k : A -> database -> outcome B * database)
  : database -> outcome B * database :=
  fun db =>
    match m db with
    | (Return a, db') => k a db'
    | (Raise e, db') => (Raise e, db')
    end.

Definition init_sample_data (now : string)
  : database -> outcome (Z * Z * Z) * database :=
  andthen init_database (fun _ =>
  andthen (save_bill sample_bill now) (fun bill_id =>
  andthen (save_emd_refund sample_emd now) (fun emd_id =>
  andthen (save_project sample_project now) (fun project_id =>
  fun db => (Return (bill_id, emd_id, project_id), db))))).

End Engine.

(** *** States and inputs used in the examples *)

Definition sample_now : string := "2024-03-01 09:00:00".

(** A database on which only [init_database] has run. *)
Definition fresh_db : database := (init_database ∅).2.

(** The database after [init_sample_data]. *)
Definition sample_db : database :=
  (init_sample_data (fun _ => "") sample_now ∅).2.

(** [{}] *)
Definition empty_bill : bill_data :=
  {| bill_number := Missing; bill_date := Missing;
     contractor_name := Missing; project_name := Missing;
     bill_amount := Missing; status := Missing; deductions := Missing |}.

(** A bill whose second deduction has no ['amount']. *)
Definition broken_bill : bill_data :=
  {| bill_number := given "B002/2024";
     bill_date := given "2024-02-01";
     contractor_name := given "ABC Construction";
     project_name := given "Road Construction Project";
     bill_amount := given 100000%Q;
     status := Missing;
     deductions :=
       given [ {| d_type := given "Income Tax"; d_amount := given 1000%Q;
                  d_rate := given 1%Q; d_statutory := given true |};
               {| d_type := given "Security Deposit"; d_amount := Missing;
                  d_rate := given 5%Q; d_statutory := given false |} ] |}.

(** A bill of a contractor written in lower case. *)
Definition lowercase_bill : bill_data :=
  {| bill_number := given "B003/2024";
     bill_date := given "2024-02-15";
     contractor_name := given "abc builders";
     project_name := given "culvert repair";
     bill_amount := given 75000%Q;
     status := given "Active";
     deductions := Missing |}.

Definition lowercase_db : database :=
  (save_bill (fun _ => "") lowercase_bill sample_now fresh_db).2.

(** ** Import of uploaded workbooks: [utils/excel_handler.py]

    A sheet is a [DataFrame] whose headers are text; a missing cell
    (NaN) is [SNull].  Headers are ASCII, so that [str.lower] is
    [lower]. *)

Inductive upload : Type :=
| Unreadable (reason : string)      (* [pd.read_excel] raises *)
| Workbook (first_sheet : DataFrame).

Definition read_excel_file (file : upload) : outcome DataFrame :=
  match file with
  | Workbook df => Return df
  | Unreadable reason =>
      Raise (Exception ("Error reading Excel file: " ++ reason))
  end.

(** [s.replace(' ', '_')] *)
Fixpoint underscores (s : string) : string :=
  match s with
  | EmptyString => EmptyString
  | String c s' =>
      String (if Ascii.eqb c " " then "_"%char else c) (underscores s')
  end.

(** [df.columns.str.lower().str.replace(' ', '_')] *)
Definition normalised (columns : list string) : list string :=
  map (fun c => underscores (lower c)) columns.

(** [x in names] *)
Definition member (x : string) (names : list string) : bool :=
  existsb (String.eqb x) names.

(** [[col for col in wanted if col not in present]] *)
Definition missing_from (present wanted : list string) : list string :=
  filter (fun col => member col present = false) wanted.

Definition expected_columns : list string :=
  ["tender_number"; "contractor_name"; "emd_amount"; "deposit_date"; "status"].

(** [df[col] = f(df[col])] *)
Definition map_column (f : sql_value -> sql_value) (col : string)
    (df : DataFrame) : DataFrame :=
  {| df_columns := df_columns df;
     df_rows :=
       map (fun row =>
              zip_with (fun name v => if String.eqb name col then f v else v)
                       (df_columns df) row)
           (df_rows df) |}.

(** [df.dropna(subset=cols)] *)
Definition dropna (cols : list string) (df : DataFrame) : outcome DataFrame :=
  match missing_from (df_columns df) cols with
  | [] =>
      Return
        {| df_columns := df_columns df;
           df_rows :=
             filter (fun row =>
                       existsb (fun nv => member nv.1 cols && is_null nv.2)
                               (zip (df_columns df) row) = false)
                    (df_rows df) |}
  | absent => Raise (KeyError (repr_list absent))
  end.

(** [df.empty] *)
Definition df_empty (df : DataFrame) : bool :=
  match df_columns df, df_rows df with
  | [], _ | _, [] => true
  | _, _ => false
  end.

Fixpoint has_duplicates (names : list string) : bool :=
  match names with
  | [] => false
  | n :: names' => member n names' || has_duplicates names'
  end.


(** The cells of the column at position [i]. *)
Definition column_cells (i : nat) (df : DataFrame) : list sql_value :=
  map (cell_at i) (df_rows df).

Section ExcelImport.

(** [pd.to_datetime(.., errors='coerce')] and
    [pd.to_numeric(.., errors='coerce')], cell by cell. *)
Variable to_datetime to_numeric : sql_value -> sql_value.

(** Whether [pd.to_datetime(col, errors='raise')], respectively
    [pd.to_numeric(col, errors='raise')], accepts a column. *)
Variable parses_as_dates parses_as_numbers : list sql_value -> bool.

Definition when_present (f : sql_value -> sql_value) (col : string)
    (df : DataFrame) : DataFrame :=
  if member col (df_columns df) then map_column f col df else df.

(** The message of the [AttributeError] that pandas raises for [.str]
    on an index that is not of strings. *)
Variable str_accessor_error : string.

(** [df.columns.str]: the string methods of the headers.  A frame
    without columns, which is what [pd.read_excel] makes of an empty
    sheet, is [pd.DataFrame()]; its columns are a [RangeIndex], and the
    accessor raises on an index that is not of strings. *)
Definition str_accessor (columns : list string) : outcome (list string) :=
  match columns with
  | [] => Raise (AttributeError str_accessor_error)
  | _ => Return columns
  end.

(** The body of the [try] of [process_emd_excel]. *)
Definition process_emd_excel_body (file : upload)
  : outcome (option DataFrame * option string) :=
  (let! df := read_excel_file file in
   let! headers := str_accessor (df_columns df) in
   match missing_from (normalised headers) expected_columns with
   | [] =>
       let processed := when_present to_datetime "deposit_date" df in
       let processed := when_present to_numeric "emd_amount" processed in
       let! processed := dropna ["tender_number"; "emd_amount"] processed in
       Return (Some processed, None)
   | missing_columns =>
       Return (None, Some ("Missing columns: "
                           ++ String.concat ", " missing_columns))
   end)%outcome.

Definition process_emd_excel (file : upload)
  : option DataFrame * option string :=
  match process_emd_excel_body file with
  | Return result => result
  | Raise e => (None, Some ("Error processing EMD Excel file: " ++ str_exn e))
  end.

Definition format_warnings (df : DataFrame) : list string :=
  flat_map (fun '(i, col) =>
              let col_lower := underscores (lower col) in
              app
                (if infix_of "date" col_lower
                    && negb (parses_as_dates (column_cells i df))
                 then ["Column '" ++ col ++ "' may contain invalid dates"]
                 else [])
                (if (infix_of "amount" col_lower || infix_of "value" col_lower)
                    && negb (parses_as_numbers (column_cells i df))
                 then ["Column '" ++ col ++ "' may contain non-numeric values"]
                 else []))
           (imap (fun i col => (i, col)) (df_columns df)).

Definition empty_columns (df : DataFrame) : list string :=
  flat_map (fun '(i, col) =>
              if forallb is_null (column_cells i df) then [col] else [])
           (imap (fun i col => (i, col)) (df_columns df)).

(** The result is [(errors, warnings)]. *)
Definition validate_excel_structure (df : DataFrame)
    (required_columns : list string) : list string * list string :=
  if df_empty df then (["Excel file is empty"], [])
  else
    let missing_columns :=
      missing_from (normalised (df_columns df)) (normalised required_columns) in
    let errors :=
      match missing_columns with
      | [] => []
      | _ => ["Missing required columns: "
              ++ String.concat ", " missing_columns]
      end in
    let warnings :=
      concat
        [ if has_duplicates (df_columns df)
          then ["Duplicate column headers detected"] else [];
          match empty_columns df with
          | [] => []
          | cols => ["Empty columns detected: " ++ String.concat ", " cols]
          end;
          format_warnings df ] in
    (errors, warnings).

End ExcelImport.

(** The sheet [create_emd_template] writes, read back. *)
Definition emd_template : DataFrame :=
  {| df_columns :=
       ["Tender Number"; "Contractor/Bidder Name"; "EMD Amount";
        "Deposit Date"; "Tender Date"; "Work Description"; "Contact Number";
        "Bank Details"; "Status"; "Remarks"];
     df_rows :=
       [ [SText "T001/2024"; SText "ABC Construction"; SInt 50000;
          SText "2024-01-15"; SText "2024-01-10"; SText "Road Construction";
          SText "9876543210"; SText "SBI Account"; SText "Active";
          SText "Sample data"];
         [SText "T002/2024"; SText "XYZ Builders"; SInt 75000;
          SText "2024-01-20"; SText "2024-01-15";
          SText "Building Construction"; SText "9876543211";
          SText "HDFC Account"; SText "Active"; SText "Sample data"] ] |}.

(** ** Document exporters

    The third-party pipelines (ReportLab's document builder, pandas'
    [ExcelWriter] with the openpyxl engine, openpyxl's workbook) are
    parameters; the code around them is modelled: the availability flags
    set by the guarded imports, the factory, the fallback class and the
    fallback branch. *)

Inductive rendered : Type :=
| Buffer (bytes : string)     (* [buffer.getvalue()] *)
| FilePath (path : string).   (* the [output_path] written to *)

Inductive pdf_job : Type :=
| BillPdf (bill : bill_data)
| EmdRefundPdf (emd : emd_data)
| ProjectReportPdf (project : project_data).

Inductive pdf_generator : Type :=
| PDFGenerator
| PDFGeneratorFallback.

(** [data] of the workbook exporter: one frame, or a dict of sheets. *)
Inductive excel_data : Type :=
| Frame (df : DataFrame)
| Sheets (sheets : list (string * DataFrame)).

Definition reportlab_required : string :=
  "ReportLab is required for PDF generation. Install with: pip install reportlab".

Definition pdf_requires_reportlab : string :=
  "PDF generation requires ReportLab. Install with: pip install reportlab".

Section Exporters.

(** Set by the guarded imports at module load. *)
Variable REPORTLAB_AVAILABLE OPENPYXL_AVAILABLE : bool.

(** What the bodies of the three [PDFGenerator.create_*_pdf] methods
    build with ReportLab. *)
Variable reportlab_build : pdf_job -> option string -> outcome rendered.

(** [pd.ExcelWriter(.., engine='openpyxl')] writing the given sheets.
    Where openpyxl is not installed the writer cannot load its engine
    and raises an [ImportError]. *)
Variable excel_writer :
  list (string * DataFrame) -> option string -> outcome rendered.

(** The styled workbook [create_formatted_excel] builds with openpyxl. *)
Variable openpyxl_report :
  string -> excel_data -> option string -> outcome rendered.

(** [PDFGenerator()] *)
Definition PDFGenerator_init : outcome pdf_generator :=
  if negb REPORTLAB_AVAILABLE then Raise (ImportError reportlab_required)
  else Return PDFGenerator.

(** [PDFGeneratorFallback()]; its [available] attribute is [False]. *)
Definition PDFGeneratorFallback_init : outcome pdf_generator :=
  Return PDFGeneratorFallback.

Definition available (g : pdf_generator) : bool :=
  match g with
  | PDFGenerator => true
  | PDFGeneratorFallback => false
  end.

Definition get_pdf_generator : outcome pdf_generator :=
  if REPORTLAB_AVAILABLE then PDFGenerator_init else PDFGeneratorFallback_init.

(** A call of one of [create_bill_pdf], [create_emd_refund_pdf] and
    [create_project_report_pdf] on a generator. *)
Definition create_pdf (g : pdf_generator) (job : pdf_job)
    (output_path : option string) : outcome rendered :=
  match g with
  | PDFGenerator => reportlab_build job output_path
  | PDFGeneratorFallback => Raise (NotImplementedError pdf_requires_reportlab)
  end.

Definition create_bill_pdf g (bill : bill_data) := create_pdf g (BillPdf bill).
Definition create_emd_refund_pdf g (emd : emd_data) :=
  create_pdf g (EmdRefundPdf emd).
Definition create_project_report_pdf g (project : project_data) :=
  create_pdf g (ProjectReportPdf project).

Definition write_excel_file (data : excel_data) (file_path : option string)
    (sheet_name : string) : outcome rendered :=
  match data with
  | Sheets sheets => excel_writer sheets file_path
  | Frame df => excel_writer [(sheet_name, df)] file_path
  end.

Definition create_formatted_excel (data : excel_data)
    (file_path : option string) (title : string) : outcome rendered :=
  if negb OPENPYXL_AVAILABLE then write_excel_file data file_path "Sheet1"
  else openpyxl_report title data file_path.

End Exporters.

(** ** Vocabulary of the properties *)

(** A statement that leaves what is committed alone and changes no table
    but [name]. *)
Definition frames {A} (name : string) (m : stmt A) : Prop :=
  forall c r c', m c = (r, c') ->
    committed c' = committed c /\
    forall k, k <> name -> pending c' !! k = pending c !! k.

(** The table [name] exists with the rowid column and the columns of
    [schema]. *)
Definition has_table (db : database) (name : string) (schema : table) : Prop :=
  exists t, db !! name = Some t /\
            t_rowid t = t_rowid schema /\ t_columns t = t_columns schema.

(** In every table with the columns of [schema], [created_at] is at
    position [i] of a listed row, and an [INSERT] of [vals] into [cols]
    names known columns only and builds [tuple]. *)
Definition layout (real_text : Q -> string) (schema : table)
    (cols : list string) (vals : list sql_value) (now : string) (i : nat)
    (tuple : list sql_value) : Prop :=
  forall t,
    t_rowid t = t_rowid schema -> t_columns t = t_columns schema ->
    column_index t "created_at" = Some i /\
    unknown_column t cols = None /\
    new_row real_text t cols vals now = tuple.

(** The state [DatabaseManager.__init__] establishes. *)
Definition initialised (db : database) : Prop :=
  has_table db "bills" bills_table /\
  has_table db "emd_refunds" emd_refunds_table /\
  has_table db "projects" projects_table /\
  has_table db "deductions" deductions_table /\
  has_table db "settings" settings_table.

(** [get] lists the rows of [t] newest first: [i] is the position of
    [created_at]. *)
Definition lists_newest_first
    (get : option Z -> database -> outcome DataFrame * database)
    (t : table) (i : nat) (db : database) : Prop :=
  exists rows,
    get None db =
      (Return {| df_columns := column_names t; df_rows := rows |}, db) /\
    StronglySorted (desc i) rows /\
    rows ≡ₚ all_rows t /\
    (forall n, 0 < n ->
       get (Some n) db =
       (Return {| df_columns := column_names t;
                  df_rows := take (Z.to_nat n) rows |}, db)) /\
    (forall n, n <= 0 -> get (Some n) db = get None db).

(** A record that carries its identifying field and nothing else. *)
Definition bill_numbered (number : string) : bill_data :=
  {| bill_number := Present (Some number); bill_date := Missing;
     contractor_name := Missing; project_name := Missing;
     bill_amount := Missing; status := Missing; deductions := Missing |}.

Definition emd_numbered (number : string) : emd_data :=
  {| tender_number := Present (Some number); emd_contractor_name := Missing;
     emd_amount := Missing; deposit_date := Missing; refund_date := Missing;
     interest_rate := Missing; refund_amount := Missing;
     emd_status := Missing |}.

Definition project_named (name : string) : project_data :=
  {| p_project_name := Present (Some name); project_code := Missing;
     p_contractor_name := Missing; agreement_amount := Missing;
     start_date := Missing; completion_date := Missing; p_status := Missing |}.

(** The save returned the fresh id [id] and stored [tuple] under it in
    the table [name], changing nothing else. *)
Definition stored (name : string) (tuple : list sql_value)
    (db : database) (result : outcome Z * database) : Prop :=
  exists t id,
    db !! name = Some t /\
    t_rows t !! id = None /\
    result =
      (Return id,
       <[name := {| t_rowid := t_rowid t; t_columns := t_columns t;
                    t_rows := <[id := tuple]> (t_rows t); t_seq := id |}]> db).

(** The save raised an [IntegrityError] and stored nothing. *)
Definition rejected (db : database) (result : outcome Z * database) : Prop :=
  exists msg, result = (Raise (IntegrityError msg), db).

(** The values of a table's rows, without their ids. *)
Definition tuples (t : table) : list (list sql_value) :=
  (map_to_list (t_rows t)).*2.

(** The row [save_bill] stores for a deduction of the bill [bill_id]. *)
Definition deduction_tuple (bill_id : Z) (now : string) (d : deduction)
  : list sql_value :=
  [SInt bill_id; bind_text (get (d_type d)); bind_real (get (d_amount d));
   bind_real (get_or 0%Q (d_rate d)); bind_bool (get_or false (d_statutory d));
   SText now].

(** A date as a DATE column keeps it: a text that is a well-formed
    number is kept as that number, any other text as it is. *)
Definition stored_date (v : option string) : sql_value :=
  numeric_affinity (bind_text v).

(** The rows the three saves store. *)
Definition bill_row (bill : bill_data) (now : string) : list sql_value :=
  [bind_text (get (bill_number bill));
   stored_date (get (bill_date bill));
   bind_text (get (contractor_name bill));
   bind_text (get (project_name bill));
   bind_real (get (bill_amount bill));
   bind_text (get_or "Active" (status bill));
   SText now].

Definition emd_row (emd : emd_data) (now : string) : list sql_value :=
  [bind_text (get (tender_number emd));
   bind_text (get (emd_contractor_name emd));
   bind_real (get (emd_amount emd));
   stored_date (get (deposit_date emd));
   stored_date (get (refund_date emd));
   bind_real (get (interest_rate emd));
   bind_real (get (refund_amount emd));
   bind_text (get_or "Processed" (emd_status emd));
   SText now].

Definition project_row (project : project_data) (now : string)
  : list sql_value :=
  [bind_text (get (p_project_name project));
   bind_text (get (project_code project));
   bind_text (get (p_contractor_name project));
   bind_real (get (agreement_amount project));
   stored_date (get (start_date project));
   stored_date (get (completion_date project));
   bind_text (get_or "Active" (p_status project));
   SText now].

(** A plain identifier: letters, digits and underscores, the first not
    a digit. *)
Definition identifier_char (c : ascii) : bool :=
  let n := N_of_ascii c in
  (((65 <=? n) && (n <=? 90)) || ((97 <=? n) && (n <=? 122))
   || ((48 <=? n) && (n <=? 57)) || (n =? 95))%N.

Definition identifier (s : string) : bool :=
  match s with
  | EmptyString => false
  | String c _ =>
      match digit_of c with
      | Some _ => false
      | None => forallb identifier_char (list_ascii_of_string s)
      end
  end.

(** The values stored for a deduction of the bill [bill_id]: its row
    without the [created_at] that the insert adds. *)
Definition stored_deduction (bill_id : Z) (d : deduction) : list sql_value :=
  [SInt bill_id; bind_text (get (d_type d)); bind_real (get (d_amount d));
   bind_real (get_or 0%Q (d_rate d)); bind_bool (get_or false (d_statutory d))].

(** The deductions a bill lists: none when the key is missing. *)
Definition listed_deductions (bill : bill_data) : list deduction :=
  match deductions bill with
  | Present (Some ds) => ds
  | _ => []
  end.

(** A search term without the wildcards of [LIKE]. *)
Fixpoint no_wildcard (term : string) : bool :=
  match term with
  | EmptyString => true
  | String c term' =>
      negb (Ascii.eqb c "%") && negb (Ascii.eqb c "_") && no_wildcard term'
  end.

(** [text] contains [term] when the case of ASCII letters is ignored. *)
Definition contains_nocase (term text : string) : Prop :=
  exists pre mid post, text = pre ++ mid ++ post /\ lower mid = lower term.

Section SearchVocabulary.

Variable real_text : Q -> string.

(** The text [LIKE] sees in a cell. *)
Definition cell_text (v : sql_value) : option string :=
  match v with
  | SNull => None
  | SInt z => Some (digits z)
  | SReal q => Some (real_text q)
  | SText s => Some s
  end.

(** One of the cells at [indices] contains the term, case ignored. *)
Definition mentions (term : string) (indices : list nat)
    (row : list sql_value) : Prop :=
  exists i s, i ∈ indices /\ cell_text (cell_at i row) = Some s /\
              contains_nocase term s.


End SearchVocabulary.

(** ** Vocabulary of the further properties *)

(** The table a [CREATE TABLE IF NOT EXISTS] leaves under [name]. *)
Definition ensure (name : string) (t : table) (db : database) : database :=
  match db !! name with
  | Some _ => db
  | None => <[name := t]> db
  end.

(** The names of the five tables. *)
Definition table_names : list string :=
  ["bills"; "emd_refunds"; "projects"; "deductions"; "settings"].

(** Every table of [db] is in [db'] with the same columns. *)
Definition same_schema (db db' : database) : Prop :=
  forall name t, db !! name = Some t ->
    exists t', db' !! name = Some t' /\
               t_rowid t' = t_rowid t /\ t_columns t' = t_columns t.

(** In a transaction begun on [db], the tables have kept their columns. *)
Definition conn_keeps_schema (db : database) (c : conn) : Prop :=
  same_schema db (pending c) /\ same_schema db (committed c).

Definition keeps_schema {A} (m : stmt A) : Prop :=
  forall db c r c', conn_keeps_schema db c -> m c = (r, c') ->
                    conn_keeps_schema db c'.

(** The rows of [t] have one value per column and no NULL in a column
    declared [NOT NULL]. *)
Definition rows_ok (t : table) : Prop :=
  forall k tuple, t_rows t !! k = Some tuple ->
    length tuple = length (t_columns t) /\
    not_null_violation (t_columns t) tuple = None.

(** Every table of the database has such rows. *)
Definition consistent (db : database) : Prop :=
  forall name t, db !! name = Some t -> rows_ok t.

Definition keeps_consistent {A} (m : stmt A) : Prop :=
  forall c r c', consistent (pending c) -> consistent (committed c) ->
                 m c = (r, c') ->
                 consistent (pending c') /\ consistent (committed c').

(** No deduction refers to a bill id that has not been handed out. *)
Definition references_known (db : database) : Prop :=
  exists tb td,
    db !! "bills" = Some tb /\ db !! "deductions" = Some td /\
    forall k tuple b,
      t_rows td !! k = Some tuple ->
      sql_eq_int (cell_at 0 tuple) b = true -> b <= t_seq tb.

(** What a bill adds to the amount of the active bills. *)
Definition active_amount (bill : bill_data) : Q :=
  match get_or "Active" (status bill), get (bill_amount bill) with
  | Some s, Some a => if String.eqb s "Active" then a else 0%Q
  | _, _ => 0%Q
  end.

Section StatisticsVocabulary.

Variable text_number : string -> Q.

(** The sum of the cells that are not NULL. *)
Definition sum_cells (cells : list sql_value) : Q :=
  foldr Qplus 0%Q (omap (summand text_number) cells).

End StatisticsVocabulary.

(** ** Further states and inputs of the examples *)

(** A bill whose date is written without separators. *)
Definition compact_date_bill : bill_data :=
  {| bill_number := given "B004/2024";
     bill_date := given "20240115";
     contractor_name := given "ABC Construction";
     project_name := given "Road Construction Project";
     bill_amount := given 120000%Q;
     status := given "Active";
     deductions := Missing |}.

(** Three bills, saved on the second, the first and the third of
    March, in this order. *)
Definition march_bills : database :=
  (save_bill (fun _ => "") (bill_numbered "B-03") "2024-03-03 10:00:00"
     (save_bill (fun _ => "") (bill_numbered "B-01") "2024-03-01 10:00:00"
        (save_bill (fun _ => "") (bill_numbered "B-02") "2024-03-02 10:00:00"
           fresh_db).2).2).2.

(** With them two EMD refunds, the later one saved first, and two
    projects, the earlier one saved first. *)
Definition march_db : database :=
  (save_project (fun _ => "") sample_project "2024-03-04 12:00:00"
     (save_project (fun _ => "") sample_project "2024-03-01 12:00:00"
        (save_emd_refund (fun _ => "") sample_emd "2024-03-01 11:00:00"
           (save_emd_refund (fun _ => "") sample_emd "2024-03-02 11:00:00"
              march_bills).2).2).2).2.

(** The table [name] of a database. *)
Definition table_of (db : database) (name : string) : table :=
  default (new_table None []) (find_table db name).

(** The rowid an integer value stands for. *)
Definition int_rowid (v : sql_value) : option Z :=
  match v with
  | SInt z => Some z
  | _ => None
  end.

(** What pandas 2 says when [.str] is used on an index that is not of
    strings. *)
Definition accessor_message : string :=
  "Can only use .str accessor with string values!".

(** A sheet under the headers the import expects; its second row lacks
    the amount. *)
Definition emd_sheet : DataFrame :=
  {| df_columns :=
       ["tender_number"; "contractor_name"; "emd_amount"; "deposit_date";
        "status"];
     df_rows :=
       [ [SText "T001/2024"; SText "ABC Construction"; SInt 50000;
          SText "2024-01-15"; SText "Active"];
         [SText "T002/2024"; SText "XYZ Builders"; SNull;
          SText "2024-01-20"; SText "Active"] ] |}.

(** * Properties *)

Section CalcFacts.

Local Open Scope Q_scope.

Lemma py_sum_all_given (xs : list Q) (acc : Q) :
  py_sum (map Some xs) acc = Return (foldl Qplus acc xs).
Proof.
  revert acc. induction xs as [|x xs IH]; intros acc; simpl; [done|].
  apply IH.
Qed.

Lemma foldl_Qplus_Qsum (xs : list Q) (acc : Q) :
  foldl Qplus acc xs == acc + Qsum xs.
Proof.
  revert acc. induction xs as [|x xs IH]; intros acc; simpl.
  - ring.
  - rewrite IH. unfold Qsum. simpl. ring.
Qed.

(** C1. Deposit interest: for a non-negative principal and rate, a
    day count [D >= 0] gives [interest = P * R/100 * D/365] and
    [refund = P + interest]; a negative day count is clamped, so the
    refund is exactly [P]; and 50000 at 6% over 31 days gives 254.79
    interest (to two decimals) and a refund of 50254.79. *)
Theorem emd_refund_interest (P R : Q) (D : Z) :
  0 <= P -> 0 <= R ->
  ((0 <= D)%Z ->
     interest P R D == P * (R / 100) * (inject_Z D / 365) /\
     refund P R D == P + interest P R D) /\
  ((D < 0)%Z -> interest P R D == 0 /\ refund P R D == P) /\
  round2 (interest 50000 6 31) == 254.79 /\
  50000 + round2 (interest 50000 6 31) == 50254.79 /\
  round2 (refund 50000 6 31) == 50254.79.
Proof.
  intros _ _. split; [|split; [|by vm_compute]].
  - intros HD. assert (E : days_held D = D) by by apply Z.max_r.
    unfold refund, interest. rewrite E. split; reflexivity.
  - intros HD. assert (E : days_held D = 0%Z) by (apply Z.max_l; lia).
    unfold refund, interest. rewrite E. split; simpl; field.
Qed.

Lemma emd_refund_interest_witness :
  interest 50000 6 31 == 50000 * (6 / 100) * (inject_Z 31 / 365) /\
  refund 50000 6 31 == 50000 + interest 50000 6 31.
Proof.
  apply (emd_refund_interest 50000 6 31); [done | done | lia].
Defined.

Lemma total_deductions_given (b : bill_data) ds (amounts : list Q) :
  get_or [] (deductions b) = Some ds ->
  map (fun d => get_or 0 (d_amount d)) ds = map Some amounts ->
  exists total, total_deductions b = Return total /\ total == Qsum amounts.
Proof.
  intros Hds Ham. unfold total_deductions, deduction_amounts.
  rewrite Hds. simpl. rewrite Ham, py_sum_all_given.
  eexists; split; [done|]. rewrite foldl_Qplus_Qsum. ring.
Qed.

Lemma breakdown_amounts (base : Q) (es : list deduction_entry) :
  map (fun d => get_or 0 (d_amount d)) (breakdown base es)
  = map Some (map (deduction_amount base) es).
Proof. unfold breakdown. rewrite !map_map. done. Qed.

(** C2. Deduction breakdown: each amount is the fixed value if given,
    otherwise rate percent of the base; the total printed by the
    exporters is the sum of the amounts and the net is the base minus
    the total; with no deductions the total is 0 and the net is the
    base; a base of 500000 with a fixed 5000 and 5% of the base gives a
    total of 30000 and a net of 470000. *)
Theorem deduction_breakdown_totals (base : Q) (es : list deduction_entry) :
  let ds := breakdown base es in
  map (fun d => get (d_amount d)) ds
    = map (fun e => Some (match e_fixed e with
                          | Some v => v
                          | None => e_rate e / 100 * base
                          end)) es /\
  (exists total net,
     total_deductions (bill_of base ds) = Return total /\
     net_amount (bill_of base ds) = Return net /\
     total == Qsum (map (deduction_amount base) es) /\
     net == base - total) /\
  (exists total net,
     total_deductions (bill_of base []) = Return total /\
     net_amount (bill_of base []) = Return net /\
     total == 0 /\ net == base) /\
  (exists total net,
     total_deductions (bill_of 500000 (breakdown 500000 scenario_entries))
       = Return total /\
     net_amount (bill_of 500000 (breakdown 500000 scenario_entries))
       = Return net /\
     map (deduction_amount 500000) scenario_entries = [5000; 5 / 100 * 500000] /\
     total == 30000 /\ net == 470000).
Proof.
  intros ds. split; [|split; [|split]].
  - unfold ds, breakdown. rewrite map_map. done.
  - destruct (total_deductions_given (bill_of base ds) ds
                (map (deduction_amount base) es)) as (total & Ht & Hsum);
      [done | apply breakdown_amounts |].
    exists total, (base - total). unfold net_amount. rewrite Ht. done.
  - exists 0, (base - 0). repeat split; try done. ring.
  - eexists _, _. repeat split; try done.
Qed.

(** The bill of [init_sample_data]: 5000 and 25000 off 500000. *)
Example sample_bill_totals :
  exists total net,
    total_deductions sample_bill = Return total /\
    net_amount sample_bill = Return net /\
    total == 30000 /\ net == 470000.
Proof. eexists _, _. repeat split. Qed.

End CalcFacts.

Section LedgerFacts.

Variable real_text : Q -> string.

(** ** The order of [ORDER BY] *)

Lemma string_leb_trans (s t u : string) :
  String.leb s t = true -> String.leb t u = true -> String.leb s u = true.
Proof.
  unfold String.leb. intros Hst Htu.
  destruct (String.compare s t) eqn:Est; try discriminate;
    destruct (String.compare t u) eqn:Etu; try discriminate.
  - apply String_as_OT.cmp_eq in Est. subst. by rewrite Etu.
  - apply String_as_OT.cmp_eq in Est. subst. by rewrite Etu.
  - apply String_as_OT.cmp_eq in Etu. subst. by rewrite Est.
  - apply String_as_OT.cmp_lt in Est, Etu.
    pose proof (String_as_OT.lt_trans _ _ _ Est Etu) as H.
    apply String_as_OT.cmp_lt in H. unfold String_as_OT.cmp in H. by rewrite H.
Qed.

Lemma sql_leb_total (a b : sql_value) :
  sql_leb a b = true \/ sql_leb b a = true.
Proof.
  destruct a, b; simpl; auto using String.leb_total;
    rewrite !Qle_bool_iff;
    match goal with |- (?x <= ?y)%Q \/ _ =>
      destruct (Qlt_le_dec y x); [right; by apply Qlt_le_weak | by left] end.
Qed.

Lemma sql_leb_trans (a b c : sql_value) :
  sql_leb a b = true -> sql_leb b c = true -> sql_leb a c = true.
Proof.
  destruct a, b, c; simpl; try done; try apply string_leb_trans;
    rewrite !Qle_bool_iff; apply Qle_trans.
Qed.

#[global] Instance desc_total i : Total (desc i).
Proof. intros r1 r2. unfold desc. apply sql_leb_total. Qed.

#[global] Instance desc_trans i : Transitive (desc i).
Proof.
  intros r1 r2 r3 H12 H23. unfold desc in *. eapply sql_leb_trans; eauto.
Qed.

(** ** Statements and transactions *)

Lemma frames_sret {A} name (a : A) : frames name (sret a).
Proof. intros c r c' [= <- <-]. done. Qed.

Lemma frames_lift {A} name (o : outcome A) : frames name (lift o).
Proof. intros c r c' [= <- <-]. done. Qed.

Lemma frames_sbind {A B} name (m : stmt A) (k : A -> stmt B) :
  frames name m -> (forall a, frames name (k a)) -> frames name (sbind m k).
Proof.
  intros Hm Hk c r c'. unfold sbind.
  destruct (m c) as [[a|e] c1] eqn:E1; intros E2.
  - destruct (Hm _ _ _ E1) as [Hc1 Hp1], (Hk a _ _ _ E2) as [Hc2 Hp2].
    split; [congruence|]. intros k0 Hk0. rewrite Hp2, Hp1; done.
  - injection E2 as <- <-. by apply (Hm _ _ _ E1).
Qed.

Lemma frames_for_each {A} name (xs : list A) (body : A -> stmt unit) :
  (forall x, frames name (body x)) -> frames name (for_each xs body).
Proof.
  intros Hb. induction xs as [|x xs IH]; simpl.
  - apply frames_sret.
  - apply frames_sbind; [apply Hb | done].
Qed.

Lemma frames_execute_insert name cols vals now :
  frames (lower name) (execute_insert real_text name cols vals now).
Proof.
  intros c r c'. unfold execute_insert.
  destruct (find_table (pending c) name) as [t|]; [|by intros [= <- <-]].
  destruct (unknown_column t cols); [by intros [= <- <-]|].
  destruct (not_null_violation _ _); intros [= <- <-]; [done|].
  simpl. split; [done|]. intros k Hk. by rewrite lookup_insert_ne.
Qed.

Lemma frames_execute_delete name record_id :
  frames (lower name) (execute_delete name record_id).
Proof.
  intros c r c'. unfold execute_delete.
  destruct (find_table (pending c) name) as [t|]; [|by intros [= <- <-]].
  destruct (t_rowid t); intros [= <- <-]; [|done].
  simpl. split; [done|]. intros k Hk. by rewrite lookup_insert_ne.
Qed.

Lemma frames_insert_deduction bill_id now d :
  frames "deductions" (insert_deduction real_text bill_id now d).
Proof.
  unfold insert_deduction.
  repeat (apply frames_sbind; [|intros ?]);
    try apply frames_lift; try apply frames_sret.
  apply (frames_execute_insert "deductions").
Qed.

Lemma frames_save_deductions bill bill_id now :
  frames "deductions" (save_deductions real_text bill bill_id now).
Proof.
  unfold save_deductions. destruct (contains _); [|apply frames_sret].
  apply frames_sbind; [apply frames_lift|]. intros [ds|].
  - apply frames_for_each. intros d. apply frames_insert_deduction.
  - apply frames_lift.
Qed.

(** A body that ends with [conn.commit()] and a [return]: an exception
    before the commit leaves the database as it was. *)
Lemma with_connect_commit {A B} name (m : stmt A) (f : A -> B) db :
  frames name m ->
  with_connect (let! a := m in commit ;; sret (f a))%stmt db =
  match m {| committed := db; pending := db |} with
  | (Return a, c) => (Return (f a), pending c)
  | (Raise e, _) => (Raise e, db)
  end.
Proof.
  intros Hm. unfold with_connect, sbind.
  destruct (m _) as [[a|e] c] eqn:E; simpl; [done|].
  by destruct (Hm _ _ _ E) as [-> _].
Qed.

(** ** Tables *)

Lemma max_rowid_bound (rows : gmap Z (list sql_value)) k row :
  rows !! k = Some row -> k <= max_rowid rows.
Proof.
  intros H. apply elem_of_map_to_list in H. unfold max_rowid.
  induction (map_to_list rows) as [|[k' r'] l IH]; [by apply elem_of_nil in H|].
  apply elem_of_cons in H as [[= <- <-]|H]; simpl; [lia|].
  specialize (IH H). lia.
Qed.

Lemma next_rowid_fresh (t : table) : t_rows t !! next_rowid t = None.
Proof.
  destruct (t_rows t !! next_rowid t) as [row|] eqn:E; [|done].
  apply max_rowid_bound in E. unfold next_rowid in E. lia.
Qed.

Lemma elem_of_all_rows (t : table) row :
  row ∈ all_rows t <->
  exists k tuple, t_rows t !! k = Some tuple /\ row = full_row t (k, tuple).
Proof.
  unfold all_rows. rewrite list_elem_of_fmap. split.
  - intros ([k tuple] & -> & H). apply elem_of_map_to_list in H. eauto.
  - intros (k & tuple & H & ->). exists (k, tuple).
    split; [done|]. by apply elem_of_map_to_list.
Qed.

Lemma filter_everything (rows : list (list sql_value)) :
  filter (fun r => everything r = true) rows = rows.
Proof.
  induction rows as [|r rows IH]; [done|].
  rewrite filter_cons_True by done. by rewrite IH.
Qed.

Lemma with_connect_read (q : database -> outcome DataFrame) db :
  with_connect (read_sql_query q) db = (q db, db).
Proof. unfold with_connect, read_sql_query. simpl. by destruct (q db). Qed.

(** What a listing returns, in terms of the table it reads. *)
Lemma list_newest_first_eq name limit db t i :
  find_table db name = Some t ->
  column_index t "created_at" = Some i ->
  list_newest_first name limit db =
  (Return {| df_columns := column_names t;
             df_rows :=
               let sorted := merge_sort (desc i) (all_rows t) in
               match (if truthy limit then limit else None) with
               | Some n => sql_limit n sorted
               | None => sorted
               end |}, db).
Proof.
  intros Ht Hi. unfold list_newest_first. rewrite with_connect_read.
  unfold select_desc. rewrite Ht, Hi, filter_everything. done.
Qed.

Lemma execute_insert_Return name cols vals now c id c' :
  execute_insert real_text name cols vals now c = (Return id, c') ->
  exists t,
    find_table (pending c) name = Some t /\
    not_null_violation (t_columns t) (new_row real_text t cols vals now) = None /\
    id = next_rowid t /\
    committed c' = committed c /\
    pending c' =
      <[lower name := {| t_rowid := t_rowid t; t_columns := t_columns t;
                         t_rows := <[id := new_row real_text t cols vals now]> (t_rows t);
                         t_seq := id |}]> (pending c).
Proof.
  unfold execute_insert.
  destruct (find_table (pending c) name) as [t|]; [|done].
  destruct (unknown_column t cols); [done|].
  destruct (not_null_violation _ _) eqn:E; [done|].
  intros [= <- <-]. exists t. done.
Qed.

Lemma execute_insert_Raise name cols vals now c e c' :
  execute_insert real_text name cols vals now c = (Raise e, c') -> c' = c.
Proof.
  unfold execute_insert.
  destruct (find_table (pending c) name) as [t|]; [|by intros [= _ <-]].
  destruct (unknown_column t cols); [by intros [= _ <-]|].
  destruct (not_null_violation _ _); by intros [= <-].
Qed.

Lemma save_bill_unfold bill now db :
  save_bill real_text bill now db =
  match execute_insert real_text "bills" bill_columns (bill_values bill) now
          {| committed := db; pending := db |} with
  | (Raise e, _) => (Raise e, db)
  | (Return bill_id, c1) =>
      match save_deductions real_text bill bill_id now c1 with
      | (Raise e, _) => (Raise e, db)
      | (Return _, c2) => (Return bill_id, pending c2)
      end
  end.
Proof.
  unfold save_bill, save_bill_body, with_connect, sbind.
  destruct (execute_insert real_text _ _ _ _ _) as [[bill_id|e] c1] eqn:E1.
  - apply (frames_execute_insert "bills") in E1 as [Hc1 _].
    destruct (save_deductions real_text _ _ _ _) as [[[]|e] c2] eqn:E2; simpl; [done|].
    apply frames_save_deductions in E2 as [Hc2 _]. simpl in *. congruence.
  - apply execute_insert_Raise in E1 as ->. done.
Qed.

(** A save that consists of one [INSERT], a commit and the [return]. *)
Lemma save_one_unfold name cols vals now db :
  with_connect (let! rowid := execute_insert real_text name cols vals now in
                commit ;; sret rowid)%stmt db =
  match execute_insert real_text name cols vals now {| committed := db; pending := db |} with
  | (Raise e, _) => (Raise e, db)
  | (Return rowid, c1) => (Return rowid, pending c1)
  end.
Proof. apply (with_connect_commit (lower name)), frames_execute_insert. Qed.

(** ** Saving, then listing *)

Lemma listing_shows_row name db (t : table) idcol i id tuple rows :
  find_table db name = Some t ->
  t_rowid t = Some idcol ->
  column_index t "created_at" = Some i ->
  t_rows t = <[id := tuple]> rows ->
  exists df,
    list_newest_first name None db = (Return df, db) /\
    df_columns df = column_names t /\
    forall row,
      row ∈ df_rows df /\ row !! 0%nat = Some (SInt id) <-> row = SInt id :: tuple.
Proof.
  intros Ht Hid Hi Hrows. eexists. split; [by apply list_newest_first_eq|].
  split; [done|]. simpl. intros row.
  rewrite merge_sort_Permutation, elem_of_all_rows. unfold full_row.
  rewrite Hid, Hrows. split.
  - intros [(k & tuple' & Hk & ->) [= ->]]. simpl.
    rewrite lookup_insert_eq in Hk. congruence.
  - intros ->. split; [|done]. exists id, tuple. by rewrite lookup_insert_eq.
Qed.

Lemma has_table_find db name schema :
  lower name = name ->
  has_table db name schema ->
  exists t, find_table db name = Some t /\
            t_rowid t = t_rowid schema /\ t_columns t = t_columns schema.
Proof. intros Hn (t & Ht & H). exists t. unfold find_table. by rewrite Hn. Qed.

(** The state after a successful [INSERT] into a table of a known
    schema, seen through the listing. *)
Lemma insert_then_list name schema idcol i cols vals tuple now db c1 id db' :
  lower name = name ->
  has_table db name schema ->
  t_rowid schema = Some idcol ->
  layout real_text schema cols vals now i tuple ->
  execute_insert real_text name cols vals now {| committed := db; pending := db |}
    = (Return id, c1) ->
  db' !! name = pending c1 !! name ->
  exists df,
    list_newest_first name None db' = (Return df, db') /\
    df_columns df = idcol :: map c_name (t_columns schema) /\
    forall row,
      row ∈ df_rows df /\ row !! 0%nat = Some (SInt id) <-> row = SInt id :: tuple.
Proof.
  intros Hn Hdb Hid Hschema Hins Hdb'.
  apply execute_insert_Return in Hins as (t & Ht & _ & -> & _ & Hp).
  destruct (has_table_find _ _ _ Hn Hdb) as (t0 & Ht0 & Hr & Hc).
  simpl in Ht. rewrite Ht0 in Ht. injection Ht as <-.
  destruct (Hschema t0 Hr Hc) as (Hi & _ & Hrow).
  rewrite Hp, Hn, lookup_insert_eq in Hdb'.
  edestruct (listing_shows_row name db') as (df & Hdf & Hcols & Hrows).
  - unfold find_table. rewrite Hn. exact Hdb'.
  - simpl. by rewrite Hr.
  - unfold column_index, column_names in *. simpl. exact Hi.
  - simpl. reflexivity.
  - exists df. split; [done|]. rewrite Hrow in Hrows. split; [|done].
    rewrite Hcols. unfold column_names. simpl. by rewrite Hr, Hid, Hc.
Qed.

Lemma text_affinity_bind_text v :
  text_affinity real_text (bind_text v) = bind_text v.
Proof. by destruct v. Qed.

Lemma real_affinity_bind_real v : real_affinity (bind_real v) = bind_real v.
Proof. by destruct v. Qed.

Lemma numeric_affinity_bind_bool v :
  numeric_affinity (bind_bool v) = bind_bool v.
Proof. by destruct v as [[]|]. Qed.

Ltac affinities :=
  repeat match goal with
         | |- context [column_affinity ?c] =>
             let a := eval vm_compute in (column_affinity c) in
             change (column_affinity c) with a
         end;
  cbn [apply_affinity];
  rewrite ?text_affinity_bind_text, ?real_affinity_bind_real,
    ?numeric_affinity_bind_bool.

Ltac layout_by_computation :=
  intros t Hr Hc;
  unfold column_index, column_names, unknown_column, new_row;
  rewrite Hr, Hc;
  repeat split;
  cbn -[text_affinity real_affinity numeric_affinity];
  affinities; reflexivity.

Lemma bills_layout bill now :
  layout real_text bills_table bill_columns (bill_values bill) now 7
    (bill_row bill now).
Proof. layout_by_computation. Qed.

Lemma emd_refunds_layout emd now :
  layout real_text emd_refunds_table emd_columns (emd_values emd) now 9
    (emd_row emd now).
Proof. layout_by_computation. Qed.

Lemma projects_layout project now :
  layout real_text projects_table project_columns (project_values project) now 8
    (project_row project now).
Proof. layout_by_computation. Qed.

(** C3. Round trip: a record saved and then listed reappears, under the
    id the save returned, with the values that were saved and the
    creation timestamp, and it is the only row with that id.  The values
    are those given, but for the dates: the date columns are declared
    [DATE], so that a date given as a text that is a well-formed number
    ("20240115", "2024") is listed as that number; a date that is no
    such text, "2024-01-15" say, and a date that is missing come back as
    they were given. *)
Theorem save_then_list_roundtrip (db : database) (now : string) :
  initialised db ->
  (forall bill id db',
     save_bill real_text bill now db = (Return id, db') ->
     exists df,
       get_bills None db' = (Return df, db') /\
       df_columns df = ["id"; "bill_number"; "bill_date"; "contractor_name";
                        "project_name"; "bill_amount"; "status"; "created_at"] /\
       forall row,
         row ∈ df_rows df /\ row !! 0%nat = Some (SInt id) <->
         row = [SInt id;
                bind_text (get (bill_number bill));
                stored_date (get (bill_date bill));
                bind_text (get (contractor_name bill));
                bind_text (get (project_name bill));
                bind_real (get (bill_amount bill));
                bind_text (get_or "Active" (status bill));
                SText now]) /\
  (forall emd id db',
     save_emd_refund real_text emd now db = (Return id, db') ->
     exists df,
       get_emd_refunds None db' = (Return df, db') /\
       df_columns df = ["id"; "tender_number"; "contractor_name"; "emd_amount";
                        "deposit_date"; "refund_date"; "interest_rate";
                        "refund_amount"; "status"; "created_at"] /\
       forall row,
         row ∈ df_rows df /\ row !! 0%nat = Some (SInt id) <->
         row = [SInt id;
                bind_text (get (tender_number emd));
                bind_text (get (emd_contractor_name emd));
                bind_real (get (emd_amount emd));
                stored_date (get (deposit_date emd));
                stored_date (get (refund_date emd));
                bind_real (get (interest_rate emd));
                bind_real (get (refund_amount emd));
                bind_text (get_or "Processed" (emd_status emd));
                SText now]) /\
  (forall project id db',
     save_project real_text project now db = (Return id, db') ->
     exists df,
       get_projects None db' = (Return df, db') /\
       df_columns df = ["id"; "project_name"; "project_code"; "contractor_name";
                        "agreement_amount"; "start_date"; "completion_date";
                        "status"; "created_at"] /\
       forall row,
         row ∈ df_rows df /\ row !! 0%nat = Some (SInt id) <->
         row = [SInt id;
                bind_text (get (p_project_name project));
                bind_text (get (project_code project));
                bind_text (get (p_contractor_name project));
                bind_real (get (agreement_amount project));
                stored_date (get (start_date project));
                stored_date (get (completion_date project));
                bind_text (get_or "Active" (p_status project));
                SText now]) /\
  (forall date, numeric_literal date = None ->
                stored_date (Some date) = SText date) /\
  stored_date None = SNull.
Proof.
  intros (Hbills & Hemd & Hprojects & _ & _).
  split; [|split; [|split; [|split; [|done]]]].
  4:{ intros date Hdate. unfold stored_date. simpl. by rewrite Hdate. }
  - intros bill id db'. rewrite save_bill_unfold.
    destruct (execute_insert real_text _ _ _ _ _) as [[bill_id|e] c1] eqn:E1; [|done].
    destruct (save_deductions real_text _ _ _ _) as [[[]|e] c2] eqn:E2; [|done].
    intros [= -> <-].
    apply frames_save_deductions in E2 as [_ E2].
    apply (insert_then_list "bills" bills_table "id" 7%nat bill_columns
             (bill_values bill) (bill_row bill now) now db c1);
      try done.
    + apply bills_layout.
    + by apply E2.
  - intros emd id db'. unfold save_emd_refund. rewrite save_one_unfold.
    destruct (execute_insert real_text _ _ _ _ _) as [[rowid|e] c1] eqn:E1; [|done].
    intros [= -> <-].
    apply (insert_then_list "emd_refunds" emd_refunds_table "id" 9%nat
             emd_columns (emd_values emd) (emd_row emd now)
             now db c1); try done.
    apply emd_refunds_layout.
  - intros project id db'. unfold save_project. rewrite save_one_unfold.
    destruct (execute_insert real_text _ _ _ _ _) as [[rowid|e] c1] eqn:E1; [|done].
    intros [= -> <-].
    apply (insert_then_list "projects" projects_table "id" 8%nat
             project_columns (project_values project)
             (project_row project now) now db c1); try done.
    apply projects_layout.
Qed.

(** ** Listings *)

Lemma list_newest_first_spec name db t i :
  find_table db name = Some t ->
  column_index t "created_at" = Some i ->
  lists_newest_first (list_newest_first name) t i db.
Proof.
  intros Ht Hi. exists (merge_sort (desc i) (all_rows t)).
  split; [by rewrite (list_newest_first_eq _ _ _ t i)|].
  split; [apply StronglySorted_merge_sort; apply _|].
  split; [apply merge_sort_Permutation|]. split.
  - intros n Hn. rewrite (list_newest_first_eq _ _ _ t i) by done.
    unfold truthy, sql_limit.
    destruct (Z.eqb_spec n 0) as [->|_]; [lia|]. simpl.
    destruct (Z.ltb_spec n 0); [lia|done].
  - intros n Hn. rewrite !(list_newest_first_eq _ _ _ t i) by done.
    unfold truthy, sql_limit.
    destruct (Z.eqb_spec n 0) as [->|Hn0]; [done|]. simpl.
    destruct (Z.ltb_spec n 0); [done|lia].
Qed.

(** C9. Listing: each of [get_bills], [get_emd_refunds] and
    [get_projects] returns all rows of its table ordered newest first by
    [created_at]; with a positive limit [n] it returns the first [n] rows
    of that ordering (all of them when there are fewer); a limit of [0],
    like a negative one, leaves the result unbounded. *)
Theorem listing_newest_first (db : database) :
  initialised db ->
  (exists t, db !! "bills" = Some t /\
             lists_newest_first get_bills t 7 db) /\
  (exists t, db !! "emd_refunds" = Some t /\
             lists_newest_first get_emd_refunds t 9 db) /\
  (exists t, db !! "projects" = Some t /\
             lists_newest_first get_projects t 8 db).
Proof.
  intros ((t1 & Ht1 & Hr1 & Hc1) & (t2 & Ht2 & Hr2 & Hc2)
          & (t3 & Ht3 & Hr3 & Hc3) & _).
  split; [|split].
  - exists t1. split; [done|]. apply list_newest_first_spec; [done|].
    unfold column_index, column_names. by rewrite Hr1, Hc1.
  - exists t2. split; [done|]. apply list_newest_first_spec; [done|].
    unfold column_index, column_names. by rewrite Hr2, Hc2.
  - exists t3. split; [done|]. apply list_newest_first_spec; [done|].
    unfold column_index, column_names. by rewrite Hr3, Hc3.
Qed.

(** ** Saving records with missing fields *)

Lemma execute_insert_eq name schema cols vals now i db tuple :
  lower name = name ->
  has_table db name schema ->
  layout real_text schema cols vals now i tuple ->
  exists t,
    db !! name = Some t /\ t_rows t !! next_rowid t = None /\
    execute_insert real_text name cols vals now {| committed := db; pending := db |} =
    match not_null_violation (t_columns schema) tuple with
    | Some col =>
        (Raise (IntegrityError
                  ("NOT NULL constraint failed: " ++ name ++ "." ++ col)),
         {| committed := db; pending := db |})
    | None =>
        (Return (next_rowid t),
         {| committed := db;
            pending :=
              <[name := {| t_rowid := t_rowid t; t_columns := t_columns t;
                           t_rows := <[next_rowid t := tuple]> (t_rows t);
                           t_seq := next_rowid t |}]> db |})
    end.
Proof.
  intros Hn (t & Ht & Hr & Hc) Hlayout. exists t.
  destruct (Hlayout t Hr Hc) as (_ & Hknown & Hrow).
  split; [done|]. split; [apply next_rowid_fresh|].
  unfold execute_insert, find_table. simpl.
  rewrite Hn, Ht, Hknown, Hrow, Hc. by destruct (not_null_violation _ _).
Qed.

(** C5. Missing fields: a record that gives the column its table
    declares [NOT NULL] ([bill_number], [tender_number],
    [project_name]) and no other field is inserted under a fresh id, with
    NULL in the missing columns and the default status; a record that
    lacks that column is turned down by the constraint and nothing is
    stored. *)
Theorem save_with_missing_fields (db : database) (now : string) :
  initialised db ->
  (forall number,
     stored "bills"
       [SText number; SNull; SNull; SNull; SNull; SText "Active"; SText now]
       db (save_bill real_text (bill_numbered number) now db)) /\
  (forall number,
     stored "emd_refunds"
       [SText number; SNull; SNull; SNull; SNull; SNull; SNull;
        SText "Processed"; SText now]
       db (save_emd_refund real_text (emd_numbered number) now db)) /\
  (forall name,
     stored "projects"
       [SText name; SNull; SNull; SNull; SNull; SNull; SText "Active";
        SText now]
       db (save_project real_text (project_named name) now db)) /\
  (forall bill, get (bill_number bill) = None ->
                rejected db (save_bill real_text bill now db)) /\
  (forall emd, get (tender_number emd) = None ->
               rejected db (save_emd_refund real_text emd now db)) /\
  (forall project, get (p_project_name project) = None ->
                   rejected db (save_project real_text project now db)).
Proof.
  intros (Hbills & Hemd & Hprojects & _ & _).
  split; [|split; [|split; [|split; [|split]]]].
  - intros number. rewrite save_bill_unfold.
    destruct (execute_insert_eq "bills" bills_table bill_columns
                (bill_values (bill_numbered number)) now 7%nat db
                (bill_row (bill_numbered number) now))
      as (t & Ht & Hfresh & ->); [done|done|apply bills_layout|].
    simpl. exists t, (next_rowid t). done.
  - intros number. unfold save_emd_refund. rewrite save_one_unfold.
    destruct (execute_insert_eq "emd_refunds" emd_refunds_table emd_columns
                (emd_values (emd_numbered number)) now 9%nat db
                (emd_row (emd_numbered number) now))
      as (t & Ht & Hfresh & ->); [done|done|apply emd_refunds_layout|].
    simpl. exists t, (next_rowid t). done.
  - intros name. unfold save_project. rewrite save_one_unfold.
    destruct (execute_insert_eq "projects" projects_table project_columns
                (project_values (project_named name)) now 8%nat db
                (project_row (project_named name) now))
      as (t & Ht & Hfresh & ->); [done|done|apply projects_layout|].
    simpl. exists t, (next_rowid t). done.
  - intros bill Hnone. rewrite save_bill_unfold.
    destruct (execute_insert_eq "bills" bills_table bill_columns
                (bill_values bill) now 7%nat db
                (bill_row bill now))
      as (t & Ht & Hfresh & ->); [done|done|apply bills_layout|].
    unfold bill_row. rewrite Hnone. simpl. by eexists.
  - intros emd Hnone. unfold save_emd_refund. rewrite save_one_unfold.
    destruct (execute_insert_eq "emd_refunds" emd_refunds_table emd_columns
                (emd_values emd) now 9%nat db
                (emd_row emd now))
      as (t & Ht & Hfresh & ->); [done|done|apply emd_refunds_layout|].
    unfold emd_row. rewrite Hnone. simpl. by eexists.
  - intros project Hnone. unfold save_project. rewrite save_one_unfold.
    destruct (execute_insert_eq "projects" projects_table project_columns
                (project_values project) now 8%nat db
                (project_row project now))
      as (t & Ht & Hfresh & ->); [done|done|apply projects_layout|].
    unfold project_row. rewrite Hnone. simpl. by eexists.
Qed.

(** ** Deleting *)

(** C6. Deleting a bill: [delete_record] on [bills] removes the row
    with the given id from [bills] and nothing else; every other row of
    [bills], the whole [deductions] table (the rows that refer to the
    deleted bill included) and every other table stay as they were. *)
Theorem delete_bill_frame (db : database) (record_id : Z) :
  initialised db ->
  exists t rows' deleted,
    db !! "bills" = Some t /\
    delete_record "bills" record_id db =
      (Return deleted,
       <["bills" := {| t_rowid := t_rowid t; t_columns := t_columns t;
                       t_rows := rows'; t_seq := t_seq t |}]> db) /\
    (deleted = true <-> is_Some (t_rows t !! record_id)) /\
    rows' !! record_id = None /\
    (forall k, k <> record_id -> rows' !! k = t_rows t !! k) /\
    (forall name, name <> "bills" ->
       (snd (delete_record "bills" record_id db)) !! name = db !! name) /\
    (snd (delete_record "bills" record_id db)) !! "deductions"
      = db !! "deductions".
Proof.
  intros ((t & Ht & Hr & Hc) & _).
  assert (delete_record "bills" record_id db =
          (Return (0 <? match t_rows t !! record_id with
                        | Some _ => 1 | None => 0 end)%Z,
           <["bills" := {| t_rowid := t_rowid t; t_columns := t_columns t;
                           t_rows := delete record_id (t_rows t);
                           t_seq := t_seq t |}]> db)) as E.
  { unfold delete_record, with_connect, sbind, execute_delete, find_table.
    change (lower "bills") with "bills". cbn [pending committed].
    rewrite Ht, Hr. done. }
  exists t, (delete record_id (t_rows t)). eexists.
  split; [done|]. split; [exact E|]. rewrite E. simpl.
  split; [|split; [|split; [|split]]].
  - destruct (t_rows t !! record_id); simpl; split;
      first [done | by eexists | by intros [? ?]].
  - apply lookup_delete_eq.
  - intros k Hk. by apply lookup_delete_ne.
  - intros name Hname. by apply lookup_insert_ne.
  - by apply lookup_insert_ne.
Qed.

(** ** Atomicity of [save_bill] *)

Lemma deductions_layout bill_id now d :
  layout real_text deductions_table deduction_columns
    [SInt bill_id; bind_text (get (d_type d)); bind_real (get (d_amount d));
     bind_real (get_or 0%Q (d_rate d));
     bind_bool (get_or false (d_statutory d))] now 6
    (deduction_tuple bill_id now d).
Proof. layout_by_computation. Qed.

Lemma insert_deduction_Return bill_id now d c c' :
  has_table (pending c) "deductions" deductions_table ->
  insert_deduction real_text bill_id now d c = (Return tt, c') ->
  exists t t',
    pending c !! "deductions" = Some t /\
    pending c' !! "deductions" = Some t' /\
    t_rowid t' = t_rowid t /\ t_columns t' = t_columns t /\
    tuples t' ≡ₚ deduction_tuple bill_id now d :: tuples t.
Proof.
  intros (t & Ht & Hr & Hc). unfold insert_deduction, sbind, lift, item.
  destruct (d_type d) as [|ty] eqn:Ety; [done|].
  destruct (d_amount d) as [|am] eqn:Eam; [done|].
  destruct (execute_insert real_text _ _ _ _ _) as [[id|e] c1] eqn:E; [|done].
  intros [= <-].
  apply execute_insert_Return in E as (t0 & Ht0 & _ & -> & _ & Hp).
  unfold find_table in Ht0. change (lower "deductions") with "deductions" in *.
  rewrite Ht in Ht0. injection Ht0 as <-.
  exists t. eexists. split; [done|]. rewrite Hp, lookup_insert_eq.
  split; [done|]. split; [done|]. split; [done|].
  unfold tuples. simpl.
  rewrite map_to_list_insert by apply next_rowid_fresh.
  rewrite fmap_cons. simpl.
  destruct (deductions_layout bill_id now d t Hr Hc) as (_ & _ & Hrow).
  unfold deduction_tuple in *. rewrite Ety, Eam in Hrow. simpl in Hrow.
  by rewrite Hrow, Ety, Eam.
Qed.

Lemma for_each_insert_deduction_Return bill_id now ds c c' :
  has_table (pending c) "deductions" deductions_table ->
  for_each ds (insert_deduction real_text bill_id now) c = (Return tt, c') ->
  exists t t',
    pending c !! "deductions" = Some t /\
    pending c' !! "deductions" = Some t' /\
    t_rowid t' = t_rowid t /\ t_columns t' = t_columns t /\
    tuples t' ≡ₚ map (deduction_tuple bill_id now) ds ++ tuples t.
Proof.
  revert c. induction ds as [|d ds IH]; intros c Hc; simpl.
  - intros [= <-]. destruct Hc as (t & Ht & _). by exists t, t.
  - unfold sbind at 1.
    destruct (insert_deduction real_text _ _ _ _) as [[[]|e] c1] eqn:E1; [|done].
    intros E2.
    destruct (insert_deduction_Return _ _ _ _ _ Hc E1)
      as (t & t1 & Ht & Ht1 & Hr1 & Hc1 & Hp1).
    destruct (IH c1) as (t1' & t' & Ht1' & Ht' & Hr' & Hc' & Hp'); [|done|].
    { destruct Hc as (t0 & Ht0 & Hr0 & Hc0). exists t1.
      rewrite Ht in Ht0. injection Ht0 as <-.
      split; [done|]. split; congruence. }
    rewrite Ht1 in Ht1'. injection Ht1' as <-.
    exists t, t'. split; [done|]. split; [done|].
    split; [congruence|]. split; [congruence|].
    rewrite Hp', Hp1. by rewrite Permutation_middle.
Qed.

Lemma save_deductions_Return bill bill_id now c c' :
  has_table (pending c) "deductions" deductions_table ->
  save_deductions real_text bill bill_id now c = (Return tt, c') ->
  exists t t',
    pending c !! "deductions" = Some t /\
    pending c' !! "deductions" = Some t' /\
    tuples t' ≡ₚ
      map (deduction_tuple bill_id now) (listed_deductions bill) ++ tuples t.
Proof.
  intros Hc. unfold save_deductions, listed_deductions, contains.
  destruct (deductions bill) as [|[ds|]]; simpl.
  - intros [= <-]. destruct Hc as (t & Ht & _). by exists t, t.
  - unfold sbind, lift. simpl. intros E.
    destruct (for_each_insert_deduction_Return _ _ _ _ _ Hc E)
      as (t & t' & ? & ? & _ & _ & ?).
    by exists t, t'.
  - done.
Qed.

Lemma insert_deduction_keys bill_id now d c c' :
  insert_deduction real_text bill_id now d c = (Return tt, c') ->
  contains (d_type d) = true /\ contains (d_amount d) = true.
Proof.
  unfold insert_deduction, sbind, lift, item.
  destruct (d_type d); [done|]. by destruct (d_amount d).
Qed.

Lemma insert_deduction_returns bill_id now d c :
  has_table (pending c) "deductions" deductions_table ->
  contains (d_type d) = true -> contains (d_amount d) = true ->
  exists c',
    insert_deduction real_text bill_id now d c = (Return tt, c') /\
    has_table (pending c') "deductions" deductions_table.
Proof.
  intros (t & Ht & Hr & Hc) Hty Ham.
  destruct (deductions_layout bill_id now d t Hr Hc) as (_ & Hknown & Hrow).
  unfold insert_deduction, sbind, lift, item.
  destruct (d_type d) as [|ty]; [done|]. destruct (d_amount d) as [|am]; [done|].
  unfold execute_insert, find_table.
  change (lower "deductions") with "deductions". rewrite Ht.
  cbn [get] in Hknown, Hrow. rewrite Hknown, Hrow, Hc.
  cbn [deduction_tuple deductions_table new_table t_columns
         not_null_violation plain timestamp c_not_null andb].
  eexists. split; [reflexivity|]. cbn [pending].
  eexists. rewrite lookup_insert_eq. done.
Qed.

Lemma for_each_insert_deduction_keys bill_id now ds c c' :
  for_each ds (insert_deduction real_text bill_id now) c = (Return tt, c') ->
  Forall (fun d => contains (d_type d) = true /\ contains (d_amount d) = true)
         ds.
Proof.
  revert c. induction ds as [|d ds IH]; intros c; [done|].
  cbn [for_each]. unfold sbind at 1.
  destruct (insert_deduction real_text _ _ _ _) as [[[]|e] c1] eqn:E; [|done].
  intros H. constructor; [by eapply insert_deduction_keys|by eapply IH].
Qed.

Lemma for_each_insert_deduction_returns bill_id now ds c :
  has_table (pending c) "deductions" deductions_table ->
  Forall (fun d => contains (d_type d) = true /\ contains (d_amount d) = true)
         ds ->
  exists c', for_each ds (insert_deduction real_text bill_id now) c = (Return tt, c').
Proof.
  intros Hc Hds. revert c Hc.
  induction Hds as [|d ds [Hty Ham] _ IH]; intros c Hc; [by eexists|].
  cbn [for_each]. unfold sbind at 1.
  destruct (insert_deduction_returns bill_id now d c Hc Hty Ham)
    as (c1 & -> & Hc1).
  apply IH, Hc1.
Qed.

Lemma save_bill_first_insert db bill now :
  initialised db ->
  exists t,
    db !! "bills" = Some t /\
    has_table (<["bills" :=
                   {| t_rowid := t_rowid t; t_columns := t_columns t;
                      t_rows := <[next_rowid t :=
                                    (bill_row bill now)]>
                                  (t_rows t);
                      t_seq := next_rowid t |}]> db)
      "deductions" deductions_table /\
    save_bill real_text bill now db =
    match get (bill_number bill) with
    | None =>
        (Raise (IntegrityError
                  "NOT NULL constraint failed: bills.bill_number"), db)
    | Some _ =>
        match save_deductions real_text bill (next_rowid t) now
                {| committed := db;
                   pending :=
                     <["bills" :=
                         {| t_rowid := t_rowid t; t_columns := t_columns t;
                            t_rows := <[next_rowid t :=
                                          (bill_row bill now)]>
                                        (t_rows t);
                            t_seq := next_rowid t |}]> db |} with
        | (Raise e, _) => (Raise e, db)
        | (Return _, c2) => (Return (next_rowid t), pending c2)
        end
    end.
Proof.
  intros (Hbills & _ & _ & Hded & _). rewrite save_bill_unfold.
  destruct (execute_insert_eq "bills" bills_table bill_columns
              (bill_values bill) now 7%nat db
              (bill_row bill now))
    as (t & Ht & Hfresh & ->); [done|done|apply bills_layout|].
  exists t. split; [done|]. split.
  { destruct Hded as (td & Htd & ?). exists td. by rewrite lookup_insert_ne. }
  unfold bill_row.
  by destruct (get (bill_number bill)) as [number|] eqn:Enum.
Qed.

Lemma save_bill_returns db bill now :
  initialised db ->
  get (bill_number bill) <> None ->
  deductions bill <> Present None ->
  Forall (fun d => contains (d_type d) = true /\ contains (d_amount d) = true)
         (listed_deductions bill) ->
  exists id db', save_bill real_text bill now db = (Return id, db').
Proof.
  intros Hi Hnum Hnone Hds.
  destruct (save_bill_first_insert db bill now Hi) as (t & _ & Hded1 & ->).
  destruct (get (bill_number bill)); [|done].
  revert Hds. unfold save_deductions, listed_deductions.
  destruct (deductions bill) as [|[ds|]]; cbn [contains]; [| |done].
  - unfold sret. by eexists _, _.
  - unfold sbind, lift, item. intros Hds.
    match goal with
    | |- context [for_each ds _ ?c] =>
        destruct (for_each_insert_deduction_returns (next_rowid t) now ds c
                    Hded1 Hds) as (c2 & ->)
    end.
    by eexists _, _.
Qed.

(** C10. [save_bill] is atomic.  When the insert of the bill or of one
    of its deductions raises, the database is left exactly as it was.
    A bill that has its number and whose deductions have their type and
    amount is stored: the call returns.  When the call returns, the
    bill's row and one row per listed deduction, each carrying the
    bill's id, have been added, and nothing else has changed.  The
    deduction rows are compared without their [created_at]. *)
Theorem save_bill_atomic (db : database) (bill : bill_data) (now : string) :
  (forall e db', save_bill real_text bill now db = (Raise e, db') -> db' = db) /\
  (initialised db ->
   (get (bill_number bill) <> None ->
    deductions bill <> Present None ->
    Forall (fun d => contains (d_type d) = true /\
                     contains (d_amount d) = true)
           (listed_deductions bill) ->
    exists id db', save_bill real_text bill now db = (Return id, db')) /\
   forall id db', save_bill real_text bill now db = (Return id, db') ->
   exists tb tb' td td',
     db !! "bills" = Some tb /\ db' !! "bills" = Some tb' /\
     db !! "deductions" = Some td /\ db' !! "deductions" = Some td' /\
     t_rows tb !! id = None /\
     t_rows tb' = <[id := bill_row bill now]> (t_rows tb) /\
     map (take 5) (tuples td') ≡ₚ
       (map (stored_deduction id) (listed_deductions bill)
        ++ map (take 5) (tuples td))%list /\
     forall name, name <> "bills" -> name <> "deductions" ->
                  db' !! name = db !! name).
Proof.
  split.
  - intros e db'. rewrite save_bill_unfold.
    destruct (execute_insert _ _ _ _ _ _) as [[bill_id|e1] c1]; [|congruence].
    destruct (save_deductions _ _ _ _ _) as [[[]|e2] c2]; congruence.
  - intros Hinit. split; [by apply save_bill_returns|].
    destruct Hinit as (Hbills & _ & _ & Hded & _).
    intros id db'. rewrite save_bill_unfold.
    destruct (execute_insert_eq "bills" bills_table bill_columns
                (bill_values bill) now 7%nat db
                (bill_row bill now))
      as (tb & Htb & Hfresh & ->); [done|done|apply bills_layout|].
    destruct (not_null_violation _ _); [done|].
    destruct (save_deductions _ _ _ _ _) as [[[]|e2] c2] eqn:E2; [|done].
    intros [= <- <-].
    edestruct (save_deductions_Return bill) as (td & td' & Htd & Htd' & Hp);
      [|exact E2|].
    { destruct Hded as (td & Htd & H). exists td. simpl.
      by rewrite lookup_insert_ne. }
    apply frames_save_deductions in E2 as [_ E2]. simpl in *.
    rewrite lookup_insert_ne in Htd by done.
    exists tb. eexists. exists td, td'.
    split; [done|]. split; [by rewrite E2, lookup_insert_eq|].
    split; [done|]. split; [done|]. split; [done|]. split; [done|].
    split.
    { rewrite Hp, map_app, map_map. done. }
    intros name H1 H2. rewrite E2 by done.
    by rewrite lookup_insert_ne.
Qed.

(** ** Searching *)

Lemma append_nil_l (s : string) : "" ++ s = s.
Proof. reflexivity. Qed.

Lemma append_cons c (s t : string) : String c s ++ t = String c (s ++ t).
Proof. reflexivity. Qed.

Lemma like_percent p t :
  like (String "%" p) t =
  like p t || match t with
              | EmptyString => false
              | String _ t' => like (String "%" p) t'
              end.
Proof. by destruct t. Qed.

Lemma like_literal c p t :
  Ascii.eqb c "%" = false -> Ascii.eqb c "_" = false ->
  like (String c p) t =
  match t with
  | EmptyString => false
  | String d t' => Ascii.eqb (lower_ascii c) (lower_ascii d) && like p t'
  end.
Proof.
  intros H1 H2.
  destruct c as [[] [] [] [] [] [] [] []]; cbv in H1, H2;
    first [discriminate | reflexivity].
Qed.

Lemma like_percent_iff p t :
  like (String "%" p) t = true <->
  exists pre post, t = pre ++ post /\ like p post = true.
Proof.
  induction t as [|d t IH]; rewrite like_percent, orb_true_iff.
  - split.
    + intros [H|H]; [|done]. by exists "", "".
    + intros ([|] & post & Ht & H); [|done].
      rewrite append_nil_l in Ht. subst. by left.
  - rewrite IH. split.
    + intros [H|(pre & post & -> & H)].
      * by exists "", (String d t).
      * by exists (String d pre), post.
    + intros ([|d' pre] & post & Ht & H).
      * rewrite append_nil_l in Ht. subst. by left.
      * rewrite append_cons in Ht. injection Ht as -> ->.
        right. by exists pre, post.
Qed.

Lemma like_only_percent t : like "%" t = true.
Proof.
  induction t as [|d t IH]; rewrite like_percent; [done|].
  rewrite IH. apply orb_true_r.
Qed.

Lemma like_term_iff term p t :
  no_wildcard term = true ->
  like (term ++ p) t = true <->
  exists mid rest,
    t = mid ++ rest /\ lower mid = lower term /\ like p rest = true.
Proof.
  revert t. induction term as [|c term IH]; intros t Hterm.
  - rewrite append_nil_l. split.
    + intros H. by exists "", t.
    + intros ([|] & rest & -> & Hmid & H); done.
  - rewrite append_cons. simpl in Hterm.
    apply andb_true_iff in Hterm as [Hc Hterm].
    apply andb_true_iff in Hc as [Hc1 Hc2].
    apply negb_true_iff in Hc1, Hc2.
    rewrite like_literal by done. destruct t as [|d t].
    + split; [done|]. by intros ([|] & rest & ? & ? & ?).
    + rewrite andb_true_iff, (IH t Hterm), Ascii.eqb_eq. split.
      * intros [Hcd (mid & rest & -> & Hmid & H)].
        exists (String d mid), rest. simpl. by rewrite Hmid, Hcd.
      * intros ([|d' mid] & rest & Ht & Hmid & H); [done|].
        rewrite append_cons in Ht. simpl in Hmid.
        injection Ht as -> ->. injection Hmid as Hd Hmid.
        split; [done|]. by exists mid, rest.
Qed.

(** [LIKE '%term%'] is containment up to ASCII case. *)
Lemma like_contains term text :
  no_wildcard term = true ->
  like ("%" ++ term ++ "%") text = true <-> contains_nocase term text.
Proof.
  intros Hterm. change ("%" ++ term ++ "%") with (String "%" (term ++ "%")).
  rewrite like_percent_iff. unfold contains_nocase. split.
  - intros (pre & post & -> & H).
    apply like_term_iff in H as (mid & rest & -> & Hmid & _); [|done].
    by exists pre, mid, rest.
  - intros (pre & mid & post & -> & Hmid). exists pre, (mid ++ post).
    split; [done|]. apply like_term_iff; [done|].
    exists mid, post. split; [done|]. split; [done|]. apply like_only_percent.
Qed.

Section SearchFacts.

Lemma like_any_mentions term indices row :
  no_wildcard term = true ->
  like_any real_text term indices row = true <->
  mentions real_text term indices row.
Proof.
  intros Hterm. unfold like_any, mentions. rewrite existsb_exists. split.
  - intros (i & Hi & H). apply list_elem_of_In in Hi.
    unfold like_value in H.
    destruct (cell_at i row) as [|z|q|s] eqn:E; [done|..];
      apply like_contains in H; try done; eexists i, _;
      rewrite E; simpl; eauto.
  - intros (i & s & Hi & Hs & H). exists i.
    split; [by apply list_elem_of_In|].
    apply like_contains in H; [|done]. unfold like_value.
    by destruct (cell_at i row); simplify_eq/=.
Qed.

(** C4. Search over bills: for a term without the wildcards [%] and [_],
    the result holds exactly the rows of [bills] in which [bill_number],
    [contractor_name] or [project_name] contains the term, where the
    case of ASCII letters is ignored, newest first. *)
Theorem search_bills (db : database) (term : string) :
  initialised db ->
  no_wildcard term = true ->
  exists t rows,
    db !! "bills" = Some t /\
    search_records real_text "bills" term None db =
      (Return {| df_columns := column_names t; df_rows := rows |}, db) /\
    StronglySorted (desc 7) rows /\
    rows ≡ₚ filter (fun row => like_any real_text term [1; 3; 4]%nat row = true)
              (all_rows t) /\
    forall row,
      row ∈ rows <-> row ∈ all_rows t /\ mentions real_text term [1; 3; 4]%nat row.
Proof.
  intros ((t & Ht & Hr & Hc) & _) Hterm.
  exists t, (merge_sort (desc 7)
               (filter (fun row => like_any real_text term [1; 3; 4]%nat row = true)
                  (all_rows t))).
  split; [done|]. split.
  { unfold search_records. simpl. rewrite with_connect_read.
    unfold search_query, select_desc, find_table.
    change (lower "bills") with "bills". rewrite Ht.
    unfold column_index, column_names. rewrite Hr, Hc. done. }
  split; [apply StronglySorted_merge_sort; apply _|].
  split; [apply merge_sort_Permutation|].
  intros row. rewrite merge_sort_Permutation, list_elem_of_filter.
  rewrite like_any_mentions by done. tauto.
Qed.

End SearchFacts.

(** ** Import *)

Section ImportFacts.

Variable to_datetime to_numeric : sql_value -> sql_value.
Variable str_accessor_error : string.
Variable parses_as_dates parses_as_numbers : list sql_value -> bool.

Lemma elem_of_missing_from present wanted col :
  col ∈ missing_from present wanted <-> col ∈ wanted /\ col ∉ present.
Proof.
  unfold missing_from. rewrite list_elem_of_filter.
  assert (member col present = false <-> col ∉ present) as ->; [|tauto].
  unfold member. rewrite <- not_true_iff_false, existsb_exists. split.
  - intros H Hin. apply H. exists col.
    split; [by apply list_elem_of_In | apply String.eqb_refl].
  - intros H (x & Hx & Heq). apply String.eqb_eq in Heq as ->.
    by apply H, list_elem_of_In.
Qed.


(** The structure check names the missing columns as well, unless the
    sheet is empty, which it reports instead. *)
Lemma validate_excel_structure_missing (df : DataFrame) required :
  missing_from (normalised (df_columns df)) (normalised required) <> [] ->
  fst (validate_excel_structure parses_as_dates parses_as_numbers df required) =
  if df_empty df then ["Excel file is empty"]
  else ["Missing required columns: "
        ++ String.concat ", "
             (missing_from (normalised (df_columns df)) (normalised required))].
Proof.
  intros Hmissing. unfold validate_excel_structure.
  destruct (df_empty df); [done|]. simpl. by destruct (missing_from _ _).
Qed.

End ImportFacts.

(** ** Exporters *)



(** * Further properties *)

(** ** Opening the database *)

Lemma init_database_eq db :
  init_database db =
  (Return tt,
   ensure "settings" settings_table
     (ensure "deductions" deductions_table
        (ensure "projects" projects_table
           (ensure "emd_refunds" emd_refunds_table
              (ensure "bills" bills_table db))))).
Proof.
  unfold init_database, with_connect, sbind, create_table_if_not_exists,
    commit, find_table, ensure.
  cbn [pending committed].
  change (lower "bills") with "bills".
  change (lower "emd_refunds") with "emd_refunds".
  change (lower "projects") with "projects".
  change (lower "deductions") with "deductions".
  change (lower "settings") with "settings".
  destruct (db !! "bills"); cbn [pending committed];
  repeat match goal with
         | |- context [match ?m !! ?k with _ => _ end] =>
             destruct (m !! k) eqn:?; cbn [pending committed]
         end; reflexivity.
Qed.

Lemma ensure_lookup name t db k :
  ensure name t db !! k =
  match db !! k with
  | Some t' => Some t'
  | None => if decide (name = k) then Some t else None
  end.
Proof.
  unfold ensure. destruct (db !! name) eqn:E.
  - destruct (db !! k) eqn:Ek; [done|]. case_decide; [congruence|done].
  - rewrite lookup_insert. case_decide; [subst; by rewrite E|].
    by destruct (db !! k).
Qed.

Lemma ensure_id name t db : is_Some (db !! name) -> ensure name t db = db.
Proof. intros [t' H]. unfold ensure. by rewrite H. Qed.

Lemma init_database_noop db :
  (forall name, name ∈ table_names -> is_Some (db !! name)) ->
  init_database db = (Return tt, db).
Proof.
  intros H. rewrite init_database_eq. unfold table_names in H.
  rewrite (ensure_id "bills" _ db) by (apply H; set_solver).
  rewrite (ensure_id "emd_refunds" _ db) by (apply H; set_solver).
  rewrite (ensure_id "projects" _ db) by (apply H; set_solver).
  rewrite (ensure_id "deductions" _ db) by (apply H; set_solver).
  rewrite (ensure_id "settings" _ db) by (apply H; set_solver).
  done.
Qed.

Lemma init_database_tables db name :
  name ∈ table_names ->
  is_Some (ensure "settings" settings_table
             (ensure "deductions" deductions_table
                (ensure "projects" projects_table
                   (ensure "emd_refunds" emd_refunds_table
                      (ensure "bills" bills_table db)))) !! name).
Proof.
  intros Hname. rewrite !ensure_lookup. unfold table_names in Hname.
  destruct (db !! name); [by eexists|].
  repeat (apply elem_of_cons in Hname as [->|Hname]);
    [..|by apply elem_of_nil in Hname];
    repeat (case_decide; try done); by eexists.
Qed.

(** X1. [init_database] never raises and never touches an existing
    table; afterwards the five tables exist, a table that was missing
    being empty with the declared columns; on a database that has the
    tables it changes nothing. *)
Theorem init_database_keeps_tables (db : database) :
  exists db',
    init_database db = (Return tt, db') /\
    (forall name t, db !! name = Some t -> db' !! name = Some t) /\
    (forall name, name ∈ table_names -> is_Some (db' !! name)) /\
    (forall name, name ∉ table_names -> db' !! name = db !! name) /\
    (db !! "bills" = None -> db' !! "bills" = Some bills_table) /\
    (db !! "emd_refunds" = None ->
     db' !! "emd_refunds" = Some emd_refunds_table) /\
    (db !! "projects" = None -> db' !! "projects" = Some projects_table) /\
    (db !! "deductions" = None ->
     db' !! "deductions" = Some deductions_table) /\
    (db !! "settings" = None -> db' !! "settings" = Some settings_table) /\
    init_database db' = (Return tt, db').
Proof.
  eexists. split; [apply init_database_eq|].
  split; [|split; [|split; [|split; [|split; [|split; [|split; [|split]]]]]]].
  - intros name t H. rewrite !ensure_lookup, H. done.
  - apply init_database_tables.
  - intros name Hname. rewrite !ensure_lookup. unfold table_names in Hname.
    destruct (db !! name); [done|].
    repeat (case_decide; [subst; exfalso; apply Hname; set_solver|]). done.
  - intros H. by rewrite !ensure_lookup, H.
  - intros H. by rewrite !ensure_lookup, H.
  - intros H. by rewrite !ensure_lookup, H.
  - intros H. by rewrite !ensure_lookup, H.
  - intros H. by rewrite !ensure_lookup, H.
  - apply init_database_noop, init_database_tables.
Qed.

(** ** The columns of the tables stay *)

Lemma same_schema_refl db : same_schema db db.
Proof. intros name t H. by exists t. Qed.

Lemma same_schema_trans db1 db2 db3 :
  same_schema db1 db2 -> same_schema db2 db3 -> same_schema db1 db3.
Proof.
  intros H12 H23 name t H.
  destruct (H12 _ _ H) as (t2 & H2 & Hr2 & Hc2).
  destruct (H23 _ _ H2) as (t3 & H3 & Hr3 & Hc3).
  exists t3. split; [done|]. split; congruence.
Qed.

Lemma same_schema_insert db k t t' :
  db !! k = Some t ->
  t_rowid t' = t_rowid t -> t_columns t' = t_columns t ->
  same_schema db (<[k := t']> db).
Proof.
  intros Hk Hr Hc name t0 H. destruct (decide (k = name)) as [->|Hne].
  - exists t'. rewrite lookup_insert_eq. split; [done|]. split; congruence.
  - exists t0. by rewrite lookup_insert_ne.
Qed.

Lemma has_table_same_schema db db' name schema :
  same_schema db db' -> has_table db name schema -> has_table db' name schema.
Proof.
  intros H (t & Ht & Hr & Hc). destruct (H _ _ Ht) as (t' & Ht' & Hr' & Hc').
  exists t'. split; [done|]. split; congruence.
Qed.

Lemma initialised_same_schema db db' :
  same_schema db db' -> initialised db -> initialised db'.
Proof.
  intros H (H1 & H2 & H3 & H4 & H5).
  repeat split; eapply has_table_same_schema; eauto.
Qed.

(** A statement that replaces the table [name] by one with the same
    columns, or does nothing. *)
Lemma keeps_schema_step {A} (m : stmt A) :
  (forall c r c', m c = (r, c') ->
     committed c' = committed c /\
     (pending c' = pending c \/
      exists k t t', pending c !! k = Some t /\
                     pending c' = <[k := t']> (pending c) /\
                     t_rowid t' = t_rowid t /\ t_columns t' = t_columns t)) ->
  keeps_schema m.
Proof.
  intros Hm db c r c' [Hp Hc] E.
  destruct (Hm _ _ _ E) as [Hc' [Hp'|(k & t & t' & Hk & Hp' & Hr & Hcol)]];
    split; rewrite ?Hc', ?Hp'; try done.
  eapply same_schema_trans; [exact Hp|]. by eapply same_schema_insert.
Qed.

Lemma keeps_schema_sret {A} (a : A) : keeps_schema (sret a).
Proof. intros db c r c' H [= <- <-]. done. Qed.

Lemma keeps_schema_lift {A} (o : outcome A) : keeps_schema (lift o).
Proof. intros db c r c' H [= <- <-]. done. Qed.

Lemma keeps_schema_commit : keeps_schema commit.
Proof. intros db c r c' [Hp Hc] [= <- <-]. done. Qed.

Lemma keeps_schema_sbind {A B} (m : stmt A) (k : A -> stmt B) :
  keeps_schema m -> (forall a, keeps_schema (k a)) -> keeps_schema (sbind m k).
Proof.
  intros Hm Hk db c r c' H. unfold sbind.
  destruct (m c) as [[a|e] c1] eqn:E1; intros E2.
  - eapply Hk; [|exact E2]. eapply Hm; eauto.
  - injection E2 as <- <-. eapply Hm; eauto.
Qed.

Lemma keeps_schema_for_each {A} (xs : list A) (body : A -> stmt unit) :
  (forall x, keeps_schema (body x)) -> keeps_schema (for_each xs body).
Proof.
  intros Hb. induction xs as [|x xs IH]; simpl.
  - apply keeps_schema_sret.
  - apply keeps_schema_sbind; [apply Hb | done].
Qed.

Lemma keeps_schema_read {A} (q : database -> outcome A) :
  keeps_schema (fun c => (q (pending c), c)).
Proof. intros db c r c' H [= <- <-]. done. Qed.

Lemma keeps_schema_execute_insert name cols vals now :
  keeps_schema (execute_insert real_text name cols vals now).
Proof.
  apply keeps_schema_step. intros c r c'. unfold execute_insert, find_table.
  destruct (pending c !! lower name) as [t|] eqn:Et; [|by intros [= <- <-]; auto].
  destruct (unknown_column t cols); [by intros [= <- <-]; auto|].
  destruct (not_null_violation _ _); intros [= <- <-]; [by auto|].
  split; [done|]. right. eexists (lower name), t, _.
    split; [exact Et|]. split; [reflexivity|]. done.
Qed.

Lemma keeps_schema_execute_delete name record_id :
  keeps_schema (execute_delete name record_id).
Proof.
  apply keeps_schema_step. intros c r c'. unfold execute_delete, find_table.
  destruct (pending c !! lower name) as [t|] eqn:Et; [|by intros [= <- <-]; auto].
  destruct (t_rowid t) eqn:Er; intros [= <- <-]; [|by auto].
  split; [done|]. right. eexists (lower name), t, _.
  split; [exact Et|]. split; [reflexivity|]. by rewrite Er.
Qed.

Lemma keeps_schema_execute_update as_rowid name updates record_id :
  keeps_schema (execute_update real_text as_rowid name updates record_id).
Proof.
  apply keeps_schema_step. intros c r c'. unfold execute_update, find_table.
  destruct updates as [|u updates]; [by intros [= <- <-]; auto|].
  destruct (pending c !! lower name) as [t|] eqn:Et; [|by intros [= <- <-]; auto].
  destruct (unknown_update t _); [by intros [= <- <-]; auto|].
  destruct (t_rowid t) as [alias|] eqn:Er; [|by intros [= <- <-]; auto].
  destruct (t_rows t !! record_id) as [tuple|]; [|by intros [= <- <-]; auto].
  destruct (not_null_violation _ _); [by intros [= <- <-]; auto|].
  destruct (rowid_assigned _ _) as [v|].
  - destruct (as_rowid v) as [rowid|]; [|by intros [= <- <-]; auto].
    case_bool_decide; intros [= <- <-]; [by auto|].
    split; [done|]. right. eexists (lower name), t, _.
    split; [exact Et|]. split; [reflexivity|]. by rewrite Er.
  - intros [= <- <-]. split; [done|]. right. eexists (lower name), t, _.
    split; [exact Et|]. split; [reflexivity|]. by rewrite Er.
Qed.

Lemma with_connect_keeps_schema {A} (body : stmt A) db :
  keeps_schema body -> same_schema db (with_connect body db).2.
Proof.
  intros Hb. unfold with_connect.
  assert (conn_keeps_schema db {| committed := db; pending := db |}) as H0
    by (split; apply same_schema_refl).
  destruct (body _) as [[a|e] c] eqn:E; by destruct (Hb db _ _ _ H0 E).
Qed.

Lemma keeps_schema_save_bill_body bill now :
  keeps_schema (save_bill_body real_text bill now).
Proof.
  unfold save_bill_body.
  apply keeps_schema_sbind; [apply keeps_schema_execute_insert|]. intros id.
  apply keeps_schema_sbind.
  - unfold save_deductions. destruct (contains _); [|apply keeps_schema_sret].
    apply keeps_schema_sbind; [apply keeps_schema_lift|]. intros [ds|].
    + apply keeps_schema_for_each. intros d. unfold insert_deduction.
      repeat (apply keeps_schema_sbind; [|intros ?]);
        try apply keeps_schema_lift; try apply keeps_schema_sret.
      apply keeps_schema_execute_insert.
    + apply keeps_schema_lift.
  - intros _. apply keeps_schema_sbind; [apply keeps_schema_commit|].
    intros _. apply keeps_schema_sret.
Qed.

Lemma keeps_schema_then_commit {A B} (m : stmt A) (f : A -> B) :
  keeps_schema m ->
  keeps_schema (let! a := m in commit ;; sret (f a))%stmt.
Proof.
  intros Hm. apply keeps_schema_sbind; [done|]. intros a.
  apply keeps_schema_sbind; [apply keeps_schema_commit|].
  intros _. apply keeps_schema_sret.
Qed.

(** X2. No operation of the manager drops a table or changes its
    columns, whether it returns or raises; a database that has the five
    tables as declared keeps them through every save, update and
    delete. *)
Theorem operations_keep_schema (as_rowid : sql_value -> option Z)
    (db : database) :
  (forall bill now, same_schema db (save_bill real_text bill now db).2) /\
  (forall emd now, same_schema db (save_emd_refund real_text emd now db).2) /\
  (forall project now, same_schema db (save_project real_text project now db).2) /\
  (forall name record_id, same_schema db (delete_record name record_id db).2) /\
  (forall name record_id updates,
     same_schema db (update_record real_text as_rowid name record_id updates db).2) /\
  (initialised db ->
   (forall bill now, initialised (save_bill real_text bill now db).2) /\
   (forall emd now, initialised (save_emd_refund real_text emd now db).2) /\
   (forall project now, initialised (save_project real_text project now db).2) /\
   (forall name record_id, initialised (delete_record name record_id db).2) /\
   (forall name record_id updates,
      initialised (update_record real_text as_rowid name record_id updates db).2)).
Proof.
  assert (forall bill now, same_schema db (save_bill real_text bill now db).2) as H1.
  { intros. apply with_connect_keeps_schema, keeps_schema_save_bill_body. }
  assert (forall emd now, same_schema db (save_emd_refund real_text emd now db).2) as H2.
  { intros. apply with_connect_keeps_schema.
    apply (keeps_schema_then_commit _ (fun a => a)),
      keeps_schema_execute_insert. }
  assert (forall project now,
            same_schema db (save_project real_text project now db).2) as H3.
  { intros. apply with_connect_keeps_schema.
    apply (keeps_schema_then_commit _ (fun a => a)),
      keeps_schema_execute_insert. }
  assert (forall name record_id,
            same_schema db (delete_record name record_id db).2) as H4.
  { intros. apply with_connect_keeps_schema.
    apply (keeps_schema_then_commit _ (fun n => (0 <? n)%Z)),
      keeps_schema_execute_delete. }
  assert (forall name record_id updates,
            same_schema db
              (update_record real_text as_rowid name record_id updates db).2) as H5.
  { intros. apply with_connect_keeps_schema.
    apply (keeps_schema_then_commit _ (fun n => (0 <? n)%Z)),
      keeps_schema_execute_update. }
  repeat split; try done; intros; eapply initialised_same_schema; eauto.
Qed.

(** ** Ids, deleting, and tables that are not there *)

Lemma delete_record_eq name record_id db :
  delete_record name record_id db =
  match find_table db name with
  | None => (Raise (OperationalError ("no such table: " ++ name)), db)
  | Some t =>
      match t_rowid t with
      | None => (Raise (OperationalError "no such column: id"), db)
      | Some _ =>
          (Return (bool_decide (is_Some (t_rows t !! record_id))),
           <[lower name := {| t_rowid := t_rowid t; t_columns := t_columns t;
                              t_rows := delete record_id (t_rows t);
                              t_seq := t_seq t |}]> db)
      end
  end.
Proof.
  unfold delete_record, with_connect, sbind, execute_delete, commit, sret.
  cbn [pending committed]. destruct (find_table db name) as [t|]; [|done].
  destruct (t_rowid t); [|done]. cbn [pending committed].
  by destruct (t_rows t !! record_id).
Qed.

Lemma table_eta (t : table) :
  {| t_rowid := t_rowid t; t_columns := t_columns t;
     t_rows := t_rows t; t_seq := t_seq t |} = t.
Proof. by destruct t. Qed.

Lemma save_bill_bills bill now db id db' :
  save_bill real_text bill now db = (Return id, db') ->
  exists tb,
    find_table db "bills" = Some tb /\
    id = next_rowid tb /\
    db' !! "bills" =
      Some {| t_rowid := t_rowid tb; t_columns := t_columns tb;
              t_rows := <[id := new_row real_text tb bill_columns (bill_values bill) now]>
                          (t_rows tb);
              t_seq := id |} /\
    forall name, name <> "bills" -> name <> "deductions" ->
                 db' !! name = db !! name.
Proof.
  rewrite save_bill_unfold.
  destruct (execute_insert real_text _ _ _ _ _) as [[bill_id|e] c1] eqn:E1; [|done].
  destruct (save_deductions real_text _ _ _ _) as [[[]|e] c2] eqn:E2; [|done].
  intros [= -> <-].
  apply execute_insert_Return in E1 as (tb & Htb & _ & -> & _ & Hp).
  apply frames_save_deductions in E2 as [_ E2]. simpl in Htb.
  change (lower "bills") with "bills" in Hp.
  exists tb. split; [done|]. split; [done|]. split.
  - rewrite E2 by done. by rewrite Hp, lookup_insert_eq.
  - intros name H1 H2. rewrite E2 by done. rewrite Hp. simpl.
    by rewrite lookup_insert_ne.
Qed.

Lemma next_rowid_above (t : table) :
  t_seq t < next_rowid t /\
  forall k row, t_rows t !! k = Some row -> k < next_rowid t.
Proof.
  unfold next_rowid. split; [lia|]. intros k row H.
  apply max_rowid_bound in H. lia.
Qed.

(** X3. Ids are never handed out twice: the id [save_bill] returns is
    above every id in the table and above every id handed out before,
    and a bill saved after that one was deleted gets a larger id. *)
Theorem rowid_never_reused (db : database) (bill : bill_data) (now : string)
    (id : Z) (db1 : database) :
  save_bill real_text bill now db = (Return id, db1) ->
  (exists tb tb1,
     db !! "bills" = Some tb /\ db1 !! "bills" = Some tb1 /\
     t_seq tb < id /\ t_seq tb1 = id /\
     forall k row, t_rows tb !! k = Some row -> k < id) /\
  forall r db2 bill' now' id' db3,
    delete_record "bills" id db1 = (r, db2) ->
    save_bill real_text bill' now' db2 = (Return id', db3) ->
    id < id'.
Proof.
  intros Hsave. apply save_bill_bills in Hsave as (tb & Htb & -> & Htb1 & _).
  change (find_table db "bills") with (db !! "bills") in Htb.
  destruct (next_rowid_above tb) as [Hseq Hrows]. split.
  - eexists tb, _. done.
  - intros r db2 bill' now' id' db3. rewrite delete_record_eq.
    change (find_table db1 "bills") with (db1 !! "bills"). rewrite Htb1.
    cbn [t_rowid]. change (lower "bills") with "bills".
    intros Hdel Hsave'.
    apply save_bill_bills in Hsave' as (tb2 & Htb2 & -> & _).
    change (find_table db2 "bills") with (db2 !! "bills") in Htb2.
    assert (t_seq tb2 = next_rowid tb) as Hseq2.
    { destruct (t_rowid tb); injection Hdel as _ <-.
      - rewrite lookup_insert_eq in Htb2. by injection Htb2 as <-.
      - rewrite Htb1 in Htb2. by injection Htb2 as <-. }
    destruct (next_rowid_above tb2) as [H _]. lia.
Qed.

(** X4. Deleting an id that is not in the table returns [False] and
    changes nothing; so a second delete of the same id always leaves the
    database as the first one left it. *)
Theorem delete_absent (db : database) (name : string) (record_id : Z) :
  (forall t alias,
     find_table db name = Some t -> t_rowid t = Some alias ->
     t_rows t !! record_id = None ->
     delete_record name record_id db = (Return false, db)) /\
  (forall r db', delete_record name record_id db = (r, db') ->
     delete_record name record_id db' =
     (match r with Return _ => Return false | Raise e => Raise e end, db')).
Proof.
  assert (forall db t alias,
            find_table db name = Some t -> t_rowid t = Some alias ->
            t_rows t !! record_id = None ->
            delete_record name record_id db = (Return false, db)) as Habsent.
  { intros db0 t alias Ht Hr Hrow. rewrite delete_record_eq, Ht, Hr, Hrow.
    rewrite delete_id by done. rewrite <- Hr, table_eta.
    by rewrite insert_id. }
  split; [apply Habsent|].
  intros r db'. rewrite delete_record_eq.
  destruct (find_table db name) as [t|] eqn:Ht.
  - destruct (t_rowid t) as [alias|] eqn:Hr; intros [= <- <-].
    + eapply Habsent.
      * unfold find_table. apply lookup_insert_eq.
      * reflexivity.
      * simpl. apply lookup_delete_eq.
    + by rewrite delete_record_eq, Ht, Hr.
  - intros [= <- <-]. by rewrite delete_record_eq, Ht.
Qed.

(** X5. On a database that holds the five declared tables and no
    other, [delete_record] with a plain identifier for the table raises
    exactly when that is, the case of the letters ignored, none of
    [bills], [emd_refunds], [projects] and [deductions]: also for
    [settings], which has no [id].  What it raises is an
    [OperationalError], and the database is left as it was. *)
Theorem delete_raises (db : database) (name : string) (record_id : Z) :
  initialised db ->
  (forall k, is_Some (db !! k) -> k ∈ table_names) ->
  identifier name = true ->
  ((exists e, (delete_record name record_id db).1 = Raise e) <->
   lower name ∉ ["bills"; "emd_refunds"; "projects"; "deductions"]) /\
  forall e db', delete_record name record_id db = (Raise e, db') ->
    db' = db /\ exists msg, e = OperationalError msg.
Proof.
  intros ((tb & Htb & Hrb & _) & (te & Hte & Hre & _) & (tp & Htp & Hrp & _)
          & (td & Htd & Hrd & _) & (ts & Hts & Hrs & _)) Honly _.
  rewrite delete_record_eq. unfold find_table.
  destruct (db !! lower name) as [t|] eqn:Et.
  - assert (lower name ∈ table_names) as Hin by (apply Honly; by eexists).
    unfold table_names in Hin.
    repeat (apply elem_of_cons in Hin as [Hin|Hin]);
      [..|by apply elem_of_nil in Hin];
      rewrite Hin in Et |- *; simplify_eq.
    + rewrite Hrb. simpl. split; [|done].
      split; [by intros [e H]|]. intros H. destruct H. set_solver.
    + rewrite Hre. simpl. split; [|done].
      split; [by intros [e H]|]. intros H. destruct H. set_solver.
    + rewrite Hrp. simpl. split; [|done].
      split; [by intros [e H]|]. intros H. destruct H. set_solver.
    + rewrite Hrd. simpl. split; [|done].
      split; [by intros [e H]|]. intros H. destruct H. set_solver.
    + rewrite Hrs. simpl. split.
      * split; [|by eexists]. intros _ H.
        repeat (apply elem_of_cons in H as [H|H]); try done.
        by apply elem_of_nil in H.
      * intros e db' [= <- <-]. split; [done|]. by eexists.
  - simpl. split.
    + split; [|by eexists]. intros _ H.
      repeat (apply elem_of_cons in H as [H|H]);
        [..|by apply elem_of_nil in H]; rewrite H in Et; congruence.
    + intros e db' [= <- <-]. split; [done|]. by eexists.
Qed.

Lemma save_one_without_table name cols vals now db :
  find_table db name = None ->
  exists msg,
    with_connect (let! rowid := execute_insert real_text name cols vals now in
                  commit ;; sret rowid)%stmt db
    = (Raise (OperationalError msg), db).
Proof.
  intros H. rewrite save_one_unfold. unfold execute_insert.
  cbn [pending]. rewrite H. by eexists.
Qed.

(** X6. A save against a database that lacks the table raises an
    [OperationalError] and stores nothing; and when only [deductions] is
    missing, a bill that lists a deduction is not stored either. *)
Theorem save_without_table (db : database) (now : string) :
  (find_table db "bills" = None ->
   forall bill, exists msg,
     save_bill real_text bill now db = (Raise (OperationalError msg), db)) /\
  (find_table db "emd_refunds" = None ->
   forall emd, exists msg,
     save_emd_refund real_text emd now db = (Raise (OperationalError msg), db)) /\
  (find_table db "projects" = None ->
   forall project, exists msg,
     save_project real_text project now db = (Raise (OperationalError msg), db)) /\
  (find_table db "deductions" = None ->
   forall bill d ds, deductions bill = Present (Some (d :: ds)) ->
     exists e, save_bill real_text bill now db = (Raise e, db)).
Proof.
  split; [|split; [|split]].
  - intros H bill. rewrite save_bill_unfold. unfold execute_insert.
    cbn [pending]. rewrite H. by eexists.
  - intros H emd. by apply save_one_without_table.
  - intros H project. by apply save_one_without_table.
  - intros H bill d ds Hds. rewrite save_bill_unfold.
    destruct (execute_insert real_text _ _ _ _ _) as [[bill_id|e] c1] eqn:E1;
      [|by eexists].
    apply execute_insert_Return in E1 as (tb & _ & _ & _ & _ & Hp).
    assert (find_table (pending c1) "deductions" = None) as H'.
    { unfold find_table in *. rewrite Hp. simpl.
      by rewrite lookup_insert_ne. }
    unfold save_deductions, contains. rewrite Hds. simpl.
    unfold sbind, lift. simpl. unfold sbind at 1.
    unfold insert_deduction, sbind, lift, item.
    destruct (d_type d); [by eexists|].
    destruct (d_amount d); [by eexists|].
    unfold execute_insert. rewrite H'. by eexists.
Qed.

(** ** Deleting, then listing *)

(** X7. After [delete_record] on [bills] the listing holds the rows it
    held before except the one with the deleted id. *)
Theorem delete_then_list (db : database) (record_id : Z) :
  initialised db ->
  exists df df',
    get_bills None db = (Return df, db) /\
    get_bills None (delete_record "bills" record_id db).2 =
      (Return df', (delete_record "bills" record_id db).2) /\
    forall row,
      row ∈ df_rows df' <->
      row ∈ df_rows df /\ row !! 0%nat <> Some (SInt record_id).
Proof.
  intros ((t & Ht & Hr & Hc) & _).
  assert (forall t', t_rowid t' = t_rowid t -> t_columns t' = t_columns t ->
                     column_index t' "created_at" = Some 7%nat) as Hi.
  { intros t' Hr' Hc'. unfold column_index, column_names.
    by rewrite Hr', Hc', Hr, Hc. }
  rewrite delete_record_eq.
  change (find_table db "bills") with (db !! "bills"). rewrite Ht.
  destruct (t_rowid t) as [alias|] eqn:Hra; [|done]. cbn [snd].
  change (lower "bills") with "bills".
  eexists _, _. split; [|split].
  - apply (list_newest_first_eq "bills" None db t 7); [done|].
    apply Hi; done.
  - eapply (list_newest_first_eq "bills" None _ _ 7).
    + unfold find_table. apply lookup_insert_eq.
    + by apply Hi.
  - intros row. cbn [df_rows truthy].
    rewrite !merge_sort_Permutation, !elem_of_all_rows.
    unfold full_row. cbn [t_rowid t_rows]. rewrite Hra. split.
    + intros (k & tuple & Hk & ->).
      apply lookup_delete_Some in Hk as [Hne Hk].
      split; [by exists k, tuple|]. simpl. congruence.
    + intros [(k & tuple & Hk & ->) Hne]. exists k, tuple.
      split; [|done]. apply lookup_delete_Some. split; [|done].
      simpl in Hne. congruence.
Qed.

(** ** Updating *)

Section UpdateFacts.

Variable as_rowid : sql_value -> option Z.

Lemma frames_execute_update name updates record_id :
  frames (lower name) (execute_update real_text as_rowid name updates record_id).
Proof.
  intros c r c'. unfold execute_update, find_table.
  destruct updates as [|u updates]; [by intros [= <- <-]|].
  destruct (pending c !! lower name) as [t|]; [|by intros [= <- <-]].
  destruct (unknown_update t _); [by intros [= <- <-]|].
  destruct (t_rowid t) as [alias|]; [|by intros [= <- <-]].
  destruct (t_rows t !! record_id) as [tuple|]; [|by intros [= <- <-]].
  destruct (not_null_violation _ _); [by intros [= <- <-]|].
  assert (forall k (x : table),
            k <> lower name ->
            <[lower name := x]> (pending c) !! k = pending c !! k) as Hne
    by (intros; by apply lookup_insert_ne).
  destruct (rowid_assigned _ _) as [v|].
  - destruct (as_rowid v) as [rowid|]; [|by intros [= <- <-]].
    case_bool_decide; intros [= <- <-]; [done|].
    split; [done|]. intros k Hk. by apply Hne.
  - intros [= <- <-]. split; [done|]. intros k Hk. by apply Hne.
Qed.

Lemma update_record_unfold name record_id updates db :
  update_record real_text as_rowid name record_id updates db =
  match execute_update real_text as_rowid name updates record_id
          {| committed := db; pending := db |} with
  | (Return rowcount, c) => (Return (0 <? rowcount)%Z, pending c)
  | (Raise e, _) => (Raise e, db)
  end.
Proof.
  unfold update_record, with_connect, sbind.
  destruct (execute_update real_text _ _ _ _ _) as [[n|e] c] eqn:E; simpl; [done|].
  by apply frames_execute_update in E as [-> _].
Qed.

Lemma set_cell_lookup cols col v tuple (j : nat) :
  set_cell real_text cols col v tuple !! j =
  match cols !! j, tuple !! j with
  | Some c, Some old =>
      Some (if String.eqb (c_name c) col
            then apply_affinity real_text (column_affinity c) v else old)
  | _, o => o
  end.
Proof.
  revert tuple j. induction cols as [|c cols IH]; intros [|old tuple] j;
    simpl; try done.
  - by destruct ((c :: cols) !! j).
  - destruct j as [|j]; simpl; [done|]. apply IH.
Qed.

Lemma set_cell_length cols col v tuple :
  length (set_cell real_text cols col v tuple) = length tuple.
Proof.
  revert tuple. induction cols as [|c cols IH]; intros [|old tuple];
    simpl; by rewrite ?IH.
Qed.

Lemma apply_updates_length cols updates tuple :
  length (apply_updates real_text cols updates tuple) = length tuple.
Proof.
  unfold apply_updates. revert tuple.
  induction updates as [|u updates IH]; intros tuple; simpl; [done|].
  by rewrite IH, set_cell_length.
Qed.

Lemma last_assigned_from col updates acc :
  fold_left (fun acc cv => if String.eqb (lower cv.1) col then Some cv.2 else acc)
            updates acc =
  match last_assigned col updates with
  | Some v => Some v
  | None => acc
  end.
Proof.
  revert acc. induction updates as [|u updates IH]; intros acc; [done|].
  change (last_assigned col (u :: updates)) with
    (fold_left (fun acc cv => if String.eqb (lower cv.1) col
                              then Some cv.2 else acc)
       updates (if String.eqb (lower u.1) col then Some u.2 else None)).
  cbn [fold_left]. rewrite !IH.
  by destruct (last_assigned col updates), (String.eqb (lower u.1) col).
Qed.

Lemma apply_updates_lookup cols updates tuple (j : nat) c :
  cols !! j = Some c ->
  apply_updates real_text cols updates tuple !! j =
  (fun old => match last_assigned (c_name c) updates with
              | Some v => apply_affinity real_text (column_affinity c) v
              | None => old
              end) <$> tuple !! j.
Proof.
  intros Hc. unfold apply_updates. revert tuple.
  induction updates as [|u updates IH]; intros tuple; simpl.
  - by destruct (tuple !! j).
  - rewrite IH, set_cell_lookup, Hc.
    change (last_assigned (c_name c) (u :: updates)) with
      (fold_left (fun acc cv => if String.eqb (lower cv.1) (c_name c)
                                then Some cv.2 else acc)
         updates (if String.eqb (lower u.1) (c_name c) then Some u.2 else None)).
    rewrite last_assigned_from, (String.eqb_sym (lower u.1)).
    destruct (tuple !! j); simpl; [|done].
    by destruct (last_assigned (c_name c) updates),
         (String.eqb (c_name c) (lower u.1)).
Qed.

(** X8. A failed update changes nothing: whenever [update_record]
    raises, the database is as it was.  It raises an [OperationalError]
    for an empty dict of updates, whatever the table and the id, and,
    the names being plain identifiers, for a column that the table does
    not have.  [rowid], [oid] and [_rowid_] are columns every table
    has. *)
Theorem update_record_errors (db : database) (name : string) (record_id : Z) :
  (forall updates e db',
     update_record real_text as_rowid name record_id updates db = (Raise e, db') ->
     db' = db) /\
  (exists msg,
     update_record real_text as_rowid name record_id [] db
     = (Raise (OperationalError msg), db)) /\
  (forall updates t col,
     identifier name = true ->
     Forall (fun cv => identifier cv.1 = true) updates ->
     find_table db name = Some t ->
     unknown_update t updates = Some col ->
     exists msg,
       update_record real_text as_rowid name record_id updates db
       = (Raise (OperationalError msg), db)) /\
  (forall t n v,
     n ∈ ["rowid"; "oid"; "_rowid_"] -> unknown_update t [(n, v)] = None).
Proof.
  split; [|split; [|split]].
  - intros updates e db'. rewrite update_record_unfold.
    destruct (execute_update real_text _ _ _ _ _) as [[n|e'] c]; congruence.
  - rewrite update_record_unfold. by eexists.
  - intros updates t col _ _ Ht Hcol. rewrite update_record_unfold.
    unfold execute_update. cbn [pending]. rewrite Ht, Hcol.
    destruct updates; [done|]. by eexists.
  - intros t n v Hn. unfold unknown_update. cbn [List.find fst].
    assert (existsb (String.eqb (lower n))
              (map c_name (t_columns t) ++ rowid_names t)%list = true)
      as ->; [|done].
    assert (lower n = n) as ->.
    { repeat (apply elem_of_cons in Hn as [->|Hn]); try done.
      by apply elem_of_nil in Hn. }
    rewrite existsb_app, orb_true_iff.
    destruct (existsb (String.eqb n) (map c_name (t_columns t))) eqn:E;
      [by left|right].
    apply existsb_exists. exists n. split; [|apply String.eqb_refl].
    unfold rowid_names. apply in_or_app. right.
    apply list_elem_of_In, list_elem_of_filter. done.
Qed.

(** X9. An update of an existing row, the names being plain
    identifiers, sets the named columns, the value stored being the last
    one given for the column, converted as the affinity of the column
    has it: a number given for a TEXT column is stored as its text, a
    text that is a well-formed number given for a DATE column as that
    number, an integer given for a REAL column as a real.  The other
    columns of the row, the other rows and the other tables stay as they
    were; the call returns [True]. *)
Theorem update_record_effect (db : database) (name : string) (t : table)
    (record_id : Z) (tuple : list sql_value)
    (updates : list (string * sql_value)) :
  identifier name = true ->
  Forall (fun cv => identifier cv.1 = true) updates ->
  find_table db name = Some t ->
  t_rowid t = Some "id" ->
  t_rows t !! record_id = Some tuple ->
  updates <> [] ->
  unknown_update t updates = None ->
  rowid_assigned t updates = None ->
  not_null_violation (t_columns t)
    (apply_updates real_text (t_columns t) updates tuple) = None ->
  exists tuple',
    update_record real_text as_rowid name record_id updates db =
      (Return true,
       <[lower name := {| t_rowid := t_rowid t; t_columns := t_columns t;
                          t_rows := <[record_id := tuple']> (t_rows t);
                          t_seq := t_seq t |}]> db) /\
    length tuple' = length tuple /\
    forall (j : nat) c,
      t_columns t !! j = Some c ->
      tuple' !! j =
      (fun old => match last_assigned (c_name c) updates with
                  | Some v => apply_affinity real_text (column_affinity c) v
                  | None => old
                  end) <$> tuple !! j.
Proof.
  intros _ _ Ht Hr Hrow Hne Hknown Hid Hnn.
  exists (apply_updates real_text (t_columns t) updates tuple).
  split; [|split].
  - rewrite update_record_unfold. unfold execute_update. cbn [pending].
    destruct updates; [done|].
    rewrite Ht, Hknown, Hr, Hrow, Hnn, Hid. cbn [pending committed fst snd].
    by rewrite insert_delete_eq.
  - apply apply_updates_length.
  - intros j c Hc. by apply apply_updates_lookup.
Qed.

(** X10. An update of an id that is not in the table returns [False]
    and changes nothing, also when the values it carries could not be
    stored. *)
Theorem update_absent (db : database) (name : string) (t : table)
    (alias : string) (record_id : Z) (updates : list (string * sql_value)) :
  find_table db name = Some t ->
  t_rowid t = Some alias ->
  t_rows t !! record_id = None ->
  updates <> [] ->
  unknown_update t updates = None ->
  update_record real_text as_rowid name record_id updates db = (Return false, db).
Proof.
  intros Ht Hr Hrow Hne Hknown.
  rewrite update_record_unfold. unfold execute_update. cbn [pending].
  destruct updates; [done|]. by rewrite Ht, Hknown, Hr, Hrow.
Qed.

End UpdateFacts.

(** ** The rows stay well formed *)

Lemma consistent_insert db k t' :
  consistent db -> rows_ok t' -> consistent (<[k := t']> db).
Proof.
  intros Hdb Ht' name t. destruct (decide (k = name)) as [->|Hne].
  - rewrite lookup_insert_eq. by intros [= <-].
  - rewrite lookup_insert_ne by done. apply Hdb.
Qed.

Lemma rows_ok_insert t k tuple rowid cols seq :
  rows_ok t ->
  cols = t_columns t ->
  length tuple = length cols ->
  not_null_violation cols tuple = None ->
  rows_ok {| t_rowid := rowid; t_columns := cols;
             t_rows := <[k := tuple]> (t_rows t); t_seq := seq |}.
Proof.
  intros Ht -> Hlen Hnn k' tuple'. simpl.
  destruct (decide (k = k')) as [->|Hne].
  - rewrite lookup_insert_eq. by intros [= <-].
  - rewrite lookup_insert_ne by done. apply (Ht k').
Qed.

Lemma rows_ok_delete t k rowid seq :
  rows_ok t ->
  rows_ok {| t_rowid := rowid; t_columns := t_columns t;
             t_rows := delete k (t_rows t); t_seq := seq |}.
Proof.
  intros Ht k' tuple'. simpl. intros H.
  apply lookup_delete_Some in H as [_ H]. by apply (Ht k').
Qed.

Lemma keeps_consistent_sret {A} (a : A) : keeps_consistent (sret a).
Proof. intros c r c' Hp Hc [= <- <-]. done. Qed.

Lemma keeps_consistent_lift {A} (o : outcome A) : keeps_consistent (lift o).
Proof. intros c r c' Hp Hc [= <- <-]. done. Qed.

Lemma keeps_consistent_commit : keeps_consistent commit.
Proof. intros c r c' Hp Hc [= <- <-]. done. Qed.

Lemma keeps_consistent_sbind {A B} (m : stmt A) (k : A -> stmt B) :
  keeps_consistent m -> (forall a, keeps_consistent (k a)) ->
  keeps_consistent (sbind m k).
Proof.
  intros Hm Hk c r c' Hp Hc. unfold sbind.
  destruct (m c) as [[a|e] c1] eqn:E1; intros E2.
  - destruct (Hm _ _ _ Hp Hc E1). eapply Hk; eauto.
  - injection E2 as <- <-. eapply Hm; eauto.
Qed.

Lemma keeps_consistent_for_each {A} (xs : list A) (body : A -> stmt unit) :
  (forall x, keeps_consistent (body x)) -> keeps_consistent (for_each xs body).
Proof.
  intros Hb. induction xs as [|x xs IH]; simpl.
  - apply keeps_consistent_sret.
  - apply keeps_consistent_sbind; [apply Hb | done].
Qed.

Lemma keeps_consistent_then_commit {A B} (m : stmt A) (f : A -> B) :
  keeps_consistent m ->
  keeps_consistent (let! a := m in commit ;; sret (f a))%stmt.
Proof.
  intros Hm. apply keeps_consistent_sbind; [done|]. intros a.
  apply keeps_consistent_sbind; [apply keeps_consistent_commit|].
  intros _. apply keeps_consistent_sret.
Qed.

Lemma new_row_length t cols vals now :
  length (new_row real_text t cols vals now) = length (t_columns t).
Proof. unfold new_row. apply length_map. Qed.

Lemma keeps_consistent_execute_insert name cols vals now :
  keeps_consistent (execute_insert real_text name cols vals now).
Proof.
  intros c r c' Hp Hc. unfold execute_insert, find_table.
  destruct (pending c !! lower name) as [t|] eqn:Et; [|by intros [= <- <-]].
  destruct (unknown_column t cols); [by intros [= <- <-]|].
  destruct (not_null_violation _ _) eqn:Hnn; intros [= <- <-]; [done|].
  split; [|done]. simpl. apply consistent_insert; [done|].
  refine (rows_ok_insert t _ _ _ _ _ _ eq_refl (new_row_length _ _ _ _) Hnn).
  eauto.
Qed.

Lemma keeps_consistent_execute_delete name record_id :
  keeps_consistent (execute_delete name record_id).
Proof.
  intros c r c' Hp Hc. unfold execute_delete, find_table.
  destruct (pending c !! lower name) as [t|] eqn:Et; [|by intros [= <- <-]].
  destruct (t_rowid t); intros [= <- <-]; [|done].
  split; [|done]. simpl. apply consistent_insert; [done|].
  apply rows_ok_delete. eauto.
Qed.

Lemma keeps_consistent_execute_update as_rowid name updates record_id :
  keeps_consistent (execute_update real_text as_rowid name updates record_id).
Proof.
  intros c r c' Hp Hc. unfold execute_update, find_table.
  destruct updates as [|u updates]; [by intros [= <- <-]|].
  destruct (pending c !! lower name) as [t|] eqn:Et; [|by intros [= <- <-]].
  destruct (unknown_update t _); [by intros [= <- <-]|].
  destruct (t_rowid t) as [alias|]; [|by intros [= <- <-]].
  destruct (t_rows t !! record_id) as [tuple|] eqn:Erow;
    [|by intros [= <- <-]].
  destruct (not_null_violation _ _) eqn:Hnn; [by intros [= <- <-]|].
  assert (forall rowid,
            rows_ok {| t_rowid := Some alias; t_columns := t_columns t;
                       t_rows := <[rowid := apply_updates real_text
                                              (t_columns t)
                                              (u :: updates) tuple]>
                                   (delete record_id (t_rows t));
                       t_seq := t_seq t |}) as Hok.
  { intros rowid.
    refine (rows_ok_insert
              {| t_rowid := Some alias; t_columns := t_columns t;
                 t_rows := delete record_id (t_rows t); t_seq := t_seq t |}
              rowid _ (Some alias) (t_columns t) (t_seq t) _ eq_refl _ Hnn).
    - apply rows_ok_delete. eauto.
    - rewrite apply_updates_length. by apply (Hp _ _ Et _ _ Erow). }
  destruct (rowid_assigned _ _) as [v|].
  - destruct (as_rowid v) as [rowid|]; [|by intros [= <- <-]].
    case_bool_decide; intros [= <- <-]; [done|].
    split; [|done]. simpl. by apply consistent_insert.
  - intros [= <- <-]. split; [|done]. simpl. by apply consistent_insert.
Qed.

Lemma keeps_consistent_create name t :
  rows_ok t -> keeps_consistent (create_table_if_not_exists name t).
Proof.
  intros Ht c r c' Hp Hc. unfold create_table_if_not_exists.
  destruct (find_table _ _); intros [= <- <-]; [done|].
  split; [|done]. by apply consistent_insert.
Qed.

Lemma with_connect_consistent {A} (body : stmt A) db :
  keeps_consistent body -> consistent db ->
  consistent (with_connect body db).2.
Proof.
  intros Hb Hdb. unfold with_connect.
  destruct (body _) as [[a|e] c] eqn:E;
    by destruct (Hb {| committed := db; pending := db |} _ _ Hdb Hdb E).
Qed.

Lemma rows_ok_new_table rowid cols : rows_ok (new_table rowid cols).
Proof. intros k tuple. simpl. by rewrite lookup_empty. Qed.

Lemma keeps_consistent_save_bill_body bill now :
  keeps_consistent (save_bill_body real_text bill now).
Proof.
  unfold save_bill_body.
  apply keeps_consistent_sbind; [apply keeps_consistent_execute_insert|].
  intros id. apply keeps_consistent_sbind.
  - unfold save_deductions. destruct (contains _); [|apply keeps_consistent_sret].
    apply keeps_consistent_sbind; [apply keeps_consistent_lift|]. intros [ds|].
    + apply keeps_consistent_for_each. intros d. unfold insert_deduction.
      repeat (apply keeps_consistent_sbind; [|intros ?]);
        try apply keeps_consistent_lift; try apply keeps_consistent_sret.
      apply keeps_consistent_execute_insert.
    + apply keeps_consistent_lift.
  - intros _. apply keeps_consistent_sbind; [apply keeps_consistent_commit|].
    intros _. apply keeps_consistent_sret.
Qed.

(** X11. Through every operation of the manager each stored row keeps
    one value per column and holds no NULL in a column declared
    [NOT NULL]; so a listed bill always has eight cells and a bill
    number. *)
Theorem rows_stay_well_formed (as_rowid : sql_value -> option Z)
    (db : database) :
  consistent db ->
  consistent (init_database db).2 /\
  (forall bill now, consistent (save_bill real_text bill now db).2) /\
  (forall emd now, consistent (save_emd_refund real_text emd now db).2) /\
  (forall project now, consistent (save_project real_text project now db).2) /\
  (forall name record_id, consistent (delete_record name record_id db).2) /\
  (forall name record_id updates,
     consistent (update_record real_text as_rowid name record_id updates db).2) /\
  (initialised db ->
   forall df row,
     (get_bills None db).1 = Return df -> row ∈ df_rows df ->
     length row = 8%nat /\ cell_at 1 row <> SNull).
Proof.
  intros Hdb. split; [|split; [|split; [|split; [|split; [|split]]]]].
  - apply with_connect_consistent; [|done]. unfold init_database.
    repeat (apply keeps_consistent_sbind;
            [apply keeps_consistent_create, rows_ok_new_table|intros _]).
    apply keeps_consistent_commit.
  - intros. apply with_connect_consistent, Hdb.
    apply keeps_consistent_save_bill_body.
  - intros. apply with_connect_consistent, Hdb.
    apply (keeps_consistent_then_commit _ (fun a => a)),
      keeps_consistent_execute_insert.
  - intros. apply with_connect_consistent, Hdb.
    apply (keeps_consistent_then_commit _ (fun a => a)),
      keeps_consistent_execute_insert.
  - intros. apply with_connect_consistent, Hdb.
    apply (keeps_consistent_then_commit _ (fun n => (0 <? n)%Z)),
      keeps_consistent_execute_delete.
  - intros. apply with_connect_consistent, Hdb.
    apply (keeps_consistent_then_commit _ (fun n => (0 <? n)%Z)),
      keeps_consistent_execute_update.
  - intros ((t & Ht & Hr & Hc) & _) df row. unfold get_bills.
    rewrite (list_newest_first_eq "bills" None db t 7); [|done|].
    2: { unfold column_index, column_names. by rewrite Hr, Hc. }
    intros [= <-]. cbn [df_rows truthy].
    rewrite merge_sort_Permutation, elem_of_all_rows.
    intros (k & tuple & Hk & ->). unfold full_row. rewrite Hr. simpl.
    destruct (Hdb _ _ Ht _ _ Hk) as [Hlen Hnn]. rewrite Hc in Hlen, Hnn.
    split; [simpl in Hlen; by rewrite Hlen|].
    destruct tuple as [|v tuple]; [done|]. unfold cell_at. simpl.
    simpl in Hnn. by destruct v.
Qed.

(** ** A bill and its deductions *)

Lemma insert_deduction_pairs bill_id now d c c' :
  has_table (pending c) "deductions" deductions_table ->
  insert_deduction real_text bill_id now d c = (Return tt, c') ->
  exists t t' k,
    pending c !! "deductions" = Some t /\
    pending c' !! "deductions" = Some t' /\
    t_rowid t' = t_rowid t /\ t_columns t' = t_columns t /\
    t_rows t !! k = None /\
    t_rows t' = <[k := deduction_tuple bill_id now d]> (t_rows t).
Proof.
  intros (t & Ht & Hr & Hc). unfold insert_deduction, sbind, lift, item.
  destruct (d_type d) as [|ty] eqn:Ety; [done|].
  destruct (d_amount d) as [|am] eqn:Eam; [done|].
  destruct (execute_insert real_text _ _ _ _ _) as [[id|e] c1] eqn:E; [|done].
  intros [= <-].
  apply execute_insert_Return in E as (t0 & Ht0 & _ & -> & _ & Hp).
  unfold find_table in Ht0. change (lower "deductions") with "deductions" in *.
  rewrite Ht in Ht0. injection Ht0 as <-.
  exists t. eexists. exists (next_rowid t).
  split; [done|]. rewrite Hp, lookup_insert_eq.
  split; [done|]. split; [done|]. split; [done|].
  split; [apply next_rowid_fresh|]. simpl.
  destruct (deductions_layout bill_id now d t Hr Hc) as (_ & _ & Hrow).
  unfold deduction_tuple in *. rewrite Ety, Eam in Hrow. simpl in Hrow.
  by rewrite Hrow, Ety, Eam.
Qed.

Lemma for_each_insert_deduction_pairs bill_id now ds c c' :
  has_table (pending c) "deductions" deductions_table ->
  for_each ds (insert_deduction real_text bill_id now) c = (Return tt, c') ->
  exists t t' news,
    pending c !! "deductions" = Some t /\
    pending c' !! "deductions" = Some t' /\
    t_rowid t' = t_rowid t /\ t_columns t' = t_columns t /\
    map_to_list (t_rows t') ≡ₚ news ++ map_to_list (t_rows t) /\
    news.*2 = map (deduction_tuple bill_id now) ds.
Proof.
  revert c. induction ds as [|d ds IH]; intros c Hc; simpl.
  - intros [= <-]. destruct Hc as (t & Ht & _). by exists t, t, [].
  - unfold sbind at 1.
    destruct (insert_deduction real_text _ _ _ _) as [[[]|e] c1] eqn:E1; [|done].
    intros E2.
    destruct (insert_deduction_pairs _ _ _ _ _ Hc E1)
      as (t & t1 & k & Ht & Ht1 & Hr1 & Hc1 & Hk & Hrows1).
    destruct (IH c1) as (t1' & t' & news & Ht1' & Ht' & Hr' & Hc' & Hp' & Hn);
      [|done|].
    { destruct Hc as (t0 & Ht0 & Hr0 & Hc0). exists t1.
      rewrite Ht in Ht0. injection Ht0 as <-.
      split; [done|]. split; congruence. }
    rewrite Ht1 in Ht1'. injection Ht1' as <-.
    exists t, t', ((k, deduction_tuple bill_id now d) :: news).
    split; [done|]. split; [done|].
    split; [congruence|]. split; [congruence|]. split.
    + rewrite Hp', Hrows1, map_to_list_insert by done.
      by rewrite <- Permutation_middle.
    + by rewrite fmap_cons, Hn.
Qed.

(** What a returning [save_bill] has done to the two tables. *)
Lemma save_bill_Return bill now db id db' :
  initialised db ->
  save_bill real_text bill now db = (Return id, db') ->
  exists tb td td' news,
    db !! "bills" = Some tb /\ db !! "deductions" = Some td /\
    id = next_rowid tb /\
    db' !! "bills" =
      Some {| t_rowid := t_rowid tb; t_columns := t_columns tb;
              t_rows := <[id := (bill_row bill now)]>
                          (t_rows tb);
              t_seq := id |} /\
    db' !! "deductions" = Some td' /\
    t_rowid td' = t_rowid td /\ t_columns td' = t_columns td /\
    map_to_list (t_rows td') ≡ₚ news ++ map_to_list (t_rows td) /\
    news.*2 = map (deduction_tuple id now) (listed_deductions bill) /\
    forall name, name <> "bills" -> name <> "deductions" ->
                 db' !! name = db !! name.
Proof.
  intros (Hbills & _ & _ & Hded & _) Hsave.
  destruct (save_bill_bills _ _ _ _ _ Hsave) as (tb & Htb & -> & Htb' & Hother).
  change (find_table db "bills") with (db !! "bills") in Htb.
  destruct Hbills as (tb0 & Htb0 & Hr & Hc).
  rewrite Htb in Htb0. injection Htb0 as <-.
  destruct (bills_layout bill now tb Hr Hc) as (_ & _ & Hrow).
  rewrite Hrow in Htb'.
  revert Hsave. rewrite save_bill_unfold.
  destruct (execute_insert real_text _ _ _ _ _) as [[bill_id|e] c1] eqn:E1; [|done].
  destruct (save_deductions real_text _ _ _ _) as [[[]|e] c2] eqn:E2; [|done].
  intros [= -> <-].
  apply execute_insert_Return in E1 as (tb1 & _ & _ & _ & _ & Hp).
  change (lower "bills") with "bills" in Hp. simpl in Hp.
  destruct Hded as (td & Htd & Hrd & Hcd).
  assert (has_table (pending c1) "deductions" deductions_table) as Hded1.
  { exists td. rewrite Hp. by rewrite lookup_insert_ne. }
  assert (pending c1 !! "deductions" = Some td) as Htd1.
  { rewrite Hp. by rewrite lookup_insert_ne. }
  revert E2. unfold save_deductions, listed_deductions, contains.
  destruct (deductions bill) as [|[ds|]]; simpl.
  - intros [= <-]. exists tb, td, td, []. rewrite Htd1. done.
  - unfold sbind, lift. simpl. intros E.
    destruct (for_each_insert_deduction_pairs _ _ _ _ _ Hded1 E)
      as (t & t' & news & Ht & Ht' & ? & ? & ? & ?).
    rewrite Htd1 in Ht. injection Ht as <-.
    exists tb, td, t', news. done.
  - done.
Qed.

Lemma filter_none {A} (P : A -> Prop) `{!forall x, Decision (P x)} (l : list A) :
  (forall x, x ∈ l -> ~ P x) -> filter P l = [].
Proof.
  induction l as [|x l IH]; intros Hl; [done|].
  rewrite filter_cons_False by (apply Hl; left).
  apply IH. intros y Hy. apply Hl. by right.
Qed.

Lemma filter_all {A} (P : A -> Prop) `{!forall x, Decision (P x)} (l : list A) :
  (forall x, x ∈ l -> P x) -> filter P l = l.
Proof.
  induction l as [|x l IH]; intros Hl; [done|].
  rewrite filter_cons_True by (apply Hl; left).
  f_equal. apply IH. intros y Hy. apply Hl. by right.
Qed.

Lemma rows_by_rowid_Permutation t : rows_by_rowid t ≡ₚ all_rows t.
Proof. unfold rows_by_rowid, all_rows. by rewrite merge_sort_Permutation. Qed.

Lemma get_bill_with_deductions_eq bill_id db :
  get_bill_with_deductions bill_id db =
  match select_eq "bills" "id" bill_id db with
  | Raise e => (Raise e, db)
  | Return bill_df =>
      match select_eq "deductions" "bill_id" bill_id db with
      | Raise e => (Raise e, db)
      | Return deduction_df => (Return (bill_df, deduction_df), db)
      end
  end.
Proof.
  unfold get_bill_with_deductions, with_connect, sbind, read_sql_query.
  cbn [pending committed].
  destruct (select_eq "bills" _ _ _); [|done].
  by destruct (select_eq "deductions" _ _ _).
Qed.

(** X12. A bill read back with its deductions: on a database in which
    no deduction refers to an id not yet handed out, after [save_bill]
    has returned [id], [get_bill_with_deductions id] returns the one row
    of the bill, its date converted as the column has it, and, whatever
    else the table holds, exactly one row for each deduction the bill
    listed.  The deduction rows are compared without their id and their
    [created_at]. *)
Theorem save_then_join (db : database) (bill : bill_data) (now : string)
    (id : Z) (db' : database) :
  initialised db ->
  references_known db ->
  save_bill real_text bill now db = (Return id, db') ->
  exists bill_df deduction_df,
    get_bill_with_deductions id db' = (Return (bill_df, deduction_df), db') /\
    df_rows bill_df = [SInt id :: bill_row bill now] /\
    map (fun row => take 5 (drop 1 row)) (df_rows deduction_df) ≡ₚ
      map (stored_deduction id) (listed_deductions bill).
Proof.
  intros Hinit (tb0 & td0 & Htb0 & Htd0 & Hknown) Hsave.
  destruct (save_bill_Return _ _ _ _ _ Hinit Hsave)
    as (tb & td & td' & news & Htb & Htd & -> & Htb' & Htd' & Hrd & Hcd
        & Hrows & Hnews & _).
  rewrite Htb in Htb0. injection Htb0 as <-.
  rewrite Htd in Htd0. injection Htd0 as <-.
  destruct Hinit as ((tb1 & Htb1 & Hr & Hc) & _ & _ & (td1 & Htd1 & Hrd1 & Hcd1) & _).
  rewrite Htb in Htb1. injection Htb1 as <-.
  rewrite Htd in Htd1. injection Htd1 as <-.
  rewrite get_bill_with_deductions_eq. unfold select_eq, find_table.
  change (lower "bills") with "bills".
  change (lower "deductions") with "deductions".
  rewrite Htb', Htd'. unfold column_index, column_names. cbn [t_rowid t_columns].
  rewrite Hr, Hc, Hrd, Hcd, Hrd1, Hcd1. cbn -[rows_by_rowid filter].
  eexists _, _. split; [reflexivity|]. cbn [df_rows]. split.
  - apply Permutation_singleton_r.
    rewrite rows_by_rowid_Permutation. unfold all_rows, full_row.
    cbn [t_rows t_rowid]. rewrite ?Hr. cbn [t_rowid bills_table new_table].
    rewrite map_to_list_insert by apply next_rowid_fresh.
    rewrite fmap_cons, filter_cons_True
      by (unfold cell_at; simpl; apply Z.eqb_refl).
    rewrite filter_none; [done|].
    intros row Hrow. apply list_elem_of_fmap in Hrow as ([k tuple] & -> & Hk).
    apply elem_of_map_to_list in Hk. unfold cell_at. simpl.
    destruct (next_rowid_above tb) as [_ Habove].
    specialize (Habove _ _ Hk). intros Heq. apply Z.eqb_eq in Heq. lia.
  - match goal with
    | |- map _ ?rows ≡ₚ _ =>
        assert (map (drop 1) rows ≡ₚ
                map (deduction_tuple (next_rowid tb) now)
                  (listed_deductions bill)) as Hold
    end; [|apply (Permutation_map (take 5)) in Hold;
           rewrite !map_map in Hold; exact Hold].
    rewrite rows_by_rowid_Permutation. unfold all_rows, full_row.
    rewrite ?Hrd, ?Hrd1. cbn [t_rowid deductions_table new_table].
    rewrite Hrows, fmap_app, filter_app.
    rewrite (filter_none _ (_ <$> map_to_list (t_rows td))).
    + rewrite app_nil_r, filter_all.
      * rewrite <- Hnews. clear.
        induction news as [|[k tuple] news IH]; [done|].
        rewrite !fmap_cons. cbn [map drop fst snd]. by rewrite IH.
      * intros row Hrow.
        apply list_elem_of_fmap in Hrow as ([k tuple] & -> & Hk).
        assert (tuple ∈ news.*2) as Ht.
        { apply list_elem_of_fmap. by exists (k, tuple). }
        rewrite Hnews in Ht. apply list_elem_of_fmap in Ht as (d & -> & _).
        unfold cell_at. simpl. apply Z.eqb_refl.
    + intros row Hrow. apply list_elem_of_fmap in Hrow as ([k tuple] & -> & Hk).
      apply elem_of_map_to_list in Hk. intros Heq.
      assert (next_rowid tb <= t_seq tb) as Hle.
      { apply (Hknown k tuple); [done|].
        unfold cell_at in *. simpl in Heq. by destruct tuple. }
      destruct (next_rowid_above tb). lia.
Qed.

Lemma save_bill_atomic_helper bill now db e db' :
  save_bill real_text bill now db = (Raise e, db') -> db' = db.
Proof.
  rewrite save_bill_unfold.
  destruct (execute_insert real_text _ _ _ _ _) as [[bill_id|e1] c1]; [|congruence].
  destruct (save_deductions real_text _ _ _ _) as [[[]|e2] c2]; congruence.
Qed.

Lemma references_known_other db k t' :
  k <> "bills" -> k <> "deductions" ->
  references_known db -> references_known (<[k := t']> db).
Proof.
  intros H1 H2 (tb & td & Htb & Htd & H). exists tb, td.
  by rewrite !lookup_insert_ne.
Qed.

Lemma save_one_result name cols vals now db :
  (with_connect (let! rowid := execute_insert real_text name cols vals now in
                 commit ;; sret rowid)%stmt db).2 = db \/
  exists t',
    (with_connect (let! rowid := execute_insert real_text name cols vals now in
                   commit ;; sret rowid)%stmt db).2 = <[lower name := t']> db.
Proof.
  rewrite save_one_unfold.
  destruct (execute_insert real_text _ _ _ _ _) as [[rowid|e] c1] eqn:E; [|by left].
  apply execute_insert_Return in E as (t & _ & _ & _ & _ & Hp).
  right. eexists. exact Hp.
Qed.

(** X13. That no deduction refers to an id not yet handed out holds
    after [init_database] on an empty database and is kept by every save
    and every delete. *)
Theorem references_stay_known (db : database) :
  references_known (init_database ∅).2 /\
  (initialised db -> references_known db ->
   (forall bill now, references_known (save_bill real_text bill now db).2) /\
   (forall emd now, references_known (save_emd_refund real_text emd now db).2) /\
   (forall project now, references_known (save_project real_text project now db).2) /\
   (forall name record_id,
      references_known (delete_record name record_id db).2)).
Proof.
  split.
  { exists bills_table, deductions_table. split; [done|]. split; [done|].
    intros k tuple b. simpl. by rewrite lookup_empty. }
  intros Hinit Hknown. split; [|split; [|split]].
  - intros bill now.
    destruct (save_bill real_text bill now db) as [[id|e] db'] eqn:Hsave.
    + destruct (save_bill_Return _ _ _ _ _ Hinit Hsave)
        as (tb & td & td' & news & Htb & Htd & -> & Htb' & Htd' & _ & _
            & Hrows & Hnews & _).
      destruct Hknown as (tb0 & td0 & Htb0 & Htd0 & Hknown).
      rewrite Htb in Htb0. injection Htb0 as <-.
      rewrite Htd in Htd0. injection Htd0 as <-.
      eexists _, td'. split; [exact Htb'|]. split; [exact Htd'|].
      intros k tuple b Hk Hb. cbn [t_seq].
      apply elem_of_map_to_list in Hk. rewrite Hrows in Hk.
      apply elem_of_app in Hk as [Hk|Hk].
      * assert (tuple ∈ news.*2) as Ht.
        { apply list_elem_of_fmap. by exists (k, tuple). }
        rewrite Hnews in Ht. apply list_elem_of_fmap in Ht as (d & -> & _).
        unfold cell_at in Hb. simpl in Hb. apply Z.eqb_eq in Hb. lia.
      * apply elem_of_map_to_list in Hk. specialize (Hknown _ _ _ Hk Hb).
        destruct (next_rowid_above tb). lia.
    + apply save_bill_atomic_helper in Hsave as ->. done.
  - intros emd now. unfold save_emd_refund.
    destruct (save_one_result "emd_refunds" emd_columns (emd_values emd) now db)
      as [->|[t' ->]]; [done|].
    by apply references_known_other.
  - intros project now. unfold save_project.
    destruct (save_one_result "projects" project_columns
                (project_values project) now db) as [->|[t' ->]]; [done|].
    by apply references_known_other.
  - intros name record_id. rewrite delete_record_eq.
    destruct (find_table db name) as [t|] eqn:Ht; [|done].
    destruct (t_rowid t); [|done]. cbn [snd].
    destruct Hknown as (tb & td & Htb & Htd & Hknown).
    unfold find_table in Ht.
    destruct (decide (lower name = "bills")) as [Hb|Hb];
      [|destruct (decide (lower name = "deductions")) as [Hd|Hd]].
    + rewrite Hb in *. rewrite Htb in Ht. injection Ht as <-.
      eexists _, td. rewrite lookup_insert_eq.
      split; [done|]. by rewrite lookup_insert_ne.
    + rewrite Hd in *. rewrite Htd in Ht. injection Ht as <-.
      exists tb. eexists. rewrite lookup_insert_eq.
      split; [by rewrite lookup_insert_ne|]. split; [done|].
      intros k tuple b Hk. cbn [t_rows] in Hk.
      apply lookup_delete_Some in Hk as [_ Hk]. by apply (Hknown k).
    + apply references_known_other; [done|done|]. by exists tb, td.
Qed.

(** ** Statistics *)

Section StatisticsFacts.

Variable text_number : string -> Q.

Local Open Scope Q_scope.

Lemma or_zero_sql_sum cells :
  or_zero (sql_sum text_number cells) == sum_cells text_number cells.
Proof.
  unfold sql_sum, sum_cells, or_zero.
  destruct (omap _ cells) as [|x xs]; [done|].
  destruct (Qeq_bool _ 0) eqn:E; [|done].
  apply Qeq_bool_iff in E. by rewrite E.
Qed.

Lemma sum_cells_cons v cells :
  sum_cells text_number (v :: cells) ==
  default 0 (summand text_number v) + sum_cells text_number cells.
Proof.
  unfold sum_cells. cbn [omap list_omap].
  destruct (summand text_number v); cbn [default foldr]; [done|].
  by rewrite Qplus_0_l.
Qed.

Lemma sum_cells_Permutation cells cells' :
  cells ≡ₚ cells' ->
  sum_cells text_number cells == sum_cells text_number cells'.
Proof.
  intros H. unfold sum_cells.
  apply (foldr_permutation_proper Qeq Qplus); [apply _|..].
  - intros x y z. ring.
  - by apply omap_Permutation.
Qed.

Lemma statistics_columns tb te tp :
  t_rowid tb = t_rowid bills_table -> t_columns tb = t_columns bills_table ->
  t_rowid te = t_rowid emd_refunds_table ->
  t_columns te = t_columns emd_refunds_table ->
  t_rowid tp = t_rowid projects_table ->
  t_columns tp = t_columns projects_table ->
  column_index tb "bill_amount" = Some 5%nat /\
  column_index tb "status" = Some 6%nat /\
  column_index te "emd_amount" = Some 3%nat /\
  column_index tp "agreement_amount" = Some 4%nat /\
  column_index tp "status" = Some 7%nat.
Proof.
  intros Hrb Hcb Hre Hce Hrp Hcp. unfold column_index, column_names.
  by rewrite Hrb, Hcb, Hre, Hce, Hrp, Hcp.
Qed.

Lemma get_statistics_eq db :
  initialised db ->
  exists tb te tp td,
    db !! "bills" = Some tb /\ db !! "emd_refunds" = Some te /\
    db !! "projects" = Some tp /\ db !! "deductions" = Some td /\
    get_statistics text_number db =
    (Return
       [("total_bills", inject_Z (Z.of_nat (size (t_rows tb))));
        ("total_emd_refunds", inject_Z (Z.of_nat (size (t_rows te))));
        ("total_projects", inject_Z (Z.of_nat (size (t_rows tp))));
        ("total_deductions", inject_Z (Z.of_nat (size (t_rows td))));
        ("total_active_bills_amount",
         or_zero (sql_sum text_number
                    (map (cell_at 5)
                       (filter (fun r => is_text "Active" (cell_at 6 r) = true)
                               (all_rows tb)))));
        ("total_emd_amount",
         or_zero (sql_sum text_number (map (cell_at 3) (all_rows te))));
        ("total_active_projects_value",
         or_zero (sql_sum text_number
                    (map (cell_at 4)
                       (filter (fun r => is_text "Active" (cell_at 7 r) = true)
                               (all_rows tp)))))], db).
Proof.
  intros ((tb & Htb & Hrb & Hcb) & (te & Hte & Hre & Hce)
          & (tp & Htp & Hrp & Hcp) & (td & Htd & _) & _).
  exists tb, te, tp, td. repeat (split; [done|]).
  unfold get_statistics, with_connect, sbind, count_rows, sum_column,
    find_table, sret.
  cbn [pending committed].
  change (lower "bills") with "bills".
  change (lower "emd_refunds") with "emd_refunds".
  change (lower "projects") with "projects".
  change (lower "deductions") with "deductions".
  destruct (statistics_columns tb te tp) as (H1 & H2 & H3 & H4 & H5);
    try done.
  repeat (progress
            (rewrite ?Htb, ?Hte, ?Htp, ?Htd, ?H1, ?H2, ?H3, ?H4, ?H5;
             cbn [pending committed])).
  destruct (column_index te "status");
    repeat (progress
              (rewrite ?Htb, ?Hte, ?Htp, ?Htd, ?H1, ?H2, ?H3, ?H4, ?H5;
               cbn [pending committed])); reflexivity.
Qed.

End StatisticsFacts.

Lemma save_bill_initialised bill now db id db' :
  initialised db -> save_bill real_text bill now db = (Return id, db') ->
  initialised db'.
Proof.
  intros Hi Hsave.
  destruct (save_bill_Return _ _ _ _ _ Hi Hsave)
    as (tb & td & td' & news & Htb & Htd & _ & Htb' & Htd' & Hr & Hc & _ & _
        & Hother).
  destruct Hi as ((tb0 & Htb0 & Hrb & Hcb) & He & Hp & (td0 & Htd0 & Hrd & Hcd)
                  & Hs).
  rewrite Htb in Htb0. injection Htb0 as <-.
  rewrite Htd in Htd0. injection Htd0 as <-.
  split; [|split; [|split; [|split]]].
  - eexists. split; [exact Htb'|]. done.
  - destruct He as (t & Ht & ?). exists t. by rewrite Hother.
  - destruct Hp as (t & Ht & ?). exists t. by rewrite Hother.
  - exists td'. split; [done|]. by rewrite Hr, Hc.
  - destruct Hs as (t & Ht & ?). exists t. by rewrite Hother.
Qed.

Lemma size_Permutation_app (m m' : gmap Z (list sql_value)) news :
  map_to_list m' ≡ₚ (news ++ map_to_list m)%list ->
  size m' = (length news + size m)%nat.
Proof.
  intros H. rewrite <- !length_map_to_list, H. by rewrite length_app.
Qed.

Section StatisticsAfter.

Variable text_number : string -> Q.

Local Open Scope Q_scope.

Lemma active_cells_insert rowid cols rows seq id bill now :
  rows !! id = None ->
  sum_cells text_number
    (map (cell_at 5)
       (filter (fun r => is_text "Active" (cell_at 6 r) = true)
          (all_rows {| t_rowid := Some rowid; t_columns := cols;
                       t_rows := <[id := (bill_row bill now)]>
                                   rows;
                       t_seq := seq |}))) ==
  sum_cells text_number
    (map (cell_at 5)
       (filter (fun r => is_text "Active" (cell_at 6 r) = true)
          (all_rows {| t_rowid := Some rowid; t_columns := cols;
                       t_rows := rows; t_seq := id |}))) +
  active_amount bill.
Proof.
  intros Hfresh. unfold all_rows. cbn [t_rows].
  rewrite (sum_cells_Permutation text_number _
             (map (cell_at 5)
                (filter (fun r => is_text "Active" (cell_at 6 r) = true)
                   (map (full_row {| t_rowid := Some rowid; t_columns := cols;
                                     t_rows := rows; t_seq := id |})
                      ((id, (bill_row bill now))
                         :: map_to_list rows))))).
  2:{ apply Permutation_map, filter_Permutation, Permutation_map.
      by apply map_to_list_insert. }
  cbn [map]. rewrite filter_cons.
  unfold active_amount, bill_row, full_row at 1.
  destruct (status bill) as [|[s|]], (bill_amount bill) as [|[a|]];
    cbn -[sum_cells String.eqb decide stored_date];
    try destruct (String.eqb s "Active") eqn:Es;
    try (rewrite decide_True by done);
    try (rewrite decide_False by done);
    cbn -[sum_cells String.eqb];
    rewrite ?sum_cells_cons, ?String.eqb_refl;
    cbn -[sum_cells String.eqb]; ring.
Qed.

Lemma all_rows_seq rowid cols rows seq seq' :
  all_rows {| t_rowid := rowid; t_columns := cols; t_rows := rows;
              t_seq := seq |} =
  all_rows {| t_rowid := rowid; t_columns := cols; t_rows := rows;
              t_seq := seq' |}.
Proof. reflexivity. Qed.

(** X14. Statistics after a save: on a database with the declared
    tables [get_statistics] returns and changes nothing, and after
    [save_bill] has returned it counts one bill more and one deduction
    more for each deduction the bill listed, the total of the active
    bills has grown by the bill's amount when its status is "Active"
    (the default) and not at all otherwise, and the figures of the EMD
    refunds and the projects are as before.  Amounts are exact
    rationals. *)
Theorem statistics_after_save_bill (db : database) (bill : bill_data)
    (now : string) (id : Z) (db' : database) :
  initialised db ->
  save_bill real_text bill now db = (Return id, db') ->
  exists s s',
    get_statistics text_number db = (Return s, db) /\
    get_statistics text_number db' = (Return s', db') /\
    stat "total_bills" s' == stat "total_bills" s + 1 /\
    stat "total_deductions" s' ==
      stat "total_deductions" s
      + inject_Z (Z.of_nat (length (listed_deductions bill))) /\
    stat "total_active_bills_amount" s' ==
      stat "total_active_bills_amount" s + active_amount bill /\
    stat "total_emd_refunds" s' = stat "total_emd_refunds" s /\
    stat "total_projects" s' = stat "total_projects" s /\
    stat "total_emd_amount" s' = stat "total_emd_amount" s /\
    stat "total_active_projects_value" s' =
      stat "total_active_projects_value" s.
Proof.
  intros Hi Hsave.
  pose proof (save_bill_initialised _ _ _ _ _ Hi Hsave) as Hi'.
  destruct (save_bill_Return _ _ _ _ _ Hi Hsave)
    as (tb & td & td' & news & Htb & Htd & Hid & Htb' & Htd' & _ & _ & Hperm
        & Hnews & Hother).
  destruct (get_statistics_eq text_number db Hi)
    as (tb0 & te & tp & td0 & Hb0 & He & Hp & Hd0 & ->).
  destruct (get_statistics_eq text_number db' Hi')
    as (tb1 & te1 & tp1 & td1 & Hb1 & He1 & Hp1 & Hd1 & ->).
  rewrite Htb in Hb0. injection Hb0 as <-.
  rewrite Htd in Hd0. injection Hd0 as <-.
  rewrite Htb' in Hb1. injection Hb1 as <-.
  rewrite Htd' in Hd1. injection Hd1 as <-.
  rewrite Hother, He in He1 by done. injection He1 as <-.
  rewrite Hother, Hp in Hp1 by done. injection Hp1 as <-.
  eexists _, _. split; [reflexivity|]. split; [reflexivity|].
  unfold stat, assoc. cbn -[or_zero sql_sum all_rows filter size].
  destruct Hi as ((tb0 & Htb0 & Hrb & Hcb) & _).
  rewrite Htb in Htb0. injection Htb0 as <-.
  split; [|split; [|split; [|done]]].
  - rewrite map_size_insert_None by (subst id; apply next_rowid_fresh).
    rewrite Nat2Z.inj_succ, <- Z.add_1_r, inject_Z_plus. reflexivity.
  - rewrite (size_Permutation_app _ _ _ Hperm).
    rewrite Nat2Z.inj_add, inject_Z_plus.
    replace (length news) with (length (listed_deductions bill)).
    + ring.
    + by rewrite <- (length_fmap snd news), Hnews, length_map.
  - rewrite !or_zero_sql_sum.
    destruct tb as [r c rs sq]. cbn [t_rowid t_columns t_rows] in *.
    change (t_rowid bills_table) with (Some "id") in Hrb. subst r.
    etransitivity.
    + apply (active_cells_insert "id" c rs id id bill now).
      subst id. apply (next_rowid_fresh
                         {| t_rowid := Some "id"; t_columns := c;
                            t_rows := rs; t_seq := sq |}).
    + reflexivity.
Qed.

(** X15. Statistics after a delete: when [delete_record] has removed a
    bill, [get_statistics] counts one bill less, while the number of
    deductions is what it was, those of the deleted bill included, and
    the figures of the EMD refunds and the projects are as before. *)
Theorem statistics_after_delete_bill (db : database) (record_id : Z)
    (db' : database) :
  initialised db ->
  delete_record "bills" record_id db = (Return true, db') ->
  exists s s',
    get_statistics text_number db = (Return s, db) /\
    get_statistics text_number db' = (Return s', db') /\
    stat "total_bills" s' == stat "total_bills" s - 1 /\
    stat "total_deductions" s' = stat "total_deductions" s /\
    stat "total_emd_refunds" s' = stat "total_emd_refunds" s /\
    stat "total_projects" s' = stat "total_projects" s /\
    stat "total_emd_amount" s' = stat "total_emd_amount" s /\
    stat "total_active_projects_value" s' =
      stat "total_active_projects_value" s.
Proof.
  intros Hi. rewrite delete_record_eq.
  change (find_table db "bills") with (db !! "bills").
  change (lower "bills") with "bills".
  destruct (get_statistics_eq text_number db Hi)
    as (tb & te & tp & td & Hb & He & Hp & Hd & ->).
  rewrite Hb. destruct Hi as ((tb0 & Htb0 & Hrb & Hcb) & Hi).
  rewrite Hb in Htb0. injection Htb0 as <-.
  change (t_rowid bills_table) with (Some "id") in Hrb. rewrite Hrb.
  intros [= Hin <-]. apply bool_decide_eq_true in Hin as [tuple Hin].
  assert (initialised
            (<["bills" := {| t_rowid := Some "id"; t_columns := t_columns tb;
                             t_rows := delete record_id (t_rows tb);
                             t_seq := t_seq tb |}]> db)) as Hi'.
  { destruct Hi as ((t1 & H1 & ?) & (t2 & H2 & ?) & (t3 & H3 & ?)
                    & (t4 & H4 & ?)).
    split; [|split; [|split; [|split]]].
    - eexists. rewrite lookup_insert_eq. done.
    - exists t1. by rewrite lookup_insert_ne.
    - exists t2. by rewrite lookup_insert_ne.
    - exists t3. by rewrite lookup_insert_ne.
    - exists t4. by rewrite lookup_insert_ne. }
  destruct (get_statistics_eq text_number _ Hi')
    as (tb1 & te1 & tp1 & td1 & Hb1 & He1 & Hp1 & Hd1 & ->).
  rewrite lookup_insert_eq in Hb1. injection Hb1 as <-.
  rewrite lookup_insert_ne, He in He1 by done. injection He1 as <-.
  rewrite lookup_insert_ne, Hp in Hp1 by done. injection Hp1 as <-.
  rewrite lookup_insert_ne, Hd in Hd1 by done. injection Hd1 as <-.
  eexists _, _. split; [reflexivity|]. split; [reflexivity|].
  unfold stat, assoc. cbn -[or_zero sql_sum all_rows filter size].
  split; [|done].
  assert (size (delete record_id (t_rows tb)) = pred (size (t_rows tb))) as Hs by (by rewrite map_size_delete, Hin).
  rewrite Hs. unfold Qminus.
  assert (size (t_rows tb) <> 0%nat) as Hne.
  { intros H0. apply map_size_empty_inv in H0. rewrite H0 in Hin. done. }
  rewrite Nat2Z.inj_pred by lia.
  rewrite <- Z.sub_1_r. unfold Z.sub. rewrite inject_Z_plus. reflexivity.
Qed.

End StatisticsAfter.

(** ** Reading leaves the store alone *)

Lemma with_connect_unchanged {A} (body : stmt A) db :
  (forall c r c', body c = (r, c') -> c' = c) ->
  (with_connect body db).2 = db.
Proof.
  intros H. unfold with_connect.
  destruct (body _) as [[a|e] c'] eqn:E; apply H in E; by subst c'.
Qed.

Lemma sbind_unchanged {A B} (m : stmt A) (k : A -> stmt B) :
  (forall c r c', m c = (r, c') -> c' = c) ->
  (forall a c r c', k a c = (r, c') -> c' = c) ->
  forall c r c', sbind m k c = (r, c') -> c' = c.
Proof.
  intros Hm Hk c r c'. unfold sbind.
  destruct (m c) as [[a|e] c1] eqn:E; apply Hm in E; subst c1.
  - apply Hk.
  - by intros [= _ <-].
Qed.

Lemma read_sql_query_unchanged q c r c' :
  read_sql_query q c = (r, c') -> c' = c.
Proof. unfold read_sql_query. by intros [= _ <-]. Qed.

Section ReadingFacts.

Variable text_number : string -> Q.

Lemma count_rows_unchanged name c r c' :
  count_rows name c = (r, c') -> c' = c.
Proof. unfold count_rows. destruct (find_table _ _); by intros [= _ <-]. Qed.

Lemma sum_column_unchanged name col with_status c r c' :
  sum_column text_number name col with_status c = (r, c') -> c' = c.
Proof.
  unfold sum_column. destruct (find_table _ _); [|by intros [= _ <-]].
  destruct (column_index _ col); [|by intros [= _ <-]].
  destruct (column_index _ "status"), with_status; by intros [= _ <-].
Qed.

(** X16. Reading changes nothing: whatever the database holds and
    whatever the arguments, and whether the call returns or raises, the
    listings, [get_bill_with_deductions], [search_records] and
    [get_statistics] leave the database as it was. *)
Theorem reads_leave_database (db : database) :
  (forall limit, (get_bills limit db).2 = db) /\
  (forall limit, (get_emd_refunds limit db).2 = db) /\
  (forall limit, (get_projects limit db).2 = db) /\
  (forall bill_id, (get_bill_with_deductions bill_id db).2 = db) /\
  (forall table_name search_term columns,
     (search_records real_text table_name search_term columns db).2 = db) /\
  (get_statistics text_number db).2 = db.
Proof.
  repeat split.
  - intros limit. unfold get_bills, list_newest_first.
    by rewrite with_connect_read.
  - intros limit. unfold get_emd_refunds, list_newest_first.
    by rewrite with_connect_read.
  - intros limit. unfold get_projects, list_newest_first.
    by rewrite with_connect_read.
  - intros bill_id. rewrite get_bill_with_deductions_eq.
    destruct (select_eq "bills" _ _ _); [|done].
    by destruct (select_eq "deductions" _ _ _).
  - intros table_name search_term columns. unfold search_records.
    destruct columns as [[|col cols]|];
      try destruct (search_columns table_name);
      try done; by rewrite with_connect_read.
  - unfold get_statistics. apply with_connect_unchanged.
    repeat (apply sbind_unchanged;
            [first [apply count_rows_unchanged | apply sum_column_unchanged]
            | intros ?]).
    unfold sret. by intros c r c' [= _ <-].
Qed.

End ReadingFacts.

Section MoreSearchFacts.

Lemma search_records_eq name term cols t i indices db :
  search_columns name <> [] ->
  cols = search_columns name ->
  find_table db name = Some t ->
  mapM (column_index t) cols = Some indices ->
  column_index t "created_at" = Some i ->
  search_records real_text name term None db =
  (Return {| df_columns := column_names t;
             df_rows :=
               merge_sort (desc i)
                 (filter (fun row => like_any real_text term indices row = true)
                    (all_rows t)) |}, db).
Proof.
  intros Hne -> Ht Hcols Hi. unfold search_records.
  destruct (search_columns name) as [|col cols] eqn:E; [done|].
  rewrite with_connect_read. unfold search_query, select_desc.
  by rewrite Ht, Hcols, Hi.
Qed.

(** X17. Search over EMD refunds and projects: for a term without the
    wildcards [%] and [_], the result holds exactly the rows of
    [emd_refunds] in which [tender_number] or [contractor_name], and the
    rows of [projects] in which [project_name], [project_code] or
    [contractor_name], contains the term, where the case of ASCII
    letters is ignored, newest first. *)
Theorem search_emd_refunds_and_projects (db : database) (term : string) :
  initialised db ->
  no_wildcard term = true ->
  (exists t rows,
     db !! "emd_refunds" = Some t /\
     search_records real_text "emd_refunds" term None db =
       (Return {| df_columns := column_names t; df_rows := rows |}, db) /\
     StronglySorted (desc 9) rows /\
     forall row,
       row ∈ rows <->
       row ∈ all_rows t /\ mentions real_text term [1; 2]%nat row) /\
  (exists t rows,
     db !! "projects" = Some t /\
     search_records real_text "projects" term None db =
       (Return {| df_columns := column_names t; df_rows := rows |}, db) /\
     StronglySorted (desc 8) rows /\
     forall row,
       row ∈ rows <->
       row ∈ all_rows t /\ mentions real_text term [1; 2; 3]%nat row).
Proof.
  intros (_ & (te & Hte & Hre & Hce) & (tp & Htp & Hrp & Hcp) & _) Hterm.
  split.
  - exists te. eexists. split; [done|]. split.
    { apply (search_records_eq "emd_refunds" term
               ["tender_number"; "contractor_name"] te 9%nat [1; 2]%nat);
        try done; unfold column_index, column_names; by rewrite Hre, Hce. }
    split; [apply StronglySorted_merge_sort; apply _|].
    intros row. rewrite merge_sort_Permutation, list_elem_of_filter.
    rewrite like_any_mentions by done. tauto.
  - exists tp. eexists. split; [done|]. split.
    { apply (search_records_eq "projects" term
               ["project_name"; "project_code"; "contractor_name"] tp 8%nat
               [1; 2; 3]%nat);
        try done; unfold column_index, column_names; by rewrite Hrp, Hcp. }
    split; [apply StronglySorted_merge_sort; apply _|].
    intros row. rewrite merge_sort_Permutation, list_elem_of_filter.
    rewrite like_any_mentions by done. tauto.
Qed.

(** X18. A search without columns on a name other than "bills",
    "emd_refunds" and "projects", the names compared as they are
    written, returns the empty frame without looking at the database:
    also for "deductions", for "Bills" and for a table that does not
    exist.  With columns given the table is looked up, and whether the
    search returns or raises, the database is left as it was. *)
Theorem search_other_names (db : database) (name term : string) :
  name <> "bills" -> name <> "emd_refunds" -> name <> "projects" ->
  search_records real_text name term None db = (Return empty_frame, db) /\
  search_records real_text name term (Some []) db = (Return empty_frame, db) /\
  forall cols, (search_records real_text name term (Some cols) db).2 = db.
Proof.
  intros H1 H2 H3.
  assert (search_columns name = []) as Hnone.
  { unfold search_columns.
    apply String.eqb_neq in H1, H2, H3. by rewrite H1, H2, H3. }
  unfold search_records. rewrite Hnone. split; [done|]. split; [done|].
  intros [|col cols]; [done|]. by rewrite with_connect_read.
Qed.

Lemma like_any_percent indices row :
  like_any real_text "%" indices row = true <->
  exists i, i ∈ indices /\ cell_at i row <> SNull.
Proof.
  unfold like_any. rewrite existsb_exists. split.
  - intros (i & Hi & H). exists i. split; [by apply list_elem_of_In|].
    by destruct (cell_at i row).
  - intros (i & Hi & H). exists i. split; [by apply list_elem_of_In|].
    unfold like_value.
    assert (forall s, like ("%" ++ "%" ++ "%") s = true) as Hall.
    { intros s. change ("%" ++ "%" ++ "%") with (String "%" "%%").
      apply like_percent_iff. exists "", s. split; [done|].
      apply like_percent_iff. exists "", s. split; [done|].
      apply like_only_percent. }
    destruct (cell_at i row); [done|apply Hall..].
Qed.

(** X19. Wildcards in the term are not escaped: a search for "%"
    returns every bill that has a value other than NULL in one of the
    searched columns, not the bills that contain a percent sign. *)
Theorem search_percent_matches_all (db : database) :
  initialised db ->
  exists t rows,
    db !! "bills" = Some t /\
    search_records real_text "bills" "%" None db =
      (Return {| df_columns := column_names t; df_rows := rows |}, db) /\
    forall row,
      row ∈ rows <->
      row ∈ all_rows t /\
      exists i, i ∈ [1; 3; 4]%nat /\ cell_at i row <> SNull.
Proof.
  intros ((t & Ht & Hr & Hc) & _).
  exists t. eexists. split; [done|]. split.
  { apply (search_records_eq "bills" "%"
             ["bill_number"; "contractor_name"; "project_name"] t 7%nat
             [1; 3; 4]%nat);
      try done; unfold column_index, column_names; by rewrite Hr, Hc. }
  intros row. rewrite merge_sort_Permutation, list_elem_of_filter.
  rewrite like_any_percent. tauto.
Qed.

End MoreSearchFacts.

Section MoreImportFacts.

Variable to_datetime to_numeric : sql_value -> sql_value.
Variable str_accessor_error : string.
Variable parses_as_dates parses_as_numbers : list sql_value -> bool.

Lemma member_elem_of x names : member x names = true <-> x ∈ names.
Proof.
  unfold member. rewrite existsb_exists. split.
  - intros (y & Hy & Heq). apply String.eqb_eq in Heq as ->.
    by apply list_elem_of_In.
  - intros H. exists x. split; [by apply list_elem_of_In|apply String.eqb_refl].
Qed.

Lemma missing_from_nil present wanted :
  missing_from present wanted = [] <-> forall col, col ∈ wanted -> col ∈ present.
Proof.
  split.
  - intros H col Hcol. destruct (decide (col ∈ present)) as [|Hn]; [done|].
    assert (col ∈ missing_from present wanted) as Hin
      by (by apply elem_of_missing_from).
    rewrite H in Hin. by apply elem_of_nil in Hin.
  - intros H. destruct (missing_from present wanted) as [|col l] eqn:E; [done|].
    assert (col ∈ missing_from present wanted) as Hin
      by (rewrite E; apply list_elem_of_here).
    apply elem_of_missing_from in Hin as [Hw Hp]. by apply H in Hw.
Qed.

Lemma when_present_columns f col df :
  df_columns (when_present f col df) = df_columns df.
Proof. unfold when_present. by destruct (member col _). Qed.

Lemma when_present_rows f col df :
  length (df_rows (when_present f col df)) = length (df_rows df).
Proof.
  unfold when_present. destruct (member col _); [|done].
  simpl. by rewrite length_map.
Qed.

Lemma dropna_Return cols df processed :
  dropna cols df = Return processed ->
  df_columns processed = df_columns df /\
  (length (df_rows processed) <= length (df_rows df))%nat /\
  forall row (i : nat) name v,
    row ∈ df_rows processed ->
    df_columns df !! i = Some name -> name ∈ cols ->
    row !! i = Some v -> v <> SNull.
Proof.
  unfold dropna. destruct (missing_from _ _); [|done].
  intros [= <-]. cbn [df_columns df_rows]. split; [done|].
  split; [apply length_filter|].
  intros row i name v Hrow Hname Hcols Hv ->.
  apply list_elem_of_filter in Hrow as [Hrow _].
  apply not_true_iff_false in Hrow. apply Hrow.
  apply existsb_exists. exists (name, SNull). split.
  - apply list_elem_of_In, list_elem_of_lookup. exists i.
    apply lookup_zip_with_Some. by exists name, SNull.
  - simpl. apply andb_true_iff. split; [by apply member_elem_of|done].
Qed.

Lemma process_emd_excel_body_columns (df : DataFrame) :
  df_columns df <> [] ->
  process_emd_excel_body to_datetime to_numeric str_accessor_error (Workbook df) =
  (let! df := read_excel_file (Workbook df) in
   match missing_from (normalised (df_columns df)) expected_columns with
   | [] =>
       let processed := when_present to_datetime "deposit_date" df in
       let processed := when_present to_numeric "emd_amount" processed in
       let! processed := dropna ["tender_number"; "emd_amount"] processed in
       Return (Some processed, None)
   | missing_columns =>
       Return (None, Some ("Missing columns: "
                           ++ String.concat ", " missing_columns))
   end)%outcome.
Proof.
  intros Hne. unfold process_emd_excel_body, str_accessor.
  cbn [read_excel_file obind]. by destruct (df_columns df).
Qed.

Lemma process_emd_excel_no_columns (df : DataFrame) :
  df_columns df = [] ->
  process_emd_excel to_datetime to_numeric str_accessor_error (Workbook df) =
  (None,
   Some ("Error processing EMD Excel file: " ++ str_accessor_error)).
Proof.
  intros Hnil. unfold process_emd_excel, process_emd_excel_body, str_accessor.
  cbn [read_excel_file obind]. by rewrite Hnil.
Qed.

(** X20. When the EMD import succeeds: [process_emd_excel] returns data
    exactly when the headers, lower-cased and with underscores for
    spaces, cover the expected columns and the headers as they are
    written include "tender_number" and "emd_amount".  A sheet that
    passes the check of the columns only thanks to the normalisation
    (a header "Tender Number", say) is answered with the message
    "Error processing EMD Excel file: ..." that carries the [KeyError]
    of the missing headers. *)
Theorem process_emd_excel_succeeds_iff (df : DataFrame) :
  ((exists processed,
      process_emd_excel to_datetime to_numeric str_accessor_error (Workbook df) =
      (Some processed, None)) <->
   (forall col, col ∈ expected_columns -> col ∈ normalised (df_columns df)) /\
   "tender_number" ∈ df_columns df /\ "emd_amount" ∈ df_columns df) /\
  ((forall col, col ∈ expected_columns -> col ∈ normalised (df_columns df)) ->
   ~ ("tender_number" ∈ df_columns df /\ "emd_amount" ∈ df_columns df) ->
   process_emd_excel to_datetime to_numeric str_accessor_error (Workbook df) =
   (None,
    Some ("Error processing EMD Excel file: "
          ++ repr_list (missing_from (df_columns df)
                          ["tender_number"; "emd_amount"])))).
Proof.
  assert (missing_from (df_columns df) ["tender_number"; "emd_amount"] = [] <->
          "tender_number" ∈ df_columns df /\ "emd_amount" ∈ df_columns df)
    as Hraw.
  { rewrite missing_from_nil. split.
    - intros H. split; apply H;
        [apply list_elem_of_here
        | apply list_elem_of_further, list_elem_of_here].
    - intros [H1 H2] col Hcol. set_unfold in Hcol.
      destruct Hcol as [->|[->|[]]]; done. }
  destruct (decide (df_columns df = [])) as [Hnil|Hne].
  { rewrite (process_emd_excel_no_columns df Hnil), Hnil.
    assert (~ forall col, col ∈ expected_columns -> col ∈ normalised [])
      as Hnot.
    { intros H. specialize (H "tender_number" (list_elem_of_here _ _)).
      by apply elem_of_nil in H. }
    split.
    - split; [by intros [? [=]]|]. by intros [? _].
    - done. }
  unfold process_emd_excel.
  rewrite (process_emd_excel_body_columns df Hne).
  cbn [read_excel_file]. cbn -[missing_from expected_columns dropna].
  rewrite <- missing_from_nil.
  unfold dropna. rewrite !when_present_columns.
  destruct (missing_from (normalised _) _) as [|m ms] eqn:E.
  - destruct (missing_from (df_columns df) _) as [|a l] eqn:E2.
    + split.
      * split; [|by eexists]. intros _. split; [done|]. by apply Hraw.
      * intros _ Hn. destruct Hn. by apply Hraw.
    + split.
      * split; [by intros [? [=]]|]. intros [_ H]. by apply Hraw in H.
      * done.
  - split.
    + split; [by intros [? [=]]|]. by intros [[=] _].
    + by intros [=].
Qed.

(** X21. What the EMD import returns: the headers of the sheet
    unchanged, no more rows than the sheet has, and no row with a
    missing value under "tender_number" or under "emd_amount". *)
Theorem process_emd_excel_rows_complete (df processed : DataFrame) :
  process_emd_excel to_datetime to_numeric str_accessor_error (Workbook df) =
    (Some processed, None) ->
  df_columns processed = df_columns df /\
  (length (df_rows processed) <= length (df_rows df))%nat /\
  forall row (i : nat) name v,
    row ∈ df_rows processed ->
    df_columns df !! i = Some name ->
    name = "tender_number" \/ name = "emd_amount" ->
    row !! i = Some v -> v <> SNull.
Proof.
  destruct (decide (df_columns df = [])) as [Hnil|Hne].
  { by rewrite (process_emd_excel_no_columns df Hnil). }
  unfold process_emd_excel.
  rewrite (process_emd_excel_body_columns df Hne).
  cbn [read_excel_file]. cbn -[missing_from expected_columns dropna].
  destruct (missing_from (normalised _) _); [|done].
  destruct (dropna _ _) as [p|e] eqn:E; [|done].
  intros [= ->]. apply dropna_Return in E as (Hc & Hl & Hrows).
  rewrite !when_present_columns in Hc, Hrows.
  rewrite !when_present_rows in Hl.
  split; [done|]. split; [done|].
  intros row i name v Hrow Hname Hcases Hv.
  apply (Hrows row i name v); try done.
  destruct Hcases as [-> | ->];
    [apply list_elem_of_here | apply list_elem_of_further, list_elem_of_here].
Qed.

Lemma elem_of_normalised col columns :
  col ∈ normalised columns <->
  exists c, c ∈ columns /\ col = underscores (lower c).
Proof.
  unfold normalised. rewrite list_elem_of_fmap. split.
  - intros (c & -> & Hc). by exists c.
  - intros (c & Hc & ->). by exists c.
Qed.

(** X22. [validate_excel_structure] reports no error exactly when the
    sheet is not empty and every required column has a header that
    agrees with it after both are lower-cased and their spaces turned
    into underscores. *)
Theorem validate_excel_structure_passes (df : DataFrame)
    (required_columns : list string) :
  (validate_excel_structure parses_as_dates parses_as_numbers df
     required_columns).1 = [] <->
  df_empty df = false /\
  forall col, col ∈ required_columns ->
    exists header, header ∈ df_columns df /\
                   underscores (lower header) = underscores (lower col).
Proof.
  unfold validate_excel_structure.
  destruct (df_empty df); [split; [done|by intros [? _]]|].
  cbn [fst].
  assert (missing_from (normalised (df_columns df))
            (normalised required_columns) = [] <->
          forall col, col ∈ required_columns ->
            exists header, header ∈ df_columns df /\
                           underscores (lower header) = underscores (lower col))
    as <-.
  { rewrite missing_from_nil. split.
    - intros H col Hcol.
      destruct (proj1 (elem_of_normalised _ _)
                  (H (underscores (lower col))
                     (proj2 (elem_of_normalised _ _)
                        (ex_intro _ col (conj Hcol eq_refl)))))
        as (h & Hh & Heq).
      by exists h.
    - intros H col Hcol. apply elem_of_normalised in Hcol as (c & Hc & ->).
      destruct (H c Hc) as (h & Hh & Heq). apply elem_of_normalised.
      by exists h. }
  destruct (missing_from _ _); split; try done; by intros [_ ?].
Qed.

End MoreImportFacts.

(** X23. After a bill is deleted, [get_bill_with_deductions] for its id
    returns no bill row, and the deductions it returned before: they are
    still stored, since nothing enforces the foreign key. *)
Theorem delete_then_join (db : database) (record_id : Z) :
  initialised db ->
  exists t bill_df deduction_df,
    db !! "bills" = Some t /\
    get_bill_with_deductions record_id db =
      (Return (bill_df, deduction_df), db) /\
    get_bill_with_deductions record_id (delete_record "bills" record_id db).2 =
      (Return ({| df_columns := column_names t; df_rows := [] |}, deduction_df),
       (delete_record "bills" record_id db).2).
Proof.
  intros ((tb & Htb & Hr & Hc) & _ & _ & (td & Htd & Hrd & Hcd) & _).
  rewrite delete_record_eq. change (find_table db "bills") with (db !! "bills").
  change (lower "bills") with "bills". rewrite Htb.
  change (t_rowid bills_table) with (Some "id") in Hr. rewrite Hr.
  cbn [snd]. rewrite !get_bill_with_deductions_eq. unfold select_eq, find_table.
  change (lower "bills") with "bills".
  change (lower "deductions") with "deductions".
  rewrite lookup_insert_eq, lookup_insert_ne, Htb, Htd by done.
  assert (column_index tb "id" = Some 0%nat) as Hid
    by (unfold column_index, column_names; by rewrite Hr).
  assert (column_index td "bill_id" = Some 1%nat) as Hbid
    by (unfold column_index, column_names; by rewrite Hrd, Hcd).
  assert (forall rows seq,
            column_index {| t_rowid := Some "id"; t_columns := t_columns tb;
                            t_rows := rows; t_seq := seq |} "id" = Some 0%nat)
    as Hid' by done.
  rewrite Hid, Hid', Hbid. eexists tb, _, _. split; [done|].
  split; [reflexivity|].
  rewrite (filter_none _ (rows_by_rowid
                            {| t_rowid := Some "id"; t_columns := t_columns tb;
                               t_rows := delete record_id (t_rows tb);
                               t_seq := t_seq tb |})).
  { unfold column_names. cbn [t_rowid t_columns]. by rewrite Hr. }
  intros row Hrow. unfold rows_by_rowid in Hrow.
  apply list_elem_of_fmap in Hrow as ([k tuple] & -> & Hk).
  rewrite merge_sort_Permutation in Hk. apply elem_of_map_to_list in Hk.
  cbn [t_rows] in Hk. apply lookup_delete_Some in Hk as [Hne _].
  unfold full_row, cell_at. cbn. intros Heq. apply Z.eqb_eq in Heq. done.
Qed.

(** ** When a bill is stored *)

(** X24. When a bill is stored: on a database with the declared
    tables [save_bill] returns an id exactly when the record has a bill
    number that is not [None], its "deductions" entry, if there is one,
    is not [None], and every deduction listed has the keys "type" and
    "amount". *)
Theorem save_bill_returns_iff (db : database) (bill : bill_data)
    (now : string) :
  initialised db ->
  (exists id db', save_bill real_text bill now db = (Return id, db')) <->
  get (bill_number bill) <> None /\
  deductions bill <> Present None /\
  Forall (fun d => contains (d_type d) = true /\ contains (d_amount d) = true)
         (listed_deductions bill).
Proof.
  intros Hi. split.
  - destruct (save_bill_first_insert db bill now Hi) as (t & _ & Hded1 & ->).
    destruct (get (bill_number bill)); [|by intros (? & ? & [=])].
    unfold save_deductions, listed_deductions.
    destruct (deductions bill) as [|[ds|]]; cbn [contains].
    + done.
    + unfold sbind, lift, item.
      destruct (for_each _ _ _) as [[[]|e] c2] eqn:E;
        [|by intros (? & ? & [=])].
      intros _. split; [done|]. split; [done|].
      by eapply for_each_insert_deduction_keys.
    + unfold sbind, lift, item. by intros (? & ? & [=]).
  - intros (? & ? & ?). by apply save_bill_returns.
Qed.

(** ** The sample data *)

Lemma save_one_Return name schema cols vals now i tuple db :
  lower name = name ->
  has_table db name schema ->
  layout real_text schema cols vals now i tuple ->
  not_null_violation (t_columns schema) tuple = None ->
  exists t,
    db !! name = Some t /\
    with_connect (let! rowid := execute_insert real_text name cols vals now in
                  commit ;; sret rowid)%stmt db =
    (Return (next_rowid t),
     <[name := {| t_rowid := t_rowid t; t_columns := t_columns t;
                  t_rows := <[next_rowid t := tuple]> (t_rows t);
                  t_seq := next_rowid t |}]> db).
Proof.
  intros Hn Ht Hl Hnull. rewrite save_one_unfold.
  destruct (execute_insert_eq name schema cols vals now i db tuple Hn Ht Hl)
    as (t & Hlook & _ & ->).
  rewrite Hnull. by exists t.
Qed.

Lemma initialised_insert db name schema t t' :
  has_table db name schema -> db !! name = Some t ->
  t_rowid t' = t_rowid t -> t_columns t' = t_columns t ->
  initialised db -> initialised (<[name := t']> db).
Proof.
  intros _ Ht Hr Hc Hi. apply (initialised_same_schema db); [|done].
  intros k tk Hk. destruct (decide (k = name)) as [->|Hne].
  - exists t'. rewrite lookup_insert_eq. rewrite Ht in Hk. injection Hk as <-.
    done.
  - exists tk. by rewrite lookup_insert_ne.
Qed.

(** X25. [init_sample_data] does not check for what is there: on every
    database with the declared tables it returns three ids that were
    not in use and has added the sample bill, the sample EMD refund and
    the sample project under them and two deductions, so that a second
    call stores a second copy. *)
Theorem init_sample_data_adds_a_copy (db : database) (now : string) :
  initialised db ->
  exists tb te tp td db' td',
    db !! "bills" = Some tb /\ db !! "emd_refunds" = Some te /\
    db !! "projects" = Some tp /\ db !! "deductions" = Some td /\
    init_sample_data real_text now db =
      (Return (next_rowid tb, next_rowid te, next_rowid tp), db') /\
    initialised db' /\
    t_rows <$> db' !! "bills" =
      Some (<[next_rowid tb := (bill_values sample_bill ++ [SText now])%list]>
              (t_rows tb)) /\
    t_rows <$> db' !! "emd_refunds" =
      Some (<[next_rowid te := (emd_values sample_emd ++ [SText now])%list]>
              (t_rows te)) /\
    t_rows <$> db' !! "projects" =
      Some (<[next_rowid tp :=
                (project_values sample_project ++ [SText now])%list]>
              (t_rows tp)) /\
    db' !! "deductions" = Some td' /\
    size (t_rows td') = (2 + size (t_rows td))%nat /\
    db' !! "settings" = db !! "settings".
Proof.
  intros Hi.
  rewrite <- (eq_refl : bill_row sample_bill now
                        = (bill_values sample_bill ++ [SText now])%list).
  rewrite <- (eq_refl : emd_row sample_emd now
                        = (emd_values sample_emd ++ [SText now])%list).
  rewrite <- (eq_refl : project_row sample_project now
                        = (project_values sample_project ++ [SText now])%list).
  unfold init_sample_data, andthen.
  rewrite init_database_noop.
  2:{ destruct Hi as ((? & ? & _) & (? & ? & _) & (? & ? & _) & (? & ? & _)
                      & (? & ? & _)).
      intros name Hname. unfold table_names in Hname.
      repeat (apply elem_of_cons in Hname as [->|Hname]);
        [..|by apply elem_of_nil in Hname]; by eexists. }
  destruct (save_bill real_text sample_bill now db) as [[id|e] db1] eqn:Esave.
  2:{ destruct (save_bill_returns db sample_bill now Hi) as (? & ? & E);
        [done|done|repeat constructor|].
      by rewrite E in Esave. }
  pose proof (save_bill_initialised _ _ _ _ _ Hi Esave) as Hi1.
  destruct (save_bill_Return _ _ _ _ _ Hi Esave)
    as (tb & td & td' & news & Htb & Htd & -> & Htb' & Htd' & Hrd & Hcd & Hperm
        & Hnews & Hother).
  pose proof Hi1 as (Hb1 & He1 & Hp1 & Hd1 & Hs1).
  destruct (save_one_Return "emd_refunds" emd_refunds_table emd_columns
              (emd_values sample_emd) now 9%nat
              (emd_row sample_emd now) db1)
    as (te & Hte & Eemd); [done|done|apply emd_refunds_layout|done|].
  unfold save_emd_refund. rewrite Eemd.
  set (db2 := <["emd_refunds" := _]> db1).
  assert (has_table db2 "projects" projects_table) as Hp2.
  { destruct Hp1 as (tp & Htp & ?). exists tp. subst db2.
    by rewrite lookup_insert_ne. }
  destruct (save_one_Return "projects" projects_table project_columns
              (project_values sample_project) now 8%nat
              (project_row sample_project now) db2)
    as (tp & Htp & Eprj); [done|done|apply projects_layout|done|].
  unfold save_project. rewrite Eprj.
  assert (db2 !! "projects" = db1 !! "projects") as Hp21
    by (subst db2; by rewrite lookup_insert_ne).
  exists tb, te, tp, td. eexists _, td'.
  rewrite <- (Hother "emd_refunds"), Hte by done.
  rewrite <- (Hother "projects"), <- Hp21, Htp by done.
  split; [done|]. split; [done|]. split; [done|]. split; [done|].
  split; [reflexivity|]. split.
  { pose proof He1 as (te1 & Hte1 & Hre1 & Hce1).
    rewrite Hte in Hte1. injection Hte1 as <-.
    pose proof Hp2 as (tp2 & Htp2 & Hrp2 & Hcp2).
    rewrite Htp in Htp2. injection Htp2 as <-.
    apply (initialised_insert db2 "projects" projects_table tp); try done.
    apply (initialised_insert db1 "emd_refunds" emd_refunds_table te);
      try done. }
  subst db2. split.
  { by rewrite !lookup_insert_ne, Htb' by done. }
  split.
  { by rewrite lookup_insert_ne, lookup_insert_eq by done. }
  split.
  { by rewrite lookup_insert_eq. }
  split.
  { by rewrite !lookup_insert_ne, Htd' by done. }
  split.
  { rewrite (size_Permutation_app _ _ _ Hperm).
    by rewrite <- (length_fmap snd news), Hnews. }
  rewrite !lookup_insert_ne by done. by apply Hother.
Qed.

End LedgerFacts.

(** * Examples *)

Ltac tables_present :=
  repeat split; eexists; (split; [reflexivity | split; reflexivity]).

Lemma fresh_db_initialised : initialised fresh_db.
Proof. tables_present. Qed.

Lemma sample_db_initialised : initialised sample_db.
Proof. tables_present. Qed.

Lemma lowercase_db_initialised : initialised lowercase_db.
Proof. tables_present. Qed.

Lemma march_db_initialised : initialised march_db.
Proof. tables_present. Qed.

Lemma save_then_list_roundtrip_witness :
  (exists df,
     get_bills None (save_bill (fun _ => "") sample_bill sample_now fresh_db).2
       = (Return df,
          (save_bill (fun _ => "") sample_bill sample_now fresh_db).2) /\
     forall row,
       row ∈ df_rows df /\ row !! 0%nat = Some (SInt 1) <->
       row = [SInt 1; SText "B001/2024"; SText "2024-01-15";
              SText "ABC Construction"; SText "Road Construction Project";
              SReal 500000; SText "Active"; SText sample_now]) /\
  (exists df,
     get_emd_refunds None
       (save_emd_refund (fun _ => "") sample_emd sample_now fresh_db).2
       = (Return df,
          (save_emd_refund (fun _ => "") sample_emd sample_now fresh_db).2) /\
     forall row,
       row ∈ df_rows df /\ row !! 0%nat = Some (SInt 1) <->
       row = [SInt 1; SText "T001/2024"; SText "XYZ Builders"; SReal 50000;
              SText "2024-01-10"; SText "2024-02-10"; SReal 6; SReal 50500;
              SText "Processed"; SText sample_now]) /\
  (exists df,
     get_projects None
       (save_project (fun _ => "") sample_project sample_now fresh_db).2
       = (Return df,
          (save_project (fun _ => "") sample_project sample_now fresh_db).2) /\
     forall row,
       row ∈ df_rows df /\ row !! 0%nat = Some (SInt 1) <->
       row = [SInt 1; SText "Bridge Construction"; SText "PWD/BRG/001";
              SText "PQR Infrastructure"; SReal 2000000; SText "2024-01-01";
              SText "2024-12-31"; SText "Active"; SText sample_now]).
Proof.
  destruct (save_then_list_roundtrip (fun _ => "") fresh_db sample_now
              fresh_db_initialised) as (Hbill & Hemd & Hproject & _).
  split; [|split].
  - destruct (Hbill sample_bill 1 _ eq_refl) as (df & Hdf & _ & Hrow).
    exists df. exact (conj Hdf Hrow).
  - destruct (Hemd sample_emd 1 _ eq_refl) as (df & Hdf & _ & Hrow).
    exists df. exact (conj Hdf Hrow).
  - destruct (Hproject sample_project 1 _ eq_refl) as (df & Hdf & _ & Hrow).
    exists df. exact (conj Hdf Hrow).
Defined.

(** Against C3 as stated: a date given as "20240115" does not come back
    as it was given; the listing shows the integer 20240115. *)
Lemma compact_date_comes_back_as_number :
  ~ (forall bill id db' df,
       save_bill (fun _ => "") bill sample_now fresh_db = (Return id, db') ->
       (get_bills None db').1 = Return df ->
       exists row, row ∈ df_rows df /\
                   cell_at 2 row = bind_text (get (bill_date bill))).
Proof.
  intros H.
  destruct (H compact_date_bill 1 _ _ eq_refl eq_refl) as (row & Hrow & Hcell).
  vm_compute in Hrow. apply elem_of_cons in Hrow as [->|Hrow].
  - vm_compute in Hcell. discriminate Hcell.
  - by apply elem_of_nil in Hrow.
Qed.

Example compact_date_bill_listed :
  exists df,
    get_bills None
      (save_bill (fun _ => "") compact_date_bill sample_now fresh_db).2
      = (Return df,
         (save_bill (fun _ => "") compact_date_bill sample_now fresh_db).2) /\
    df_rows df =
      [ [SInt 1; SText "B004/2024"; SInt 20240115; SText "ABC Construction";
         SText "Road Construction Project"; SReal 120000; SText "Active";
         SText sample_now] ].
Proof. eexists. split; [reflexivity|]. vm_compute. reflexivity. Qed.

Lemma listing_newest_first_witness :
  (exists t, march_db !! "bills" = Some t /\
             lists_newest_first get_bills t 7 march_db) /\
  (exists t, march_db !! "emd_refunds" = Some t /\
             lists_newest_first get_emd_refunds t 9 march_db) /\
  (exists t, march_db !! "projects" = Some t /\
             lists_newest_first get_projects t 8 march_db).
Proof. exact (listing_newest_first march_db march_db_initialised). Defined.

(** The records of [march_db] are listed by their moments, the latest
    first, whatever the order in which they were saved. *)
Example march_refunds_and_projects_newest_first :
  (exists df,
     get_emd_refunds None march_db = (Return df, march_db) /\
     map (fun row => (cell_at 0 row, cell_at 9 row)) (df_rows df) =
       [ (SInt 1, SText "2024-03-02 11:00:00");
         (SInt 2, SText "2024-03-01 11:00:00") ]) /\
  (exists df,
     get_projects None march_db = (Return df, march_db) /\
     map (fun row => (cell_at 0 row, cell_at 8 row)) (df_rows df) =
       [ (SInt 2, SText "2024-03-04 12:00:00");
         (SInt 1, SText "2024-03-01 12:00:00") ]) /\
  (exists df,
     get_projects (Some 1) march_db = (Return df, march_db) /\
     map (cell_at 0) (df_rows df) = [SInt 2]).
Proof.
  repeat split; eexists; (split; [reflexivity|]); vm_compute; reflexivity.
Qed.

(** The three bills of [march_db], saved in the order B-02, B-01, B-03,
    are listed by their days, the latest first, and a limit of two keeps
    the first two of them. *)
Example march_bills_newest_first :
  (exists df,
     get_bills None march_db = (Return df, march_db) /\
     map (fun row => (cell_at 1 row, cell_at 7 row)) (df_rows df) =
       [ (SText "B-03", SText "2024-03-03 10:00:00");
         (SText "B-02", SText "2024-03-02 10:00:00");
         (SText "B-01", SText "2024-03-01 10:00:00") ]) /\
  (exists df,
     get_bills (Some 2) march_db = (Return df, march_db) /\
     map (cell_at 1) (df_rows df) = [SText "B-03"; SText "B-02"]).
Proof.
  split; eexists; (split; [reflexivity|]); vm_compute; reflexivity.
Qed.

(** Against C9 as stated: a limit of 0 does not bound the listing. *)
Lemma limit_zero_lists_everything :
  ~ (forall n df, 0 <= n ->
       (get_bills (Some n) sample_db).1 = Return df ->
       (length (df_rows df) <= Z.to_nat n)%nat).
Proof.
  intros H. specialize (H 0 _ (Z.le_refl 0) eq_refl).
  vm_compute in H. lia.
Qed.

Lemma save_with_missing_fields_witness :
  stored "bills"
    [SText "B7"; SNull; SNull; SNull; SNull; SText "Active"; SText sample_now]
    fresh_db (save_bill (fun _ => "") (bill_numbered "B7") sample_now fresh_db) /\
  rejected fresh_db (save_bill (fun _ => "") empty_bill sample_now fresh_db).
Proof.
  destruct (save_with_missing_fields (fun _ => "") fresh_db sample_now
              fresh_db_initialised)
    as (H1 & _ & _ & H4 & _).
  split; [exact (H1 "B7") | exact (H4 empty_bill eq_refl)].
Defined.

(** Against C5 as stated: the empty record is not inserted. *)
Lemma empty_bill_is_rejected :
  ~ exists id db',
      save_bill (fun _ => "") empty_bill sample_now fresh_db = (Return id, db').
Proof. intros (id & db' & H). discriminate H. Qed.

Lemma delete_bill_frame_witness :
  exists t rows' deleted,
    sample_db !! "bills" = Some t /\
    delete_record "bills" 1 sample_db =
      (Return deleted,
       <["bills" := {| t_rowid := t_rowid t; t_columns := t_columns t;
                       t_rows := rows'; t_seq := t_seq t |}]> sample_db) /\
    (deleted = true <-> is_Some (t_rows t !! 1)) /\
    rows' !! 1 = None /\
    (forall k, k <> 1 -> rows' !! k = t_rows t !! k) /\
    (forall name, name <> "bills" ->
       (snd (delete_record "bills" 1 sample_db)) !! name = sample_db !! name) /\
    (snd (delete_record "bills" 1 sample_db)) !! "deductions"
      = sample_db !! "deductions".
Proof. exact (delete_bill_frame sample_db 1 sample_db_initialised). Defined.

(** The deductions of the sample bill outlive it. *)
Example orphan_deductions :
  (fst (delete_record "bills" 1 sample_db),
   tuples <$> (snd (delete_record "bills" 1 sample_db)) !! "bills",
   tuples <$> (snd (delete_record "bills" 1 sample_db)) !! "deductions")
  = (Return true, Some [],
     Some [ [SInt 1; SText "Security Deposit"; SReal 25000; SReal 5; SInt 0;
             SText sample_now];
            [SInt 1; SText "Income Tax"; SReal 5000; SReal 1; SInt 1;
             SText sample_now] ]).
Proof. reflexivity. Qed.

Lemma save_bill_atomic_witness :
  (save_bill (fun _ => "") broken_bill sample_now fresh_db).2 = fresh_db /\
  exists tb tb' td td',
    fresh_db !! "bills" = Some tb /\
    (save_bill (fun _ => "") sample_bill sample_now fresh_db).2 !! "bills"
      = Some tb' /\
    fresh_db !! "deductions" = Some td /\
    (save_bill (fun _ => "") sample_bill sample_now fresh_db).2 !! "deductions"
      = Some td' /\
    t_rows tb !! 1 = None /\
    t_rows tb' = <[1 := bill_row sample_bill sample_now]> (t_rows tb) /\
    map (take 5) (tuples td') ≡ₚ
      (map (stored_deduction 1) (listed_deductions sample_bill)
       ++ map (take 5) (tuples td))%list.
Proof.
  destruct (save_bill_atomic (fun _ => "") fresh_db sample_bill sample_now)
    as (_ & Hstores).
  destruct (Hstores fresh_db_initialised) as (_ & Hstored).
  destruct (Hstored 1 _ eq_refl)
    as (tb & tb' & td & td' & H1 & H2 & H3 & H4 & H5 & H6 & H7 & _).
  split.
  - exact (proj1 (save_bill_atomic (fun _ => "") fresh_db broken_bill
                    sample_now) (KeyError "'amount'") _ eq_refl).
  - exists tb, tb', td, td'.
    exact (conj H1 (conj H2 (conj H3 (conj H4 (conj H5 (conj H6 H7)))))).
Defined.

(** The sample bill persists, with its two deductions. *)
Example sample_bill_is_stored :
  (fst (save_bill (fun _ => "") sample_bill sample_now fresh_db),
   tuples <$> (save_bill (fun _ => "") sample_bill sample_now fresh_db).2
              !! "bills",
   tuples <$> (save_bill (fun _ => "") sample_bill sample_now fresh_db).2
              !! "deductions")
  = (Return 1,
     Some [ [SText "B001/2024"; SText "2024-01-15"; SText "ABC Construction";
             SText "Road Construction Project"; SReal 500000; SText "Active";
             SText sample_now] ],
     Some [ [SInt 1; SText "Security Deposit"; SReal 25000; SReal 5; SInt 0;
             SText sample_now];
            [SInt 1; SText "Income Tax"; SReal 5000; SReal 1; SInt 1;
             SText sample_now] ]).
Proof. vm_compute. reflexivity. Qed.

(** When the second deduction of [broken_bill] raises, the bill and its
    first deduction are already in the open transaction. *)
Example broken_bill_fails_midway :
  exists c,
    save_bill_body (fun _ => "") broken_bill sample_now
      {| committed := fresh_db; pending := fresh_db |}
      = (Raise (KeyError "'amount'"), c) /\
    committed c = fresh_db /\
    tuples <$> pending c !! "bills" =
      Some [ [SText "B002/2024"; SText "2024-02-01"; SText "ABC Construction";
              SText "Road Construction Project"; SReal 100000; SText "Active";
              SText sample_now] ] /\
    tuples <$> pending c !! "deductions" =
      Some [ [SInt 1; SText "Income Tax"; SReal 1000; SReal 1; SInt 1;
              SText sample_now] ].
Proof. eexists. split; [vm_compute; reflexivity|]. repeat split. Qed.

Lemma search_bills_witness :
  exists t rows,
    sample_db !! "bills" = Some t /\
    search_records (fun _ => "") "bills" "abc" None sample_db =
      (Return {| df_columns := column_names t; df_rows := rows |}, sample_db) /\
    StronglySorted (desc 7) rows /\
    rows ≡ₚ filter (fun row => like_any (fun _ => "") "abc" [1; 3; 4]%nat row = true)
              (all_rows t) /\
    forall row,
      row ∈ rows <->
      row ∈ all_rows t /\ mentions (fun _ => "") "abc" [1; 3; 4]%nat row.
Proof.
  exact (search_bills (fun _ => "") sample_db "abc" sample_db_initialised eq_refl).
Defined.

(** Against C4 as stated: a search for "ABC" returns the bill of
    "abc builders", none of whose searched columns contains "ABC". *)
Lemma search_ignores_case :
  ~ (forall (real_text : Q -> string) df row,
       (search_records real_text "bills" "ABC" None lowercase_db).1 = Return df ->
       row ∈ df_rows df ->
       exists i s, i ∈ [1; 3; 4]%nat /\ cell_at i row = SText s /\
                   infix_of "ABC" s = true).
Proof.
  intros H.
  destruct (H (fun _ => "") _ _ eq_refl (list_elem_of_here _ _))
    as (i & s & Hi & Hs & Hinfix).
  repeat (apply elem_of_cons in Hi as [->|Hi]);
    [| | |by apply elem_of_nil in Hi];
    vm_compute in Hs; injection Hs as <-; vm_compute in Hinfix;
    discriminate Hinfix.
Qed.



Example empty_sheet_message :
  process_emd_excel (fun v => v) (fun v => v) accessor_message
    (Workbook empty_frame) =
  (None, Some ("Error processing EMD Excel file: " ++ accessor_message)).
Proof. reflexivity. Qed.


(** ** Further examples *)

Lemma consistent_by_computation db :
  forallb (fun kt : string * table =>
             forallb (fun kv : Z * list sql_value =>
                        Nat.eqb (length kv.2) (length (t_columns kt.2))
                        && bool_decide
                             (not_null_violation (t_columns kt.2) kv.2 = None))
                     (map_to_list (t_rows kt.2)))
          (map_to_list db) = true ->
  consistent db.
Proof.
  intros H name t Ht k tuple Hk. rewrite forallb_forall in H.
  apply elem_of_map_to_list, list_elem_of_In, H in Ht. cbn [snd] in Ht.
  rewrite forallb_forall in Ht.
  apply elem_of_map_to_list, list_elem_of_In, Ht in Hk. cbn [snd] in Hk.
  apply andb_true_iff in Hk as [Hlen Hnull].
  split; [by apply Nat.eqb_eq|by apply bool_decide_eq_true in Hnull].
Qed.

Lemma references_known_by_computation db tb td :
  db !! "bills" = Some tb -> db !! "deductions" = Some td ->
  forallb (fun kv : Z * list sql_value =>
             match cell_at 0 kv.2 with
             | SInt z => (z <=? t_seq tb)%Z
             | SReal _ => false
             | _ => true
             end) (map_to_list (t_rows td)) = true ->
  references_known db.
Proof.
  intros Htb Htd H. exists tb, td. split; [done|]. split; [done|].
  intros k tuple b Hk Hb. rewrite forallb_forall in H.
  apply elem_of_map_to_list, list_elem_of_In, H in Hk. cbn [snd] in Hk.
  destruct (cell_at 0 tuple); try done. cbn in Hb.
  apply Z.eqb_eq in Hb. apply Z.leb_le in Hk. by subst b.
Qed.

Lemma sample_db_consistent : consistent sample_db.
Proof. apply consistent_by_computation. vm_compute. reflexivity. Qed.

Lemma sample_db_references_known : references_known sample_db.
Proof.
  apply (references_known_by_computation sample_db
           (table_of sample_db "bills") (table_of sample_db "deductions"));
    vm_compute; reflexivity.
Qed.

Lemma rowid_never_reused_witness :
  exists tb tb1,
    sample_db !! "bills" = Some tb /\
    (save_bill (fun _ => "") lowercase_bill sample_now sample_db).2 !! "bills" = Some tb1 /\
    t_seq tb < 2 /\ t_seq tb1 = 2 /\
    forall k row, t_rows tb !! k = Some row -> k < 2.
Proof.
  exact (proj1 (rowid_never_reused (fun _ => "") sample_db lowercase_bill
                  sample_now 2 _ eq_refl)).
Defined.

Lemma delete_then_list_witness :
  exists df df',
    get_bills None sample_db = (Return df, sample_db) /\
    get_bills None (delete_record "bills" 1 sample_db).2 =
      (Return df', (delete_record "bills" 1 sample_db).2) /\
    forall row,
      row ∈ df_rows df' <->
      row ∈ df_rows df /\ row !! 0%nat <> Some (SInt 1).
Proof. exact (delete_then_list sample_db 1 sample_db_initialised). Defined.

Lemma update_record_effect_witness :
  exists tuple',
    update_record (fun _ => "") int_rowid "bills" 1
      [("Status", SText "Paid"); ("bill_date", SText "20240115");
       ("contractor_name", SInt 7)] sample_db =
      (Return true,
       <["bills" := {| t_rowid := Some "id";
                       t_columns := t_columns bills_table;
                       t_rows := <[1 := tuple']>
                                   (t_rows (table_of sample_db "bills"));
                       t_seq := 1 |}]> sample_db) /\
    length tuple' = 7%nat /\
    forall (j : nat) c,
      t_columns bills_table !! j = Some c ->
      tuple' !! j =
      (fun old =>
         match last_assigned (c_name c)
                 [("Status", SText "Paid"); ("bill_date", SText "20240115");
                  ("contractor_name", SInt 7)] with
         | Some v => apply_affinity (fun _ => "") (column_affinity c) v
         | None => old
         end)
        <$> bill_row sample_bill sample_now !! j.
Proof.
  exact (update_record_effect (fun _ => "") int_rowid sample_db "bills"
           (table_of sample_db "bills") 1
           (bill_row sample_bill sample_now)
           [("Status", SText "Paid"); ("bill_date", SText "20240115");
            ("contractor_name", SInt 7)]
           eq_refl ltac:(repeat constructor) eq_refl eq_refl eq_refl
           ltac:(discriminate) eq_refl eq_refl eq_refl).
Defined.

(** The row after that update: the date, written as a compact number,
    is stored as the integer, and the integer given for the name of the
    contractor as its text. *)
Lemma update_converts_by_affinity :
  t_rows
    (table_of
       (update_record (fun _ => "") int_rowid "bills" 1
          [("Status", SText "Paid"); ("bill_date", SText "20240115");
           ("contractor_name", SInt 7)] sample_db).2 "bills") !! 1 =
  Some [SText "B001/2024"; SInt 20240115; SText "7";
        SText "Road Construction Project"; SReal 500000;
        SText "Paid"; SText sample_now].
Proof. vm_compute. reflexivity. Qed.

(** [rowid] is a column of [bills] though the table does not declare
    it: assigning it moves the row. *)
Lemma update_of_rowid_moves_the_row :
  update_record (fun _ => "") int_rowid "bills" 1 [("rowid", SInt 50)]
    sample_db =
  (Return true,
   <["bills" := {| t_rowid := Some "id";
                   t_columns := t_columns bills_table;
                   t_rows := {[ 50 := bill_row sample_bill sample_now ]};
                   t_seq := 1 |}]> sample_db).
Proof. vm_compute. reflexivity. Qed.

Lemma update_absent_witness :
  update_record (fun _ => "") int_rowid "bills" 99 [("status", SText "Paid")] sample_db =
    (Return false, sample_db).
Proof.
  exact (update_absent (fun _ => "") int_rowid sample_db "bills"
           (table_of sample_db "bills")
           "id" 99 [("status", SText "Paid")]
           eq_refl eq_refl eq_refl ltac:(discriminate) eq_refl).
Defined.

Lemma rows_stay_well_formed_witness :
  consistent (save_bill (fun _ => "") lowercase_bill sample_now sample_db).2 /\
  consistent
    (update_record (fun _ => "") int_rowid "bills" 1 [("status", SNull)] sample_db).2.
Proof.
  destruct (rows_stay_well_formed (fun _ => "") int_rowid sample_db
              sample_db_consistent)
    as (_ & Hsave & _ & _ & _ & Hupdate & _).
  exact (conj (Hsave lowercase_bill sample_now)
              (Hupdate "bills" 1 [("status", SNull)])).
Defined.

Lemma save_then_join_witness :
  exists bill_df deduction_df,
    get_bill_with_deductions 2 (save_bill (fun _ => "") sample_bill sample_now sample_db).2 =
      (Return (bill_df, deduction_df),
       (save_bill (fun _ => "") sample_bill sample_now sample_db).2) /\
    df_rows bill_df = [SInt 2 :: bill_row sample_bill sample_now] /\
    map (fun row => take 5 (drop 1 row)) (df_rows deduction_df) ≡ₚ
      map (stored_deduction 2) (listed_deductions sample_bill).
Proof.
  exact (save_then_join (fun _ => "") sample_db sample_bill sample_now 2 _
           sample_db_initialised sample_db_references_known eq_refl).
Defined.

Lemma statistics_after_save_bill_witness :
  exists s s',
    get_statistics (fun _ => 0%Q) sample_db = (Return s, sample_db) /\
    get_statistics (fun _ => 0%Q)
      (save_bill (fun _ => "") sample_bill sample_now sample_db).2 =
      (Return s', (save_bill (fun _ => "") sample_bill sample_now sample_db).2) /\
    (stat "total_bills" s' == stat "total_bills" s + 1)%Q /\
    (stat "total_deductions" s' == stat "total_deductions" s + 2)%Q /\
    (stat "total_active_bills_amount" s' ==
     stat "total_active_bills_amount" s + 500000)%Q.
Proof.
  destruct (statistics_after_save_bill (fun _ => "") (fun _ => 0%Q) sample_db
              sample_bill
              sample_now 2 _ sample_db_initialised eq_refl)
    as (s & s' & Hs & Hs' & Hbills & Hdeductions & Hamount & _).
  exists s, s'. exact (conj Hs (conj Hs' (conj Hbills (conj Hdeductions Hamount)))).
Defined.

Lemma statistics_after_delete_bill_witness :
  exists s s',
    get_statistics (fun _ => 0%Q) sample_db = (Return s, sample_db) /\
    get_statistics (fun _ => 0%Q) (delete_record "bills" 1 sample_db).2 =
      (Return s', (delete_record "bills" 1 sample_db).2) /\
    (stat "total_bills" s' == stat "total_bills" s - 1)%Q /\
    stat "total_deductions" s' = stat "total_deductions" s.
Proof.
  destruct (statistics_after_delete_bill (fun _ => 0%Q) sample_db 1 _
              sample_db_initialised eq_refl)
    as (s & s' & Hs & Hs' & Hbills & Hdeductions & _).
  exists s, s'. exact (conj Hs (conj Hs' (conj Hbills Hdeductions))).
Defined.

Lemma search_emd_refunds_and_projects_witness :
  exists t rows,
    sample_db !! "emd_refunds" = Some t /\
    search_records (fun _ => "") "emd_refunds" "xyz" None sample_db =
      (Return {| df_columns := column_names t; df_rows := rows |}, sample_db) /\
    StronglySorted (desc 9) rows /\
    forall row,
      row ∈ rows <->
      row ∈ all_rows t /\ mentions (fun _ => "") "xyz" [1; 2]%nat row.
Proof.
  exact (proj1 (search_emd_refunds_and_projects (fun _ => "") sample_db "xyz"
                  sample_db_initialised eq_refl)).
Defined.

Lemma search_other_names_witness :
  search_records (fun _ => "") "deductions" "Income" None sample_db =
    (Return empty_frame, sample_db) /\
  search_records (fun _ => "") "Bills" "B001" None sample_db =
    (Return empty_frame, sample_db).
Proof.
  exact (conj
           (proj1 (search_other_names (fun _ => "") sample_db "deductions"
                     "Income" ltac:(discriminate) ltac:(discriminate)
                     ltac:(discriminate)))
           (proj1 (search_other_names (fun _ => "") sample_db "Bills"
                     "B001" ltac:(discriminate) ltac:(discriminate)
                     ltac:(discriminate)))).
Defined.

(** With the columns named, the search reads the table it is given:
    [deductions] has rows that mention the word. *)
Lemma search_deductions_by_column :
  exists df,
    search_records (fun _ => "") "deductions" "Income"
      (Some ["deduction_type"]) sample_db = (Return df, sample_db) /\
    length (df_rows df) = 1%nat.
Proof. eexists. split; [vm_compute; reflexivity|reflexivity]. Qed.

Lemma search_percent_matches_all_witness :
  exists t rows,
    sample_db !! "bills" = Some t /\
    search_records (fun _ => "") "bills" "%" None sample_db =
      (Return {| df_columns := column_names t; df_rows := rows |}, sample_db) /\
    forall row,
      row ∈ rows <->
      row ∈ all_rows t /\
      exists i, i ∈ [1; 3; 4]%nat /\ cell_at i row <> SNull.
Proof.
  exact (search_percent_matches_all (fun _ => "") sample_db
           sample_db_initialised).
Defined.

Lemma process_emd_excel_rows_complete_witness :
  process_emd_excel (fun v => v) (fun v => v) accessor_message
    (Workbook emd_sheet) =
    (Some {| df_columns := df_columns emd_sheet;
             df_rows := take 1 (df_rows emd_sheet) |}, None) /\
  forall row (i : nat) name v,
    row ∈ take 1 (df_rows emd_sheet) ->
    df_columns emd_sheet !! i = Some name ->
    name = "tender_number" \/ name = "emd_amount" ->
    row !! i = Some v -> v <> SNull.
Proof.
  split; [reflexivity|].
  exact (proj2 (proj2 (process_emd_excel_rows_complete
                         (fun v => v) (fun v => v) accessor_message emd_sheet
                         {| df_columns := df_columns emd_sheet;
                            df_rows := take 1 (df_rows emd_sheet) |}
                         eq_refl))).
Defined.

Lemma delete_then_join_witness :
  exists t bill_df deduction_df,
    sample_db !! "bills" = Some t /\
    get_bill_with_deductions 1 sample_db =
      (Return (bill_df, deduction_df), sample_db) /\
    get_bill_with_deductions 1 (delete_record "bills" 1 sample_db).2 =
      (Return ({| df_columns := column_names t; df_rows := [] |}, deduction_df),
       (delete_record "bills" 1 sample_db).2).
Proof. exact (delete_then_join sample_db 1 sample_db_initialised). Defined.

Lemma save_bill_returns_iff_witness :
  (exists id db', save_bill (fun _ => "") broken_bill sample_now sample_db = (Return id, db'))
  <->
  get (bill_number broken_bill) <> None /\
  deductions broken_bill <> Present None /\
  Forall (fun d => contains (d_type d) = true /\ contains (d_amount d) = true)
         (listed_deductions broken_bill).
Proof.
  exact (save_bill_returns_iff (fun _ => "") sample_db broken_bill sample_now
           sample_db_initialised).
Defined.

Lemma init_sample_data_adds_a_copy_witness :
  exists db',
    init_sample_data (fun _ => "") sample_now sample_db = (Return (2, 2, 2), db') /\
    initialised db' /\
    size <$> (t_rows <$> db' !! "bills") = Some 2%nat.
Proof.
  destruct (init_sample_data_adds_a_copy (fun _ => "") sample_db sample_now
              sample_db_initialised)
    as (tb & te & tp & td & db' & td' & Htb & Hte & Htp & Htd & Hrun & Hi
        & Hbills & _).
  exists db'. injection Htb as <-. injection Hte as <-. injection Htp as <-.
  split; [exact Hrun|]. split; [exact Hi|]. rewrite Hbills. reflexivity.
Defined.

Lemma only_declared_by_computation db :
  forallb (fun kt : string * table => bool_decide (kt.1 ∈ table_names))
          (map_to_list db) = true ->
  forall k, is_Some (db !! k) -> k ∈ table_names.
Proof.
  intros H k [t Ht]. rewrite forallb_forall in H.
  apply elem_of_map_to_list, list_elem_of_In, H in Ht.
  by apply bool_decide_eq_true in Ht.
Qed.

Lemma sample_db_only_declared :
  forall k, is_Some (sample_db !! k) -> k ∈ table_names.
Proof. apply only_declared_by_computation. vm_compute. reflexivity. Qed.

Lemma delete_raises_witness :
  (exists e, (delete_record "settings" 1 sample_db).1 = Raise e) /\
  ~ (exists e, (delete_record "Deductions" 1 sample_db).1 = Raise e).
Proof.
  split.
  - apply (proj1 (delete_raises sample_db "settings" 1 sample_db_initialised
                    sample_db_only_declared eq_refl)).
    intros H. by repeat (apply elem_of_cons in H as [H|H]);
      [..|apply elem_of_nil in H].
  - intros H.
    apply (proj1 (delete_raises sample_db "Deductions" 1
                    sample_db_initialised sample_db_only_declared eq_refl))
      in H.
    apply H. vm_compute. do 3 right. left.
Defined.

Lemma delete_absent_witness :
  delete_record "bills" 99 sample_db = (Return false, sample_db).
Proof.
  exact (proj1 (delete_absent sample_db "bills" 99)
           (table_of sample_db "bills") "id" eq_refl eq_refl eq_refl).
Defined.

Lemma save_without_table_witness :
  exists msg,
    save_bill (fun _ => "") sample_bill sample_now ∅ = (Raise (OperationalError msg), ∅).
Proof.
  exact (proj1 (save_without_table (fun _ => "") ∅ sample_now) eq_refl
           sample_bill).
Defined.

Lemma references_stay_known_witness :
  references_known (save_bill (fun _ => "") sample_bill sample_now sample_db).2 /\
  references_known (delete_record "bills" 1 sample_db).2.
Proof.
  destruct (proj2 (references_stay_known (fun _ => "") sample_db)
              sample_db_initialised
              sample_db_references_known) as (Hsave & _ & _ & Hdelete).
  exact (conj (Hsave sample_bill sample_now) (Hdelete "bills" 1)).
Defined.

Lemma process_emd_excel_succeeds_iff_witness :
  process_emd_excel (fun v => v) (fun v => v) accessor_message
    (Workbook {| df_columns := ["Tender Number"; "Contractor Name";
                                "EMD Amount"; "Deposit Date"; "Status"];
                 df_rows := [] |}) =
  (None,
   Some "Error processing EMD Excel file: ['tender_number', 'emd_amount']").
Proof.
  refine (proj2 (process_emd_excel_succeeds_iff (fun v => v) (fun v => v)
                   accessor_message
                   {| df_columns := ["Tender Number"; "Contractor Name";
                                     "EMD Amount"; "Deposit Date"; "Status"];
                      df_rows := [] |}) _ _).
  - apply Forall_forall. vm_compute. repeat constructor.
  - intros [H _]. vm_compute in H. by repeat (apply elem_of_cons in H as [H|H]);
      [..|apply elem_of_nil in H].
Defined.
